(** * hyprknot: the record codec, the validator, the zone guard and the
      transactional record store of package [knot]

    The development embeds [internal/knot/types.go] and
    [internal/knot/client.go], together with the second copy of each file
    that the repository carries, and states the properties of the
    specification over these definitions.

    Conventions.
    - A Go [string] is a byte sequence: Rocq's [string], whose characters
      are the bytes.
    - [uint32] and [uint16] values are [N]; the only place where the range
      matters is [strconv.ParseUint], which checks it.
    - A nil-able pointer ([*uint16], [*DNSRecord], [error]) is an [option].
    - The functions of Go's standard library that the package calls are
      modelled in the modules [strings] and [strconv] below, on bytes, the
      way Go defines them. *)

From Stdlib Require Import String Ascii List NArith ZArith Bool Lia Arith.
From Stdlib Require Import Decimal DecimalString DecimalN.
Import ListNotations.
Open Scope list_scope.
Open Scope string_scope.

(* ================================================================== *)
(** * Go's [strings] package *)
(* ================================================================== *)

Module strings.

(** [s[n:]] and [s[:n]] for [0 <= n <= len(s)]. *)
Fixpoint drop (n : nat) (s : string) : string :=
  match n, s with
  | S k, String _ r => drop k r
  | _, _ => s
  end.

Fixpoint take (n : nat) (s : string) : string :=
  match n, s with
  | S k, String c r => String c (take k r)
  | _, _ => EmptyString
  end.

(** [strings.HasPrefix(s, prefix)]. *)
Fixpoint HasPrefix (s prefix : string) {struct prefix} : bool :=
  match prefix, s with
  | EmptyString, _ => true
  | String p ps, String c cs => Ascii.eqb c p && HasPrefix cs ps
  | String _ _, EmptyString => false
  end.

(** [strings.HasSuffix(s, suffix)]:
    [len(s) >= len(suffix) && s[len(s)-len(suffix):] == suffix]. *)
Definition HasSuffix (s suffix : string) : bool :=
  (String.length suffix <=? String.length s)%nat
  && String.eqb (drop (String.length s - String.length suffix) s) suffix.

(** [strings.TrimSuffix(s, suffix)]. *)
Definition TrimSuffix (s suffix : string) : string :=
  if HasSuffix s suffix then take (String.length s - String.length suffix) s else s.

(** [strings.Index(s, substr)]: the first index of [substr] in [s], or -1. *)
Fixpoint indexFrom (i : Z) (s substr : string) : Z :=
  if HasPrefix s substr then i
  else match s with
       | EmptyString => (-1)%Z
       | String _ r => indexFrom (i + 1) r substr
       end.

Definition Index (s substr : string) : Z := indexFrom 0 s substr.

(** [strings.Contains(s, substr)] is [Index(s, substr) >= 0]. *)
Definition Contains (s substr : string) : bool := (0 <=? Index s substr)%Z.

(** [strings.Join(elems, sep)]. *)
Fixpoint Join (elems : list string) (sep : string) : string :=
  match elems with
  | [] => EmptyString
  | [a] => a
  | a :: rest => a ++ sep ++ Join rest sep
  end.

(** ** White space

    [strings.Fields] and [strings.TrimSpace] cut at the runes for which
    [unicode.IsSpace] holds: the six ASCII ones, U+0085, U+00A0 and the
    White_Space runes above Latin-1 (U+1680, U+2000..U+200A, U+2028,
    U+2029, U+202F, U+205F, U+3000).  Go decodes the string as UTF-8; every
    byte that is not a continuation byte starts a rune (an ill-formed
    sequence decodes to one-byte error runes, which are not spaces), and
    the encoding of a space never starts with a continuation byte.  So a
    space rune sits at a position exactly when the bytes from there on
    start with its encoding, which is what [spaceWidth] tests: it returns
    the length of the encoding of the space rune at the head of [s], or 0. *)

Definition byte (c : ascii) : N := N_of_ascii c.

Definition asciiSpace (c : ascii) : bool :=
  let n := byte c in
  ((n =? 9) || (n =? 10) || (n =? 11) || (n =? 12) || (n =? 13) || (n =? 32))%N.

(** U+0085 is C2 85, U+00A0 is C2 A0. *)
Definition space2 (a b : N) : bool :=
  ((a =? 194) && ((b =? 133) || (b =? 160)))%N.

(** U+1680 is E1 9A 80; U+2000..U+200A are E2 80 80..8A; U+2028, U+2029 and
    U+202F are E2 80 A8, A9 and AF; U+205F is E2 81 9F; U+3000 is E3 80 80. *)
Definition space3 (a b c : N) : bool :=
  (((a =? 225) && (b =? 154) && (c =? 128))
   || ((a =? 226) && (b =? 128)
       && (((128 <=? c) && (c <=? 138)) || (c =? 168) || (c =? 169) || (c =? 175)))
   || ((a =? 226) && (b =? 129) && (c =? 159))
   || ((a =? 227) && (b =? 128) && (c =? 128)))%N.

Definition spaceWidth (s : string) : nat :=
  match s with
  | String a r =>
      if asciiSpace a then 1
      else match r with
           | String b r' =>
               if space2 (byte a) (byte b) then 2
               else match r' with
                    | String c _ => if space3 (byte a) (byte b) (byte c) then 3 else 0
                    | EmptyString => 0
                    end
           | EmptyString => 0
           end
  | EmptyString => 0
  end.

(** The same test from the end of the string, on the reversed bytes: it is
    what [utf8.DecodeLastRuneInString] followed by [unicode.IsSpace] sees. *)
Definition spaceWidthLast (rs : string) : nat :=
  match rs with
  | String c r =>
      if asciiSpace c then 1
      else match r with
           | String b r' =>
               if space2 (byte b) (byte c) then 2
               else match r' with
                    | String a _ => if space3 (byte a) (byte b) (byte c) then 3 else 0
                    | EmptyString => 0
                    end
           | EmptyString => 0
           end
  | EmptyString => 0
  end.

Definition flush (cur : string) : list string :=
  match cur with
  | EmptyString => []
  | _ => [cur]
  end.

(** [strings.Fields(s)]: the maximal runs of non-space runes.  [skip] counts
    the bytes of a space rune still to be passed over, [cur] is the field
    being read. *)
Fixpoint fieldsFrom (skip : nat) (cur : string) (s : string) : list string :=
  match s with
  | EmptyString => flush cur
  | String c r =>
      match skip with
      | S k => fieldsFrom k cur r
      | O =>
          match spaceWidth s with
          | O => fieldsFrom 0 (cur ++ String c EmptyString) r
          | S k => (flush cur ++ fieldsFrom k EmptyString r)%list
          end
      end
  end.

Definition Fields (s : string) : list string := fieldsFrom 0 EmptyString s.

(** Dropping the leading space runes, for a given recogniser [w]. *)
Fixpoint dropSpaces (w : string -> nat) (skip : nat) (s : string) : string :=
  match s with
  | EmptyString => EmptyString
  | String _ r =>
      match skip with
      | S k => dropSpaces w k r
      | O => match w s with
             | O => s
             | S k => dropSpaces w k r
             end
      end
  end.

Fixpoint rev (s : string) : string :=
  match s with
  | EmptyString => EmptyString
  | String c r => rev r ++ String c EmptyString
  end.

Definition TrimLeftSpace (s : string) : string := dropSpaces spaceWidth 0 s.

Definition TrimRightSpace (s : string) : string :=
  rev (dropSpaces spaceWidthLast 0 (rev s)).

(** [strings.TrimSpace(s)]. *)
Definition TrimSpace (s : string) : string := TrimRightSpace (TrimLeftSpace s).

(** [strings.Trim(s, cutset)] for an ASCII [cutset]: Go then trims bytes. *)
Fixpoint inCutset (c : ascii) (cutset : string) : bool :=
  match cutset with
  | EmptyString => false
  | String d r => Ascii.eqb c d || inCutset c r
  end.

Fixpoint trimLeftBytes (s cutset : string) : string :=
  match s with
  | EmptyString => EmptyString
  | String c r => if inCutset c cutset then trimLeftBytes r cutset else s
  end.

Definition Trim (s cutset : string) : string :=
  rev (trimLeftBytes (rev (trimLeftBytes s cutset)) cutset).

(** [strings.ToUpper(s)] on its ASCII path: the letters a..z are mapped to
    A..Z.  Bytes from 0x80 on are kept: the Unicode case tables are not
    modelled, and no statement below depends on them. *)
Definition upperByte (c : ascii) : ascii :=
  let n := byte c in
  if ((97 <=? n) && (n <=? 122))%N then ascii_of_N (n - 32) else c.

Fixpoint ToUpper (s : string) : string :=
  match s with
  | EmptyString => EmptyString
  | String c r => String (upperByte c) (ToUpper r)
  end.

End strings.

(* ================================================================== *)
(** * Go's [strconv] package *)
(* ================================================================== *)

Module strconv.

(** [strconv.ParseUint(s, 10, bitSize)]: a non-empty string of decimal
    digits whose value is below [2^bitSize]; no sign, no underscore (base 10
    is given explicitly).  [None] is the error. *)
Definition ParseUint (s : string) (bitSize : N) : option N :=
  match NilZero.uint_of_string s with
  | Some d => let n := N.of_uint d in
              if (n <? 2 ^ bitSize)%N then Some n else None
  | None => None
  end.

(** [strconv.FormatUint(n, 10)]. *)
Definition FormatUint (n : N) : string := NilZero.string_of_uint (N.to_uint n).

End strconv.

(* ================================================================== *)
(** * Errors and results *)
(* ================================================================== *)

(** A Go [error] value.  [ErrorS msg] is [fmt.Errorf] without [%w];
    [ErrorW pre cause post] is [fmt.Errorf] whose format wraps [cause] with
    [%w] between the texts [pre] and [post]. *)
Inductive error : Type :=
| ErrorS (msg : string)
| ErrorW (pre : string) (cause : error) (post : string).

(** [err.Error()]. *)
Fixpoint Error (e : error) : string :=
  match e with
  | ErrorS msg => msg
  | ErrorW pre cause post => pre ++ Error cause ++ post
  end.

(** [errors.Unwrap(err)]. *)
Definition Unwrap (e : error) : option error :=
  match e with
  | ErrorS _ => None
  | ErrorW _ cause _ => Some cause
  end.

(** The pair [(T, error)] that a Go function returns. *)
Inductive result (A : Type) : Type :=
| Ok (a : A)
| Err (e : error).
Arguments Ok {A} a.
Arguments Err {A} e.

Definition isOk {A : Type} (r : result A) : bool :=
  match r with Ok _ => true | Err _ => false end.

(* ================================================================== *)
(** * Go's [net] package *)
(* ================================================================== *)

Module net.

(** [net.IP] is a byte slice. *)
Definition IP : Type := list N.

(** [net.ParseIP] belongs to Go's standard library; the package only asks
    whether it accepts a text and whether the result has a 4-byte form.
    It is a parameter of the development; [None] is the nil [IP]. *)
Class Parser : Type := { ParseIP : string -> option IP }.

(** [ip.To4()]: a 4-byte address as it is, a 16-byte address with the
    v4-mapped prefix as its last four bytes, nil otherwise. *)
Definition To4 (ip : IP) : option IP :=
  match ip with
  | [_; _; _; _] => Some ip
  | [0; 0; 0; 0; 0; 0; 0; 0; 0; 0; 255; 255; a; b; c; d]%N => Some [a; b; c; d]
  | _ => None
  end.

End net.

(* ================================================================== *)
(** * Package [knot]: the declarations both copies of types.go share *)
(* ================================================================== *)

Definition dquote : string := String "034"%char EmptyString.

Module knot.

Definition RecordType : Type := string.

Definition RecordTypeA : RecordType := "A".
Definition RecordTypeAAAA : RecordType := "AAAA".
Definition RecordTypePTR : RecordType := "PTR".
Definition RecordTypeCNAME : RecordType := "CNAME".
Definition RecordTypeMX : RecordType := "MX".
Definition RecordTypeTXT : RecordType := "TXT".
Definition RecordTypeNS : RecordType := "NS".
Definition RecordTypeSOA : RecordType := "SOA".

Record DNSRecord : Type := mkDNSRecord {
  Name : string;
  Type_ : RecordType;
  TTL : N;
  Data : string;
  Priority : option N
}.

Definition set_TTL (r : DNSRecord) (v : N) : DNSRecord :=
  mkDNSRecord (Name r) (Type_ r) v (Data r) (Priority r).
Definition set_Data (r : DNSRecord) (v : string) : DNSRecord :=
  mkDNSRecord (Name r) (Type_ r) (TTL r) v (Priority r).
Definition set_Priority (r : DNSRecord) (v : option N) : DNSRecord :=
  mkDNSRecord (Name r) (Type_ r) (TTL r) (Data r) v.

Record UpdateRecordRequest : Type := mkUpdateRecordRequest {
  upd_TTL : option N;
  upd_Data : option string;
  upd_Priority : option N
}.

Definition ValidRecordTypes : list RecordType :=
  [RecordTypeA; RecordTypeAAAA; RecordTypePTR; RecordTypeCNAME;
   RecordTypeMX; RecordTypeTXT; RecordTypeNS].

Definition IsValidRecordType (recordType : string) : bool :=
  let rt := strings.ToUpper recordType in
  existsb (fun valid => rt =? valid) ValidRecordTypes.

Section Validation.
Context {parser : net.Parser}.

(** [net.ParseIP(r.Data) == nil || net.ParseIP(r.Data).To4() == nil]; the
    nil [IP] has no 4-byte form. *)
Definition to4 (ip : option net.IP) : option net.IP :=
  match ip with
  | Some a => net.To4 a
  | None => None
  end.

Definition isNil {A : Type} (o : option A) : bool :=
  match o with Some _ => false | None => true end.

(** [*p], which the code evaluates only where [p != nil]. *)
Definition deref (p : option N) : N :=
  match p with Some v => v | None => 0%N end.

(** [validateData] works on the record in place: the record it leaves is
    returned with the error. *)
Definition validateData (r : DNSRecord) : DNSRecord * option error :=
  let t := Type_ r in
  if t =? RecordTypeA then
    if isNil (net.ParseIP (Data r)) || isNil (to4 (net.ParseIP (Data r)))
    then (r, Some (ErrorS ("invalid IPv4 address: " ++ Data r)))
    else (r, None)
  else if t =? RecordTypeAAAA then
    if isNil (net.ParseIP (Data r)) || negb (isNil (to4 (net.ParseIP (Data r))))
    then (r, Some (ErrorS ("invalid IPv6 address: " ++ Data r)))
    else (r, None)
  else if (t =? RecordTypePTR) || (t =? RecordTypeCNAME) || (t =? RecordTypeNS) then
    if Data r =? "" then
      (r, Some (ErrorS ("data cannot be empty for " ++ t ++ " record")))
    else if negb (strings.HasSuffix (Data r) ".") then (set_Data r (Data r ++ "."), None)
    else (r, None)
  else if t =? RecordTypeMX then
    match Priority r with
    | None => (r, Some (ErrorS "priority is required for MX record"))
    | Some _ =>
        if negb (strings.HasSuffix (Data r) ".") then (set_Data r (Data r ++ "."), None)
        else (r, None)
    end
  else if t =? RecordTypeTXT then
    if Data r =? "" then (r, Some (ErrorS "data cannot be empty for TXT record"))
    else if negb (strings.HasPrefix (Data r) dquote)
            || negb (strings.HasSuffix (Data r) dquote)
    then (set_Data r (dquote ++ strings.Trim (Data r) dquote ++ dquote), None)
    else (r, None)
  else (r, None).

(** [Validate], likewise in place. *)
Definition Validate (r : DNSRecord) : DNSRecord * option error :=
  if Name r =? "" then (r, Some (ErrorS "record name cannot be empty"))
  else if negb (IsValidRecordType (Type_ r)) then
    (r, Some (ErrorS ("invalid record type: " ++ Type_ r)))
  else
    let r1 := if (TTL r =? 0)%N then set_TTL r 300 else r in
    match validateData r1 with
    | (r2, Some err) => (r2, Some (ErrorW "invalid record data: " err ""))
    | (r2, None) => (r2, None)
    end.

End Validation.

(** [CreateRecordRequest], the body of a create request, with its methods
    [ToRecord] and [Validate].  [Validate] builds a record from the fields
    of the request and validates that record: the request keeps its
    fields, and only the error comes back. *)
Record CreateRecordRequest : Type := mkCreateRecordRequest {
  req_Name : string;
  req_Type : RecordType;
  req_TTL : N;
  req_Data : string;
  req_Priority : option N
}.

Definition ToRecord (r : CreateRecordRequest) : DNSRecord :=
  mkDNSRecord (req_Name r) (req_Type r) (req_TTL r) (req_Data r) (req_Priority r).

Section RequestValidation.
Context {parser : net.Parser}.

Definition ValidateRequest (r : CreateRecordRequest) : option error :=
  let record :=
    mkDNSRecord (req_Name r) (req_Type r) (req_TTL r) (req_Data r) (req_Priority r) in
  snd (Validate record).

End RequestValidation.

(** The record codec.  The repository carries two copies of it (modules
    [types_go] and [part_001] below); the store is stated over either. *)
Class Codec : Type := {
  ParseKnotRecord : string -> result DNSRecord;
  ToKnotFormat : DNSRecord -> string
}.

End knot.

(* ================================================================== *)
(** * [internal/knot/types.go]: the record codec *)
(* ================================================================== *)

Module types_go.
Import knot.

Definition ToKnotFormat (r : DNSRecord) : string :=
  let parts := [Name r; strconv.FormatUint (TTL r); Type_ r] in
  let parts :=
    if (Type_ r =? RecordTypeMX) && negb (isNil (Priority r))
    then (parts ++ [strconv.FormatUint (deref (Priority r))])%list
    else parts in
  let parts := (parts ++ [Data r])%list in
  strings.Join parts " ".

(** The value that [ParseUint(_, 10, 32)] returns fits [uint32], and the
    one of [ParseUint(_, 10, 16)] fits [uint16]: the conversions keep it. *)
Definition ParseKnotRecord (line : string) : result DNSRecord :=
  let parts := strings.Fields line in
  if (List.length parts <? 4)%nat then
    Err (ErrorS ("invalid record format: " ++ line))
  else
    let record := mkDNSRecord (nth 0 parts "") (nth 2 parts "") 0 "" None in
    match strconv.ParseUint (nth 1 parts "") 32 with
    | None => Err (ErrorS ("invalid TTL: " ++ nth 1 parts ""))
    | Some ttl =>
        let record := set_TTL record ttl in
        if Type_ record =? RecordTypeMX then
          if (List.length parts <? 5)%nat then
            Err (ErrorS ("invalid MX record format: " ++ line))
          else
            match strconv.ParseUint (nth 3 parts "") 16 with
            | None => Err (ErrorS ("invalid MX priority: " ++ nth 3 parts ""))
            | Some priority =>
                Ok (set_Data (set_Priority record (Some priority)) (nth 4 parts ""))
            end
        else Ok (set_Data record (strings.Join (skipn 3 parts) " "))
    end.

Definition codec : Codec :=
  {| knot.ParseKnotRecord := ParseKnotRecord; knot.ToKnotFormat := ToKnotFormat |}.

End types_go.

(* ================================================================== *)
(** * The second copy of types.go ([src/unnamed/part_001]) *)
(* ================================================================== *)

Module part_001.
Import knot.

Definition ToKnotFormat (r : DNSRecord) : string :=
  let parts := [Name r; strconv.FormatUint (TTL r)] in
  let parts := (parts ++ ["IN"])%list in
  let parts := (parts ++ [Type_ r])%list in
  let parts :=
    if (Type_ r =? RecordTypeMX) && negb (isNil (Priority r))
    then (parts ++ [strconv.FormatUint (deref (Priority r))])%list
    else parts in
  let parts := (parts ++ [Data r])%list in
  strings.Join parts " ".

(** The line after the optional [[zone]] prefix has been taken off. *)
Definition stripZone (line : string) : string :=
  let line := strings.TrimSpace line in
  if strings.HasPrefix line "[" && strings.Contains line "]" then
    let bracketEnd := strings.Index line "]" in
    if negb (bracketEnd =? -1)%Z && (bracketEnd <? Z.of_nat (String.length line) - 1)%Z
    then strings.TrimSpace (strings.drop (Z.to_nat (bracketEnd + 1)) line)
    else line
  else line.

Definition isClass (tok : string) : bool :=
  (tok =? "IN") || (tok =? "CH") || (tok =? "HS").

Definition ParseKnotRecord (line : string) : result DNSRecord :=
  let line := stripZone line in
  let parts := strings.Fields line in
  if (List.length parts <? 4)%nat then
    Err (ErrorS ("invalid record format: " ++ line))
  else
    let name := nth 0 parts "" in
    let ttlStr := nth 1 parts "" in
    let '(recordType, dataStart) :=
      if (5 <=? List.length parts)%nat && isClass (nth 2 parts "")
      then (nth 3 parts "", 4%nat)
      else (nth 2 parts "", 3%nat) in
    let record := mkDNSRecord name recordType 0 "" None in
    match strconv.ParseUint ttlStr 32 with
    | None => Err (ErrorS ("invalid TTL: " ++ ttlStr))
    | Some ttl =>
        let record := set_TTL record ttl in
        if Type_ record =? RecordTypeMX then
          if (List.length parts <? dataStart + 2)%nat then
            Err (ErrorS ("invalid MX record format: " ++ line))
          else
            match strconv.ParseUint (nth dataStart parts "") 16 with
            | None => Err (ErrorS ("invalid MX priority: " ++ nth dataStart parts ""))
            | Some priority =>
                Ok (set_Data (set_Priority record (Some priority))
                      (strings.Join (skipn (dataStart + 1) parts) " "))
            end
        else if (dataStart <? List.length parts)%nat then
          Ok (set_Data record (strings.Join (skipn dataStart parts) " "))
        else Ok record
    end.

Definition codec : Codec :=
  {| knot.ParseKnotRecord := ParseKnotRecord; knot.ToKnotFormat := ToKnotFormat |}.

End part_001.

(* ================================================================== *)
(** * [internal/knot/client.go]: the zone guard and the record store *)
(* ================================================================== *)

Definition LF : ascii := "010"%char.
Definition CR : string := String "013"%char EmptyString.

Module client_go.
Import knot.

(** The [logger] field is left out: logging returns nothing to the code. *)
Record Client : Type := mkClient {
  knotcPath : string;
  socketPath : string;
  allowedZones : list string
}.

Definition normalizeZoneName (zone : string) : string :=
  if negb (strings.HasSuffix zone ".") then zone ++ "." else zone.

Definition IsZoneAllowed (c : Client) (zone : string) : bool :=
  if (List.length (allowedZones c) =? 0)%nat then true
  else
    let normalizedZone := normalizeZoneName zone in
    existsb
      (fun allowedZone =>
         let normalizedAllowed := normalizeZoneName allowedZone in
         (normalizedZone =? normalizedAllowed)
         || strings.HasSuffix normalizedZone ("." ++ normalizedAllowed))
      (allowedZones c).

(** ** The control plane

    [exec.Command(path, args...).CombinedOutput()] is the only contact with
    the outside.  The control plane is any state machine [run]: from its
    state, the program path and the arguments it gives the combined output
    and the error of the process, and its next state. *)

Section Store.
Context {parser : net.Parser} {codec : Codec}.
Variable Knotc : Type.
Variable run : Knotc -> string -> list string -> (string * option error) * Knotc.

(** One call of [executeKnotc]: its arguments and what it returned. *)
Record Call : Type := mkCall {
  call_args : list string;
  call_result : result string
}.

(** The world a store operation runs in: the control plane and the calls of
    [executeKnotc] made so far, oldest first. *)
Record World : Type := mkWorld {
  plane : Knotc;
  trace : list Call
}.

Definition M (A : Type) : Type := World -> A * World.

Definition ret {A : Type} (a : A) : M A := fun w => (a, w).

Definition bind {A B : Type} (m : M A) (k : A -> M B) : M B :=
  fun w => let (a, w') := m w in k a w'.

Notation "x <- m ;; k" := (bind m (fun x => k))
  (at level 61, m at next level, right associativity).

Definition executeKnotc (c : Client) (args : list string) : M (result string) :=
  fun w =>
    let cmdArgs := ((if socketPath c =? "" then [] else ["-s"; socketPath c]) ++ args)%list in
    let '((output, err), plane') := run (plane w) (knotcPath c) cmdArgs in
    let res :=
      match err with
      | Some e => Err (ErrorW "knotc command failed: " e (", output: " ++ output))
      | None => Ok (strings.TrimSpace output)
      end in
    (res, mkWorld plane' (trace w ++ [mkCall args res])).

(** [bufio.Scanner] with its default split function [ScanLines]: the lines
    end at a newline, one carriage return before it is dropped, an empty
    last line is not reported, and the scan stops at a line that does not
    fit the 64 KiB buffer together with its newline. *)
Definition dropCR (s : string) : string := strings.TrimSuffix s CR.

Definition fitsToken (s : string) : bool :=
  (N.of_nat (String.length s) <? 65536)%N.

Fixpoint scanLines (cur : string) (s : string) : list string :=
  match s with
  | EmptyString =>
      match cur with
      | EmptyString => []
      | _ => if fitsToken cur then [dropCR cur] else []
      end
  | String c r =>
      if Ascii.eqb c LF then
        if fitsToken cur then dropCR cur :: scanLines EmptyString r else []
      else scanLines (cur ++ String c EmptyString) r
  end.

(** The loop of [GetRecords] over the scanned lines. *)
Fixpoint parseLines (lines : list string) : list DNSRecord :=
  match lines with
  | [] => []
  | text :: rest =>
      let line := strings.TrimSpace text in
      if (line =? "") || strings.HasPrefix line ";" then parseLines rest
      else match ParseKnotRecord line with
           | Err _ => parseLines rest
           | Ok record => record :: parseLines rest
           end
  end.

Definition GetRecords (c : Client) (zone : string) : M (result (list DNSRecord)) :=
  if negb (IsZoneAllowed c zone) then
    ret (Err (ErrorS ("zone not allowed: " ++ zone)))
  else
    let normalizedZone := normalizeZoneName zone in
    r <- executeKnotc c ["zone-read"; normalizedZone] ;;
    match r with
    | Err err => ret (Err (ErrorW ("failed to read zone " ++ zone ++ ": ") err ""))
    | Ok output => ret (Ok (parseLines (scanLines EmptyString output)))
    end.

Definition GetRecord (c : Client) (zone name : string) (recordType : RecordType)
  : M (result DNSRecord) :=
  if negb (IsZoneAllowed c zone) then
    ret (Err (ErrorS ("zone not allowed: " ++ zone)))
  else
    r <- GetRecords c zone ;;
    match r with
    | Err err => ret (Err err)
    | Ok records =>
        match find (fun record => (Name record =? name) && (Type_ record =? recordType))
                   records with
        | Some record => ret (Ok record)
        | None =>
            ret (Err (ErrorS ("record not found: " ++ name ++ " " ++ recordType
                              ++ " in zone " ++ zone)))
        end
    end.

(** The owner name that [CreateRecord] and [UpdateRecord] pass to zone-set:
    the zone suffix is taken off the record name. *)
Definition relativeName (recordName normalizedZone : string) : string :=
  if strings.HasSuffix recordName ("." ++ normalizedZone) then
    strings.TrimSuffix recordName ("." ++ normalizedZone)
  else if strings.HasSuffix recordName normalizedZone then
    strings.TrimSuffix (strings.TrimSuffix recordName normalizedZone) "."
  else recordName.

(** The arguments of the zone-set call, the same in both functions. *)
Definition setArgs (normalizedZone : string) (record : DNSRecord) : list string :=
  let args := ["zone-set"; normalizedZone; relativeName (Name record) normalizedZone;
               strconv.FormatUint (TTL record); Type_ record] in
  let args :=
    if (Type_ record =? RecordTypeMX) && negb (isNil (Priority record))
    then (args ++ [strconv.FormatUint (deref (Priority record))])%list
    else args in
  (args ++ [Data record])%list.

Definition samePriority (a b : option N) : bool :=
  match a, b with
  | None, None => true
  | Some x, Some y => (x =? y)%N
  | _, _ => false
  end.

(** [CreateRecord] validates the caller's record in place: the record it
    leaves is returned with the error. *)
Definition CreateRecord (c : Client) (zone : string) (record : DNSRecord)
  : M (DNSRecord * option error) :=
  if negb (IsZoneAllowed c zone) then
    ret (record, Some (ErrorS ("zone not allowed: " ++ zone)))
  else
    let '(record, verr) := Validate record in
    match verr with
    | Some err => ret (record, Some (ErrorW "invalid record: " err ""))
    | None =>
        probe <- GetRecord c zone (Name record) (Type_ record) ;;
        if match probe with
           | Ok existingRecord =>
               (TTL existingRecord =? TTL record)%N
               && (Data existingRecord =? Data record)
               && samePriority (Priority existingRecord) (Priority record)
           | Err _ => false
           end
        then ret (record, None)
        else
          let normalizedZone := normalizeZoneName zone in
          b <- executeKnotc c ["zone-begin"; normalizedZone] ;;
          match b with
          | Err err =>
              ret (record, Some (ErrorW ("failed to begin transaction for zone "
                                         ++ zone ++ ": ") err ""))
          | Ok _ =>
              s <- executeKnotc c (setArgs normalizedZone record) ;;
              match s with
              | Err err =>
                  _ <- executeKnotc c ["zone-abort"; normalizedZone] ;;
                  ret (record, Some (ErrorW ("failed to add record to zone "
                                             ++ zone ++ ": ") err ""))
              | Ok _ =>
                  m <- executeKnotc c ["zone-commit"; normalizedZone] ;;
                  match m with
                  | Err err =>
                      ret (record, Some (ErrorW ("failed to commit transaction for zone "
                                                 ++ zone ++ ": ") err ""))
                  | Ok _ => ret (record, None)
                  end
              end
          end
    end.

(** The fields of the request that are present overwrite the record's. *)
Definition applyUpdates (existingRecord : DNSRecord) (updates : UpdateRecordRequest)
  : DNSRecord :=
  let r := existingRecord in
  let r := match upd_TTL updates with Some v => set_TTL r v | None => r end in
  let r := match upd_Data updates with Some v => set_Data r v | None => r end in
  match upd_Priority updates with Some v => set_Priority r (Some v) | None => r end.

Definition UpdateRecord (c : Client) (zone name : string) (recordType : RecordType)
  (updates : UpdateRecordRequest) : M (option error) :=
  if negb (IsZoneAllowed c zone) then
    ret (Some (ErrorS ("zone not allowed: " ++ zone)))
  else
    g <- GetRecord c zone name recordType ;;
    match g with
    | Err err => ret (Some (ErrorW "record not found: " err ""))
    | Ok existingRecord =>
        let originalRecordStr := ToKnotFormat existingRecord in
        let existingRecord := applyUpdates existingRecord updates in
        let '(existingRecord, verr) := Validate existingRecord in
        match verr with
        | Some err => ret (Some (ErrorW "invalid updated record: " err ""))
        | None =>
            let normalizedZone := normalizeZoneName zone in
            b <- executeKnotc c ["zone-begin"; normalizedZone] ;;
            match b with
            | Err err =>
                ret (Some (ErrorW ("failed to begin transaction for zone "
                                   ++ zone ++ ": ") err ""))
            | Ok _ =>
                u <- executeKnotc c ["zone-unset"; normalizedZone; originalRecordStr] ;;
                match u with
                | Err err =>
                    _ <- executeKnotc c ["zone-abort"; normalizedZone] ;;
                    ret (Some (ErrorW ("failed to remove old record from zone "
                                       ++ zone ++ ": ") err ""))
                | Ok _ =>
                    s <- executeKnotc c (setArgs normalizedZone existingRecord) ;;
                    match s with
                    | Err err =>
                        _ <- executeKnotc c ["zone-abort"; normalizedZone] ;;
                        ret (Some (ErrorW ("failed to add updated record to zone "
                                           ++ zone ++ ": ") err ""))
                    | Ok _ =>
                        m <- executeKnotc c ["zone-commit"; normalizedZone] ;;
                        match m with
                        | Err err =>
                            ret (Some (ErrorW ("failed to commit transaction for zone "
                                               ++ zone ++ ": ") err ""))
                        | Ok _ => ret None
                        end
                    end
                end
            end
        end
    end.

Definition DeleteRecord (c : Client) (zone name : string) (recordType : RecordType)
  : M (option error) :=
  if negb (IsZoneAllowed c zone) then
    ret (Some (ErrorS ("zone not allowed: " ++ zone)))
  else
    g <- GetRecord c zone name recordType ;;
    match g with
    | Err err => ret (Some (ErrorW "record not found: " err ""))
    | Ok _ =>
        b <- executeKnotc c ["zone-begin"; zone] ;;
        match b with
        | Err err =>
            ret (Some (ErrorW ("failed to begin transaction for zone "
                               ++ zone ++ ": ") err ""))
        | Ok _ =>
            let recordStr := name ++ " " ++ recordType in
            u <- executeKnotc c ["zone-unset"; zone; recordStr] ;;
            match u with
            | Err err =>
                _ <- executeKnotc c ["zone-abort"; zone] ;;
                ret (Some (ErrorW ("failed to remove record from zone "
                                   ++ zone ++ ": ") err ""))
            | Ok _ =>
                m <- executeKnotc c ["zone-commit"; zone] ;;
                match m with
                | Err err =>
                    ret (Some (ErrorW ("failed to commit transaction for zone "
                                       ++ zone ++ ": ") err ""))
                | Ok _ => ret None
                end
            end
        end
    end.

(** [line[lo:hi]] for [0 <= lo <= hi <= len(line)]. *)
Definition slice (line : string) (lo hi : Z) : string :=
  strings.take (Z.to_nat (hi - lo)) (strings.drop (Z.to_nat lo) line).

(** The loop of [GetZones] over the scanned lines. *)
Fixpoint zoneLines (c : Client) (lines : list string) : list string :=
  match lines with
  | [] => []
  | text :: rest =>
      let line := strings.TrimSpace text in
      if strings.HasPrefix line "zone[" then
        let start := strings.Index line "[" in
        let end_ := strings.Index line "]" in
        if negb (start =? -1)%Z && negb (end_ =? -1)%Z && (start <? end_)%Z then
          let zoneName := slice line (start + 1) end_ in
          if IsZoneAllowed c zoneName then zoneName :: zoneLines c rest
          else zoneLines c rest
        else zoneLines c rest
      else zoneLines c rest
  end.

Definition GetZones (c : Client) : M (result (list string)) :=
  r <- executeKnotc c ["conf-read"; "zone"] ;;
  match r with
  | Err err => ret (Err (ErrorW "failed to get zones: " err ""))
  | Ok output => ret (Ok (zoneLines c (scanLines EmptyString output)))
  end.

Definition ReloadZone (c : Client) (zone : string) : M (option error) :=
  if negb (IsZoneAllowed c zone) then
    ret (Some (ErrorS ("zone not allowed: " ++ zone)))
  else
    r <- executeKnotc c ["zone-reload"; zone] ;;
    match r with
    | Err err => ret (Some (ErrorW ("failed to reload zone " ++ zone ++ ": ") err ""))
    | Ok _ => ret None
    end.

End Store.

End client_go.

(* ================================================================== *)
(** * The second copy of client.go ([src/unnamed/part_002]): the zone guard *)
(* ================================================================== *)

Module part_002.

Definition IsZoneAllowed (c : client_go.Client) (zone : string) : bool :=
  if (List.length (client_go.allowedZones c) =? 0)%nat then true
  else
    existsb
      (fun allowedZone =>
         (zone =? allowedZone) || strings.HasSuffix zone ("." ++ allowedZone))
      (client_go.allowedZones c).

End part_002.

(* ================================================================== *)
(** * Package [api]: the handlers ([src/unnamed/part_004]) *)
(* ================================================================== *)

Module api.
Import knot.

(** What a handler writes with [c.JSON]: the status code and the body.
    The bodies are the JSON objects of the handlers, by their keys. *)
Inductive Body : Type :=
| ErrorBody (error : string)
| MessageBody (message : string)
| ZonesBody (zones : list string)
| RecordsBody (zone : string) (records : list DNSRecord)
| RecordBody (record : DNSRecord).

Record Response : Type := mkResponse {
  status : N;
  body : Body
}.

Definition StatusOK : N := 200.
Definition StatusCreated : N := 201.
Definition StatusBadRequest : N := 400.
Definition StatusForbidden : N := 403.
Definition StatusNotFound : N := 404.
Definition StatusInternalServerError : N := 500.

Section Handlers.
Context {parser : net.Parser} {codec : Codec}.
Variable Knotc : Type.
Variable run : Knotc -> string -> list string -> (string * option error) * Knotc.

Notation "x <- m ;; k" := (client_go.bind Knotc m (fun x => k))
  (at level 61, m at next level, right associativity).

Definition JSON (code : N) (obj : Body) : client_go.M Knotc Response :=
  client_go.ret Knotc (mkResponse code obj).

(** The test that the handlers make on the text of an error. *)
Definition mentions (err : error) (phrase : string) : bool :=
  strings.Contains (Error err) phrase.

(** The handlers take the path parameters ([c.Param]) and, where they read
    a body, the result of [c.ShouldBindJSON]: the request, or [None] when
    the binding failed.  [h] is the client of the handler. *)
Definition GetZones (h : client_go.Client) : client_go.M Knotc Response :=
  r <- client_go.GetZones Knotc run h ;;
  match r with
  | Err _ => JSON StatusInternalServerError (ErrorBody "Failed to retrieve zones")
  | Ok zones => JSON StatusOK (ZonesBody zones)
  end.

Definition GetRecords (h : client_go.Client) (zone : string)
  : client_go.M Knotc Response :=
  if zone =? "" then JSON StatusBadRequest (ErrorBody "Zone parameter is required")
  else
    r <- client_go.GetRecords Knotc run h zone ;;
    match r with
    | Err err =>
        if mentions err "zone not allowed"
        then JSON StatusForbidden (ErrorBody "Access to zone not allowed")
        else JSON StatusInternalServerError (ErrorBody "Failed to retrieve records")
    | Ok records => JSON StatusOK (RecordsBody zone records)
    end.

Definition GetRecord (h : client_go.Client) (zone name type_ : string)
  : client_go.M Knotc Response :=
  let recordType := strings.ToUpper type_ in
  if (zone =? "") || (name =? "") || (recordType =? "") then
    JSON StatusBadRequest (ErrorBody "Zone, name, and type parameters are required")
  else if negb (IsValidRecordType recordType) then
    JSON StatusBadRequest (ErrorBody "Invalid record type")
  else
    r <- client_go.GetRecord Knotc run h zone name recordType ;;
    match r with
    | Err err =>
        if mentions err "zone not allowed"
        then JSON StatusForbidden (ErrorBody "Access to zone not allowed")
        else if mentions err "record not found"
        then JSON StatusNotFound (ErrorBody "Record not found")
        else JSON StatusInternalServerError (ErrorBody "Failed to retrieve record")
    | Ok record => JSON StatusOK (RecordBody record)
    end.

Definition CreateRecord (h : client_go.Client) (zone : string)
  (bound : option CreateRecordRequest) : client_go.M Knotc Response :=
  if zone =? "" then JSON StatusBadRequest (ErrorBody "Zone parameter is required")
  else
    match bound with
    | None => JSON StatusBadRequest (ErrorBody "Invalid request body")
    | Some req =>
        match ValidateRequest req with
        | Some err => JSON StatusBadRequest (ErrorBody (Error err))
        | None =>
            let record := ToRecord req in
            r <- client_go.CreateRecord Knotc run h zone record ;;
            let '(record, res) := r in
            match res with
            | Some err =>
                if mentions err "zone not allowed"
                then JSON StatusForbidden (ErrorBody "Access to zone not allowed")
                else JSON StatusInternalServerError (ErrorBody "Failed to create record")
            | None => JSON StatusCreated (RecordBody record)
            end
        end
    end.

Definition UpdateRecord (h : client_go.Client) (zone name type_ : string)
  (bound : option UpdateRecordRequest) : client_go.M Knotc Response :=
  let recordType := strings.ToUpper type_ in
  if (zone =? "") || (name =? "") || (recordType =? "") then
    JSON StatusBadRequest (ErrorBody "Zone, name, and type parameters are required")
  else if negb (IsValidRecordType recordType) then
    JSON StatusBadRequest (ErrorBody "Invalid record type")
  else
    match bound with
    | None => JSON StatusBadRequest (ErrorBody "Invalid request body")
    | Some req =>
        res <- client_go.UpdateRecord Knotc run h zone name recordType req ;;
        match res with
        | Some err =>
            if mentions err "zone not allowed"
            then JSON StatusForbidden (ErrorBody "Access to zone not allowed")
            else if mentions err "record not found"
            then JSON StatusNotFound (ErrorBody "Record not found")
            else JSON StatusInternalServerError (ErrorBody "Failed to update record")
        | None =>
            g <- client_go.GetRecord Knotc run h zone name recordType ;;
            match g with
            | Err _ => JSON StatusOK (MessageBody "Record updated successfully")
            | Ok updatedRecord => JSON StatusOK (RecordBody updatedRecord)
            end
        end
    end.

Definition DeleteRecord (h : client_go.Client) (zone name type_ : string)
  : client_go.M Knotc Response :=
  let recordType := strings.ToUpper type_ in
  if (zone =? "") || (name =? "") || (recordType =? "") then
    JSON StatusBadRequest (ErrorBody "Zone, name, and type parameters are required")
  else if negb (IsValidRecordType recordType) then
    JSON StatusBadRequest (ErrorBody "Invalid record type")
  else
    res <- client_go.DeleteRecord Knotc run h zone name recordType ;;
    match res with
    | Some err =>
        if mentions err "zone not allowed"
        then JSON StatusForbidden (ErrorBody "Access to zone not allowed")
        else if mentions err "record not found"
        then JSON StatusNotFound (ErrorBody "Record not found")
        else JSON StatusInternalServerError (ErrorBody "Failed to delete record")
    | None => JSON StatusOK (MessageBody "Record deleted successfully")
    end.

Definition ReloadZone (h : client_go.Client) (zone : string)
  : client_go.M Knotc Response :=
  if zone =? "" then JSON StatusBadRequest (ErrorBody "Zone parameter is required")
  else
    res <- client_go.ReloadZone Knotc run h zone ;;
    match res with
    | Some err =>
        if mentions err "zone not allowed"
        then JSON StatusForbidden (ErrorBody "Access to zone not allowed")
        else JSON StatusInternalServerError (ErrorBody "Failed to reload zone")
    | None => JSON StatusOK (MessageBody "Zone reloaded successfully")
    end.

End Handlers.

End api.

(* ================================================================== *)
(** * Package [api]: the authentication middleware ([src/unnamed/part_003]) *)
(* ================================================================== *)

Module middleware.

(** [strings.TrimPrefix(s, prefix)]. *)
Definition TrimPrefix (s prefix : string) : string :=
  if strings.HasPrefix s prefix then strings.drop (String.length prefix) s else s.

(** What the middleware does with a request: it lets it through
    ([c.Next()]) or answers it and stops ([c.JSON] and [c.Abort()]). *)
Inductive Outcome : Type :=
| Next
| Abort (code : N) (error : string).

Definition StatusUnauthorized : N := 401.

(** [AuthMiddleware(apiKeys, enabled)] on a request whose headers
    X-API-Key and Authorization have the values [xAPIKey] and
    [authorization]; [c.GetHeader] gives the empty string for a header
    that is absent. *)
Definition AuthMiddleware (apiKeys : list string) (enabled : bool)
  (xAPIKey authorization : string) : Outcome :=
  if negb enabled then Next
  else if (List.length apiKeys =? 0)%nat then
    Abort api.StatusInternalServerError
          "Authentication is enabled but no API keys are configured"
  else
    let apiKey := xAPIKey in
    let apiKey :=
      if apiKey =? "" then
        let authHeader := authorization in
        if strings.HasPrefix authHeader "Bearer " then TrimPrefix authHeader "Bearer "
        else apiKey
      else apiKey in
    if apiKey =? "" then Abort StatusUnauthorized "API key is required"
    else if existsb (fun validKey => apiKey =? validKey) apiKeys then Next
    else Abort StatusUnauthorized "Invalid API key".

End middleware.

(** An instance of [net.Parser] for running the definitions: it reads the
    dotted-decimal IPv4 texts (four decimal fields below 256, without a
    leading zero) into the 16-byte v4-mapped form, as Go does, and rejects
    every other text, IPv6 ones included. *)
Module ipv4.

Fixpoint splitDots (cur : string) (s : string) : list string :=
  match s with
  | EmptyString => [cur]
  | String c r =>
      if Ascii.eqb c "."%char then cur :: splitDots EmptyString r
      else splitDots (cur ++ String c EmptyString) r
  end.

Definition field (s : string) : option N :=
  match s with
  | String "0"%char (String _ _) => None
  | _ => if (3 <? String.length s)%nat then None else strconv.ParseUint s 8
  end.

Definition parse (s : string) : option net.IP :=
  match map field (splitDots EmptyString s) with
  | [Some a; Some b; Some c; Some d] =>
      Some [0; 0; 0; 0; 0; 0; 0; 0; 0; 0; 255; 255; a; b; c; d]%N
  | _ => None
  end.

Definition parser : net.Parser := {| net.ParseIP := parse |}.

End ipv4.

(** A small control plane for running the store: the zone is a list of
    record lines (as token lists), zone-set replaces the lines of the same
    owner and type, zone-unset removes the lines equal to its argument,
    zone-read prints the lines; the subcommands listed in [failing] exit
    with an error. *)
Module sim.

Definition Zone : Type := list (list string).

Definition sameOwnerType (a b : list string) : bool :=
  (nth 0 a "" =? nth 0 b "") && (nth 2 a "" =? nth 2 b "").

Definition run (failing : list string) (st : Zone) (path : string) (args : list string)
  : (string * option error) * Zone :=
  let sub := nth 0 args "" in
  if existsb (String.eqb sub) failing then
    (("error: " ++ sub, Some (ErrorS "exit status 1")), st)
  else if sub =? "zone-read" then
    ((strings.Join (map (fun t => strings.Join t " ") st) (String LF EmptyString), None), st)
  else if sub =? "zone-set" then
    let toks := skipn 2 args in
    (("OK", None), (filter (fun t => negb (sameOwnerType t toks)) st ++ [toks])%list)
  else if sub =? "zone-unset" then
    (("OK", None),
     filter (fun t => negb (strings.Join t " " =? nth 2 args "")) st)
  else (("OK", None), st).


(** The same control plane with a zone-set that adds its line and replaces
    none, and the lines it holds. *)
Definition runAdding (failing : list string) (st : Zone) (path : string)
  (args : list string) : (string * option error) * Zone :=
  let sub := nth 0 args "" in
  if negb (existsb (String.eqb sub) failing) && (sub =? "zone-set") then
    (("OK", None), (st ++ [skipn 2 args])%list)
  else run failing st path args.


Definition client : client_go.Client := client_go.mkClient "/usr/sbin/knotc" "" ["example.com"].

Definition world (st : Zone) : client_go.World Zone := client_go.mkWorld Zone st [].

End sim.

(* ================================================================== *)
(** * Inputs of the examples *)
(* ================================================================== *)

Module ex.
Import knot.

(** A line as the control plane prints it, with the zone prefix and a
    class field. *)
Definition line_prefixed : string :=
  "[example.com.] www.example.com. 300 IN A 192.168.1.100".

Definition record_www : DNSRecord :=
  mkDNSRecord "www.example.com." "A" 300 "192.168.1.100" None.

(** A line with a zone prefix whose record name is itself in brackets. *)
Definition line_bracket_name : string :=
  "[example.com.] [www] 300 A 192.168.1.100".

(** An MX line with a second field after the exchange. *)
Definition line_mx_two : string :=
  "example.com. 300 MX 10 mail.example.com. backup.example.com.".

(** An MX line without a priority. *)
Definition line_mx_no_priority : string :=
  "example.com. 300 MX mail.example.com. backup.example.com.".

(** The record of the end-to-end example of the specification. *)
Definition record_vm : DNSRecord :=
  mkDNSRecord "test-vm" "A" 300 "192.168.1.100" None.

Definition record_vm_200 : DNSRecord :=
  mkDNSRecord "test-vm" "A" 300 "192.168.1.200" None.

(** Records for the validator. *)
Definition record_cname : DNSRecord :=
  mkDNSRecord "www" "CNAME" 0 "target.example.com" None.

Definition record_cname_valid : DNSRecord :=
  mkDNSRecord "www" "CNAME" 300 "target.example.com." None.

Definition record_lower_mx : DNSRecord :=
  mkDNSRecord "mail" "mx" 0 "" None.

(** The store on the small control plane, with the codec of types.go. *)
Definition CreateRecord (failing : list string) :=
  client_go.CreateRecord (parser := ipv4.parser) (codec := types_go.codec)
    sim.Zone (sim.run failing) sim.client.
Definition UpdateRecord (failing : list string) :=
  client_go.UpdateRecord (parser := ipv4.parser) (codec := types_go.codec)
    sim.Zone (sim.run failing) sim.client.
Definition DeleteRecord (failing : list string) :=
  client_go.DeleteRecord (codec := types_go.codec) sim.Zone (sim.run failing) sim.client.
Definition GetRecord (failing : list string) :=
  client_go.GetRecord (codec := types_go.codec) sim.Zone (sim.run failing) sim.client.

(** The error of [executeKnotc] when the subcommand [sub] fails there. *)
Definition knotc_error (sub : string) : error :=
  ErrorW "knotc command failed: " (ErrorS "exit status 1") (", output: error: " ++ sub).

(** An empty zone, and the worlds after a first [CreateRecord] and after
    the probe of a second. *)
Definition w0 : client_go.World sim.Zone := sim.world [].
Definition w1 : client_go.World sim.Zone := snd (CreateRecord [] "example.com" record_vm w0).
Definition w2 : client_go.World sim.Zone :=
  snd (GetRecord [] "example.com" "test-vm" "A" w1).

(** A zone that holds a record with the TTL zero, and a request that gives
    the data only. *)
Definition w_ttl0 : client_go.World sim.Zone := sim.world [["www"; "0"; "A"; "1.2.3.4"]].
Definition update_data : UpdateRecordRequest :=
  mkUpdateRecordRequest None (Some "5.6.7.8") None.

(** The record of the MX line with two fields of data. *)
Definition record_mx_two : DNSRecord :=
  mkDNSRecord "example.com." "MX" 300 "mail.example.com. backup.example.com." (Some 10%N).

(** A record whose data is no address, the record that [Validate] leaves
    of it, and the error that [Validate] returns. *)
Definition record_no_address : DNSRecord := mkDNSRecord "www" "A" 0 "nowhere" None.
Definition record_no_address_300 : DNSRecord := mkDNSRecord "www" "A" 300 "nowhere" None.
Definition error_no_address : error :=
  ErrorW "invalid record data: " (ErrorS "invalid IPv4 address: nowhere") "".

(** The other operations and the handlers on the small control plane. *)
Definition GetRecords (failing : list string) :=
  client_go.GetRecords (codec := types_go.codec) sim.Zone (sim.run failing) sim.client.
Definition handle_CreateRecord (failing : list string) :=
  api.CreateRecord (parser := ipv4.parser) (codec := types_go.codec)
    sim.Zone (sim.run failing) sim.client.
Definition handle_DeleteRecord (failing : list string) :=
  api.DeleteRecord (codec := types_go.codec) sim.Zone (sim.run failing) sim.client.

(** The worlds after a fetch in the empty zone, and the errors of the
    fetch. *)
Definition w0_read : client_go.World sim.Zone :=
  snd (GetRecord [] "example.com" "www" "A" w0).
Definition error_not_found : error :=
  ErrorS "record not found: www A in zone example.com".
Definition w0_probe : client_go.World sim.Zone :=
  snd (GetRecord [] "example.com" "test-vm" "A" w0).
Definition error_vm_not_found : error :=
  ErrorS "record not found: test-vm A in zone example.com".

Definition handle_UpdateRecord (failing : list string) :=
  api.UpdateRecord (parser := ipv4.parser) (codec := types_go.codec)
    sim.Zone (sim.run failing) sim.client.

(** The world after an update of the record with the TTL zero. *)
Definition w_updated : client_go.World sim.Zone :=
  snd (UpdateRecord [] "example.com" "www" "A" update_data w_ttl0).

(** A create request that gives no TTL. *)
Definition request_vm : CreateRecordRequest :=
  mkCreateRecordRequest "test-vm" "A" 0 "192.168.1.100" None.

(** The calls of a [DeleteRecord] in the zone that holds the record. *)
Definition delete_calls : list (client_go.Call) :=
  Eval vm_compute in
    client_go.trace _ (snd (DeleteRecord [] "example.com" "www" "A" w_ttl0)).


(** A zone with two records of one name and type. *)
Definition w_siblings : client_go.World sim.Zone :=
  sim.world [["www"; "300"; "A"; "1.2.3.4"]; ["www"; "300"; "A"; "9.9.9.9"]].

(** [UpdateRecord] on the control plane whose zone-set adds. *)
Definition UpdateRecord_adding :=
  client_go.UpdateRecord (parser := ipv4.parser) (codec := types_go.codec)
    sim.Zone (sim.runAdding []) sim.client.

End ex.

(* ================================================================== *)
(** * Vocabulary of the statements *)
(* ================================================================== *)

(** A byte that is not a UTF-8 continuation byte: it starts a rune. *)
Definition notCont (c : ascii) : bool :=
  ((strings.byte c <? 128) || (192 <=? strings.byte c))%N.

(** [v] is empty or starts with the first byte of a rune. *)
Definition startsRune (v : string) : Prop :=
  match v with
  | EmptyString => True
  | String d _ => notCont d = true
  end.

(** No space rune sits at a position of [t] when [t] is followed by [s]. *)
Fixpoint noSpaceBefore (t s : string) : bool :=
  match t with
  | EmptyString => true
  | String _ t' => (strings.spaceWidth (t ++ s) =? 0)%nat && noSpaceBefore t' s
  end.

(** A field: not empty and without a space rune. *)
Definition isToken (t : string) : bool :=
  negb (t =? "") && noSpaceBefore t "".

(** Two results of [ParseKnotRecord] agree: both are errors, or both are
    the same record (the error texts quote the line and are not compared). *)
Definition sameResult (a b : result knot.DNSRecord) : Prop :=
  match a, b with
  | Ok x, Ok y => x = y
  | Err _, Err _ => True
  | _, _ => False
  end.

(** The variable [dataStart] of the second copy of [ParseKnotRecord]: the
    index of the first field after the type, 4 when a class field is
    passed over and 3 otherwise. *)
Definition dataStartOf (parts : list string) : nat :=
  if (5 <=? List.length parts)%nat && part_001.isClass (nth 2 parts "") then 4 else 3.

(** The data of a record as [ParseKnotRecord] builds it: not empty, and
    equal to its own fields joined by single spaces. *)
Definition joinedFields (d : string) : bool :=
  negb (d =? "") && (strings.Join (strings.Fields d) " " =? d).

(** The form of the records that the parser of types.go returns: name and
    type are fields, the TTL fits 32 bits; an MX record has a priority that
    fits 16 bits and one field of data; a record of another type has no
    priority and joined fields as its data. *)
Definition types_go_wellFormed (r : knot.DNSRecord) : bool :=
  isToken (knot.Name r) && isToken (knot.Type_ r) && (knot.TTL r <? 2 ^ 32)%N
  && if knot.Type_ r =? knot.RecordTypeMX
     then match knot.Priority r with
          | Some p => (p <? 2 ^ 16)%N && isToken (knot.Data r)
          | None => false
          end
     else knot.isNil (knot.Priority r) && joinedFields (knot.Data r).

(** The same for the second copy, where the data of an MX record is joined
    from all the fields after the priority. *)
Definition part_001_wellFormed (r : knot.DNSRecord) : bool :=
  isToken (knot.Name r) && isToken (knot.Type_ r) && (knot.TTL r <? 2 ^ 32)%N
  && joinedFields (knot.Data r)
  && if knot.Type_ r =? knot.RecordTypeMX
     then match knot.Priority r with
          | Some p => (p <? 2 ^ 16)%N
          | None => false
          end
     else knot.isNil (knot.Priority r).

(** The subcommand of a call of [executeKnotc], and those of a trace. *)
Definition subcommand (call : client_go.Call) : string :=
  nth 0 (client_go.call_args call) "".

Definition subcommands (t : list client_go.Call) : list string :=
  map subcommand t.



(** The test that [CreateRecord] makes on the result of its probe: a record
    was found and its TTL, data and priority are those of the new record. *)
Definition probeSame (probe : result knot.DNSRecord) (record : knot.DNSRecord) : bool :=
  match probe with
  | Ok existingRecord =>
      (knot.TTL existingRecord =? knot.TTL record)%N
      && (knot.Data existingRecord =? knot.Data record)
      && client_go.samePriority (knot.Priority existingRecord) (knot.Priority record)
  | Err _ => false
  end.

(** ** The calls of a transaction

    The three mutating operations run the same discipline after their
    checks: zone-begin, the mutating steps in order, zone-commit.  A step
    is the arguments of its call and the text that wraps its error.
    [TxRun z beginMsg commitMsg steps calls res] says that [calls] and the
    returned error [res] are one run of this discipline as the code does
    it: a failing zone-begin ends the run; a failing step is followed by
    zone-abort, whose result is dropped, and ends the run with the step's
    error; zone-commit ends the run, with its error if it fails. *)
Record Step : Type := mkStep {
  step_args : list string;
  step_wrap : string
}.

Inductive StepsRun (z commitMsg : string)
  : list Step -> list client_go.Call -> option error -> Prop :=
| RunCommitOk (o : string) :
    StepsRun z commitMsg [] [client_go.mkCall ["zone-commit"; z] (Ok o)] None
| RunCommitErr (e : error) :
    StepsRun z commitMsg [] [client_go.mkCall ["zone-commit"; z] (Err e)]
             (Some (ErrorW commitMsg e ""))
| RunStepErr (st : Step) (more : list Step) (e : error) (ar : result string) :
    StepsRun z commitMsg (st :: more)
             [client_go.mkCall (step_args st) (Err e);
              client_go.mkCall ["zone-abort"; z] ar]
             (Some (ErrorW (step_wrap st) e ""))
| RunStepOk (st : Step) (more : list Step) (o : string)
            (calls : list client_go.Call) (res : option error) :
    StepsRun z commitMsg more calls res ->
    StepsRun z commitMsg (st :: more) (client_go.mkCall (step_args st) (Ok o) :: calls) res.

Inductive TxRun (z beginMsg commitMsg : string) (steps : list Step)
  : list client_go.Call -> option error -> Prop :=
| TxBeginErr (e : error) :
    TxRun z beginMsg commitMsg steps
          [client_go.mkCall ["zone-begin"; z] (Err e)]
          (Some (ErrorW beginMsg e ""))
| TxBeginOk (o : string) (calls : list client_go.Call) (res : option error) :
    StepsRun z commitMsg steps calls res ->
    TxRun z beginMsg commitMsg steps (client_go.mkCall ["zone-begin"; z] (Ok o) :: calls) res.

(** The texts of the errors of the transactions. *)
Definition beginMsg (zone : string) : string :=
  "failed to begin transaction for zone " ++ zone ++ ": ".
Definition commitMsg (zone : string) : string :=
  "failed to commit transaction for zone " ++ zone ++ ": ".

(** The steps of the three operations. *)
Definition createSteps (zone : string) (record : knot.DNSRecord) : list Step :=
  [mkStep (client_go.setArgs (client_go.normalizeZoneName zone) record)
          ("failed to add record to zone " ++ zone ++ ": ")].

Definition updateSteps (zone original : string) (record : knot.DNSRecord) : list Step :=
  [mkStep ["zone-unset"; client_go.normalizeZoneName zone; original]
          ("failed to remove old record from zone " ++ zone ++ ": ");
   mkStep (client_go.setArgs (client_go.normalizeZoneName zone) record)
          ("failed to add updated record to zone " ++ zone ++ ": ")].

Definition deleteSteps (zone name : string) (recordType : knot.RecordType) : list Step :=
  [mkStep ["zone-unset"; zone; name ++ " " ++ recordType]
          ("failed to remove record from zone " ++ zone ++ ": ")].

(* ================================================================== *)
(** * Facts about the [strings] functions *)
(* ================================================================== *)

Lemma append_nil_r (s : string) : s ++ "" = s.
Proof. induction s; simpl; congruence. Qed.

Lemma append_assoc (a b c : string) : (a ++ b) ++ c = a ++ (b ++ c).
Proof. induction a; simpl; congruence. Qed.

Lemma length_append (a b : string) :
  String.length (a ++ b) = String.length a + String.length b.
Proof. induction a; simpl; congruence. Qed.

Lemma append_inv_head (a b c : string) : a ++ b = a ++ c -> b = c.
Proof. induction a; simpl; intros H; [exact H | injection H; auto]. Qed.

Lemma take_drop (n : nat) (s : string) : strings.take n s ++ strings.drop n s = s.
Proof.
  revert s; induction n; intros [|c r]; simpl; try reflexivity.
  now rewrite IHn.
Qed.

Lemma drop_append (a b : string) : strings.drop (String.length a) (a ++ b) = b.
Proof. induction a; simpl; [now destruct b | exact IHa]. Qed.

Lemma take_append (a b : string) : strings.take (String.length a) (a ++ b) = a.
Proof. induction a; simpl; [now destruct b | now rewrite IHa]. Qed.

Lemma HasPrefix_spec (s p : string) :
  strings.HasPrefix s p = true <-> exists r, s = p ++ r.
Proof.
  revert s; induction p as [|a p IH]; intros s; simpl.
  - split; [intros _; now exists s | reflexivity].
  - destruct s as [|c s].
    + split; [discriminate | intros [r H]; discriminate].
    + rewrite andb_true_iff, IH, Ascii.eqb_eq. split.
      * intros [-> [r ->]]. now exists r.
      * intros [r H]. injection H as -> ->. split; [reflexivity | now exists r].
Qed.

Lemma HasSuffix_spec (s suffix : string) :
  strings.HasSuffix s suffix = true <-> exists p, s = p ++ suffix.
Proof.
  unfold strings.HasSuffix. rewrite andb_true_iff, Nat.leb_le, String.eqb_eq. split.
  - intros [_ H].
    exists (strings.take (String.length s - String.length suffix) s).
    rewrite <- H at 2. symmetry. apply take_drop.
  - intros [p ->]. rewrite length_append. split; [lia|].
    replace (String.length p + String.length suffix - String.length suffix)
      with (String.length p) by lia.
    apply drop_append.
Qed.

Lemma HasSuffix_append (p suffix : string) : strings.HasSuffix (p ++ suffix) suffix = true.
Proof. apply HasSuffix_spec. now exists p. Qed.

Lemma TrimSuffix_append (p suffix : string) : strings.TrimSuffix (p ++ suffix) suffix = p.
Proof.
  unfold strings.TrimSuffix. rewrite HasSuffix_append, length_append.
  replace (String.length p + String.length suffix - String.length suffix)
    with (String.length p) by lia.
  apply take_append.
Qed.

Lemma rev_append (a b : string) : strings.rev (a ++ b) = strings.rev b ++ strings.rev a.
Proof.
  induction a; simpl.
  - now rewrite append_nil_r.
  - now rewrite IHa, append_assoc.
Qed.

Lemma rev_involutive (s : string) : strings.rev (strings.rev s) = s.
Proof. induction s; simpl; [reflexivity|]. now rewrite rev_append, IHs. Qed.

(* ================================================================== *)
(** * The validator *)
(* ================================================================== *)

Section ValidatorFacts.
Context {parser : net.Parser}.
Import knot.

Lemma append_dot_not_empty (d : string) : (d ++ "." =? "") = false.
Proof. now destruct d. Qed.

Lemma quoted_prefix (x : string) :
  strings.HasPrefix (String "034"%char x) dquote = true.
Proof. reflexivity. Qed.

Lemma quoted_suffix (x : string) :
  strings.HasSuffix (String "034"%char (x ++ dquote)) dquote = true.
Proof. change (String "034"%char (x ++ dquote)) with ((dquote ++ x) ++ dquote). apply HasSuffix_append. Qed.

Ltac validate_step :=
  match goal with
  | H : (_, _) = (_, _) |- _ => inversion H; subst; clear H
  | H : (if ?b then _ else _) = (_, None) |- _ => destruct b eqn:?
  | H : match ?o with Some _ => _ | None => _ end = (_, None) |- _ => destruct o eqn:?
  | H : (_, Some _) = (_, None) |- _ => discriminate H
  end.

(** [validateData] leaves a record that it accepts again without a change,
    and it touches neither the name, the type, the TTL nor the priority. *)
Lemma validateData_fixed (r r' : DNSRecord) :
  validateData r = (r', None) ->
  validateData r' = (r', None)
  /\ Name r' = Name r /\ Type_ r' = Type_ r /\ TTL r' = TTL r /\ Priority r' = Priority r.
Proof.
  unfold validateData. intros H.
  repeat validate_step;
    cbn [Name Type_ TTL Data Priority set_Data];
    repeat match goal with
           | E : _ = _ |- _ => rewrite E
           end;
    rewrite ?HasSuffix_append, ?append_dot_not_empty, ?quoted_prefix, ?quoted_suffix;
    cbn [negb orb String.eqb]; auto.
Qed.

(** C6.  [Validate] is idempotent: a record that [Validate] accepts is left
    in a form that [Validate] accepts again and does not change.  On the
    way a zero TTL has become 300, and the data of a PTR, CNAME, NS or MX
    record that lacked the trailing dot has received exactly one. *)
Theorem Validate_idempotent (r r1 : DNSRecord) :
  Validate r = (r1, None) ->
  Validate r1 = (r1, None)
  /\ (TTL r = 0%N -> TTL r1 = 300%N)
  /\ (In (Type_ r) [RecordTypePTR; RecordTypeCNAME; RecordTypeNS; RecordTypeMX] ->
      strings.HasSuffix (Data r) "." = false -> Data r1 = Data r ++ ".").
Proof.
  unfold Validate. intros H.
  destruct (Name r =? "") eqn:EN; [discriminate|].
  destruct (negb (IsValidRecordType (Type_ r))) eqn:ET; [discriminate|].
  set (r0 := if (TTL r =? 0)%N then set_TTL r 300 else r) in *.
  assert (F0 : Name r0 = Name r /\ Type_ r0 = Type_ r /\ Data r0 = Data r
               /\ (TTL r0 =? 0)%N = false /\ (TTL r = 0%N -> TTL r0 = 300%N)).
  { subst r0. destruct (TTL r =? 0)%N eqn:E0; cbn [Name Type_ Data TTL set_TTL].
    - repeat split; auto.
    - repeat split; auto. apply N.eqb_neq in E0. contradiction. }
  destruct F0 as (FN & FT & FD & FZ & F3). clearbody r0.
  destruct (validateData r0) as [r2 [e|]] eqn:V; [discriminate|].
  inversion H; subst r2; clear H.
  destruct (validateData_fixed _ _ V) as (V1 & VN & VT & VL & _).
  split; [|split].
  - rewrite VN, FN, EN, VT, FT, ET, VL, FZ, V1. reflexivity.
  - intros Z. rewrite VL. auto.
  - intros HT HS. unfold validateData in V. rewrite FT, FD, HS in V.
    cbn [negb] in V.
    destruct HT as [E|[E|[E|[E|[]]]]]; rewrite <- E in V; cbn in V;
      repeat validate_step; reflexivity || (now rewrite FD).
Qed.

(** C10.  A record whose type is a supported type written in another case
    (for instance "a" or "mx") and whose name is not empty passes
    [Validate] whatever its data and without a priority: the type check
    upper-cases the type, the per-type switch compares it as it is, so no
    per-type rule applies.  The record is returned with the default TTL
    and nothing else changed. *)
Theorem Validate_other_case_type (r : DNSRecord) :
  Name r <> "" ->
  IsValidRecordType (Type_ r) = true ->
  ~ In (Type_ r) ValidRecordTypes ->
  Validate r = (if (TTL r =? 0)%N then set_TTL r 300 else r, None).
Proof.
  intros HN HV HI. unfold Validate.
  apply String.eqb_neq in HN. rewrite HN, HV. cbn [negb].
  assert (HT : forall t, In t ValidRecordTypes -> (Type_ r =? t) = false).
  { intros t Ht. apply String.eqb_neq. intros E. apply HI. now rewrite E. }
  assert (HD : forall r0, Type_ r0 = Type_ r -> validateData r0 = (r0, None)).
  { intros r0 E. unfold validateData. rewrite E.
    rewrite !HT by (cbn; tauto). reflexivity. }
  rewrite HD; [reflexivity|]. now destruct (TTL r =? 0)%N.
Qed.

(** What [validateData] and [Validate] change in a record they accept: the
    TTL when it is zero, and the data, by a trailing dot or by quotes. *)
Lemma validateData_shape (r r' : DNSRecord) :
  validateData r = (r', None) ->
  Name r' = Name r /\ Type_ r' = Type_ r /\ TTL r' = TTL r /\ Priority r' = Priority r
  /\ (Data r' = Data r \/ Data r' = Data r ++ "."
      \/ Data r' = dquote ++ strings.Trim (Data r) dquote ++ dquote).
Proof.
  unfold validateData. intros H.
  repeat validate_step; cbn [Name Type_ TTL Data Priority set_Data]; auto 10.
Qed.


(** ** What [Validate] leaves *)

Lemma validateData_normal_form (r r' : DNSRecord) :
  validateData r = (r', None) ->
  (Type_ r = RecordTypeA ->
   exists ip, net.ParseIP (Data r') = Some ip /\ net.To4 ip <> None)
  /\ (Type_ r = RecordTypeAAAA ->
      exists ip, net.ParseIP (Data r') = Some ip /\ net.To4 ip = None)
  /\ (In (Type_ r) [RecordTypePTR; RecordTypeCNAME; RecordTypeNS; RecordTypeMX] ->
      strings.HasSuffix (Data r') "." = true)
  /\ (In (Type_ r) [RecordTypePTR; RecordTypeCNAME; RecordTypeNS; RecordTypeTXT] ->
      Data r' <> "")
  /\ (Type_ r = RecordTypeMX -> Priority r' <> None)
  /\ (Type_ r = RecordTypeTXT ->
      strings.HasPrefix (Data r') dquote = true
      /\ strings.HasSuffix (Data r') dquote = true).
Proof.
  unfold validateData. intros H.
  destruct (Type_ r =? RecordTypeA) eqn:EA.
  { apply String.eqb_eq in EA. rewrite EA.
    destruct (net.ParseIP (Data r)) as [ip|] eqn:EP; [|discriminate].
    cbn [isNil to4 orb] in H. destruct (net.To4 ip) eqn:E4; [|discriminate].
    injection H as <-.
    repeat split; try discriminate; try (intros [X|[X|[X|[X|[]]]]]; discriminate X).
    intros _. exists ip. rewrite EP, E4. split; [reflexivity | discriminate]. }
  destruct (Type_ r =? RecordTypeAAAA) eqn:E6.
  { apply String.eqb_eq in E6. rewrite E6.
    destruct (net.ParseIP (Data r)) as [ip|] eqn:EP; [|discriminate].
    cbn [isNil to4 orb negb] in H. destruct (net.To4 ip) eqn:E4; [discriminate|].
    injection H as <-.
    repeat split; try discriminate; try (intros [X|[X|[X|[X|[]]]]]; discriminate X).
    intros _. exists ip. now rewrite EP, E4. }
  destruct ((Type_ r =? RecordTypePTR) || (Type_ r =? RecordTypeCNAME)
            || (Type_ r =? RecordTypeNS)) eqn:EN.
  { assert (HT : Type_ r <> RecordTypeA /\ Type_ r <> RecordTypeAAAA
                 /\ Type_ r <> RecordTypeMX /\ Type_ r <> RecordTypeTXT).
    { apply orb_true_iff in EN. destruct EN as [EN|EN];
        [apply orb_true_iff in EN; destruct EN as [EN|EN]|];
        apply String.eqb_eq in EN; rewrite EN; repeat split; discriminate. }
    destruct HT as (NA & N6 & NM & NT).
    destruct (Data r =? "") eqn:ED; [discriminate|]. apply String.eqb_neq in ED.
    destruct (strings.HasSuffix (Data r) ".") eqn:ES; cbn [negb] in H; injection H as <-;
      cbn [Data set_Data]; rewrite ?HasSuffix_append;
      repeat split; try contradiction; auto;
      intros _; now destruct (Data r). }
  destruct (Type_ r =? RecordTypeMX) eqn:EM.
  { apply String.eqb_eq in EM. rewrite EM.
    destruct (Priority r) as [p|] eqn:EP; [|discriminate].
    destruct (strings.HasSuffix (Data r) ".") eqn:ES; cbn [negb] in H; injection H as <-;
      cbn [Data Priority set_Data]; rewrite ?HasSuffix_append, ?EP;
      repeat split; try discriminate; auto;
      intros [X|[X|[X|[X|[]]]]]; discriminate X. }
  destruct (Type_ r =? RecordTypeTXT) eqn:ET.
  { apply String.eqb_eq in ET. rewrite ET.
    destruct (Data r =? "") eqn:ED; [discriminate|]. apply String.eqb_neq in ED.
    destruct (negb (strings.HasPrefix (Data r) dquote)
              || negb (strings.HasSuffix (Data r) dquote)) eqn:EQ; injection H as <-;
      cbn [Data set_Data].
    - repeat split; try discriminate;
        try (intros [X|[X|[X|[X|[]]]]]; discriminate X).
      change (dquote ++ strings.Trim (Data r) dquote ++ dquote)
        with (String "034"%char (strings.Trim (Data r) dquote ++ dquote)).
      apply quoted_suffix.
    - apply orb_false_iff in EQ. destruct EQ as [Q1 Q2].
      apply negb_false_iff in Q1. apply negb_false_iff in Q2.
      repeat split; try discriminate; auto;
        intros [X|[X|[X|[X|[]]]]]; discriminate X. }
  apply orb_false_iff in EN. destruct EN as [EN ENS].
  apply orb_false_iff in EN. destruct EN as [EPT ECN].
  apply String.eqb_neq in EA, E6, EPT, ECN, ENS, EM, ET.
  injection H as <-.
  repeat split; try contradiction;
    intros [X|[X|[X|[X|[]]]]]; congruence.
Qed.

(** X4.  A record that [Validate] accepts is left in the form its type
    asks for: the name is not empty, the type is a supported one, the TTL
    is not zero; the data of an A record is an address with a 4-byte form
    and that of an AAAA record an address without one; the data of a PTR,
    CNAME, NS or MX record ends with a dot; the data of a PTR, CNAME, NS
    or TXT record is not empty; an MX record has a priority; the data of a
    TXT record begins and ends with a double quote. *)
Theorem Validate_normal_form (r r' : DNSRecord) :
  Validate r = (r', None) ->
  Name r' <> "" /\ IsValidRecordType (Type_ r') = true /\ TTL r' <> 0%N
  /\ (Type_ r' = RecordTypeA ->
      exists ip, net.ParseIP (Data r') = Some ip /\ net.To4 ip <> None)
  /\ (Type_ r' = RecordTypeAAAA ->
      exists ip, net.ParseIP (Data r') = Some ip /\ net.To4 ip = None)
  /\ (In (Type_ r') [RecordTypePTR; RecordTypeCNAME; RecordTypeNS; RecordTypeMX] ->
      strings.HasSuffix (Data r') "." = true)
  /\ (In (Type_ r') [RecordTypePTR; RecordTypeCNAME; RecordTypeNS; RecordTypeTXT] ->
      Data r' <> "")
  /\ (Type_ r' = RecordTypeMX -> Priority r' <> None)
  /\ (Type_ r' = RecordTypeTXT ->
      strings.HasPrefix (Data r') dquote = true
      /\ strings.HasSuffix (Data r') dquote = true).
Proof.
  unfold Validate. intros H.
  destruct (Name r =? "") eqn:EN; [discriminate|]. apply String.eqb_neq in EN.
  destruct (negb (IsValidRecordType (Type_ r))) eqn:EV; [discriminate|].
  apply negb_false_iff in EV.
  set (r0 := if (TTL r =? 0)%N then set_TTL r 300 else r) in *.
  assert (F0 : Name r0 = Name r /\ Type_ r0 = Type_ r /\ TTL r0 <> 0%N).
  { subst r0. destruct (TTL r =? 0)%N eqn:E0; cbn [Name Type_ TTL set_TTL].
    - repeat split. discriminate.
    - repeat split. now apply N.eqb_neq in E0. }
  destruct F0 as (FN & FT & FZ). clearbody r0.
  destruct (validateData r0) as [r2 [e|]] eqn:V; [discriminate|].
  injection H as <-.
  destruct (validateData_shape _ _ V) as (VN & VT & VL & _).
  apply validateData_normal_form in V.
  rewrite VN, VT, VL, FN, FT. rewrite FT in V.
  split; [exact EN|]. split; [exact EV|]. split; [exact FZ|]. exact V.
Qed.

(** X5.  A record that [Validate] refuses keeps its name, type, data and
    priority.  Its TTL is kept too, except that a zero TTL has already
    been replaced by 300 when the refusal comes from the data: the default
    is written before the data is looked at. *)
Theorem Validate_refusal_keeps_record (r r' : DNSRecord) (e : error) :
  Validate r = (r', Some e) ->
  (r' = r
   /\ (e = ErrorS "record name cannot be empty"
       \/ e = ErrorS ("invalid record type: " ++ Type_ r)
       \/ exists cause, e = ErrorW "invalid record data: " cause ""))
  \/ (TTL r = 0%N /\ r' = set_TTL r 300
      /\ exists cause, e = ErrorW "invalid record data: " cause "").
Proof.
  unfold Validate. intros H.
  destruct (Name r =? ""); [injection H as <- <-; auto|].
  destruct (negb (IsValidRecordType (Type_ r))); [injection H as <- <-; auto|].
  assert (K : forall r0 r2 cause, validateData r0 = (r2, Some cause) -> r2 = r0).
  { intros r0 r2 cause. unfold validateData.
    repeat match goal with
           | |- (if ?b then _ else _) = _ -> _ => destruct b
           | |- match ?o with Some _ => _ | None => _ end = _ -> _ => destruct o
           end; intros [= <-]; reflexivity || discriminate. }
  destruct (TTL r =? 0)%N eqn:E0.
  - destruct (validateData (set_TTL r 300)) as [r2 [cause|]] eqn:V; [|discriminate].
    injection H as <- <-. apply K in V. right. apply N.eqb_eq in E0.
    split; [exact E0|]. split; [exact V|]. now exists cause.
  - destruct (validateData r) as [r2 [cause|]] eqn:V; [|discriminate].
    injection H as <- <-. apply K in V. left. split; [exact V|].
    right. right. now exists cause.
Qed.

Lemma Validate_A_accepts (r : DNSRecord) :
  Name r <> "" -> Type_ r = RecordTypeA ->
  (snd (Validate r) = None
   <-> net.ParseIP (Data r) <> None /\ to4 (net.ParseIP (Data r)) <> None).
Proof.
  intros HN HT. unfold Validate. apply String.eqb_neq in HN. rewrite HN, HT.
  change (IsValidRecordType RecordTypeA) with true. cbn [negb].
  set (r0 := if (TTL r =? 0)%N then set_TTL r 300 else r).
  assert (E : Type_ r0 = RecordTypeA /\ Data r0 = Data r).
  { subst r0. destruct (TTL r =? 0)%N; cbn [Type_ Data set_TTL]; auto. }
  destruct E as [ET ED]. clearbody r0.
  unfold validateData. rewrite ET, ED.
  change (RecordTypeA =? RecordTypeA) with true. cbv beta iota.
  destruct (net.ParseIP (Data r)) as [ip|]; cbn [isNil to4 orb].
  - destruct (net.To4 ip); cbn.
    + split; [intros _; split; discriminate | reflexivity].
    + split; [discriminate | intros [_ X]; contradiction].
  - cbn. split; [discriminate | intros [X _]; contradiction].
Qed.

Lemma Validate_AAAA_accepts (r : DNSRecord) :
  Name r <> "" -> Type_ r = RecordTypeAAAA ->
  (snd (Validate r) = None
   <-> net.ParseIP (Data r) <> None /\ to4 (net.ParseIP (Data r)) = None).
Proof.
  intros HN HT. unfold Validate. apply String.eqb_neq in HN. rewrite HN, HT.
  change (IsValidRecordType RecordTypeAAAA) with true. cbn [negb].
  set (r0 := if (TTL r =? 0)%N then set_TTL r 300 else r).
  assert (E : Type_ r0 = RecordTypeAAAA /\ Data r0 = Data r).
  { subst r0. destruct (TTL r =? 0)%N; cbn [Type_ Data set_TTL]; auto. }
  destruct E as [ET ED]. clearbody r0.
  unfold validateData. rewrite ET, ED.
  change (RecordTypeAAAA =? RecordTypeA) with false.
  change (RecordTypeAAAA =? RecordTypeAAAA) with true. cbv beta iota.
  destruct (net.ParseIP (Data r)) as [ip|]; cbn [isNil to4 orb negb].
  - destruct (net.To4 ip); cbn.
    + split; [discriminate | intros [_ X]; discriminate X].
    + split; [intros _; split; [discriminate | reflexivity] | reflexivity].
  - cbn. split; [discriminate | intros [X _]; contradiction].
Qed.

(** X6.  No data is good for both an A and an AAAA record, and every
    address that [net.ParseIP] accepts is good for exactly one of the two:
    for the A record when it has a 4-byte form (a v4-mapped IPv6 text
    included), for the AAAA record otherwise. *)
Theorem A_and_AAAA_data_disjoint (name data : string) (ttl : N) (priority : option N) :
  let a := mkDNSRecord name RecordTypeA ttl data priority in
  let aaaa := mkDNSRecord name RecordTypeAAAA ttl data priority in
  ~ (snd (Validate a) = None /\ snd (Validate aaaa) = None)
  /\ (name <> "" -> net.ParseIP data <> None ->
      (snd (Validate a) = None <-> to4 (net.ParseIP data) <> None)
      /\ (snd (Validate aaaa) = None <-> to4 (net.ParseIP data) = None)).
Proof.
  cbv zeta. split.
  - intros [HA H6]. destruct (String.eqb_spec name "") as [->|HN].
    + discriminate HA.
    + apply Validate_A_accepts in HA; [|exact HN | reflexivity].
      apply Validate_AAAA_accepts in H6; [|exact HN | reflexivity].
      cbn [Data] in HA, H6. destruct HA as [_ X], H6 as [_ Y]. contradiction.
  - intros HN HP. split.
    + rewrite Validate_A_accepts by (exact HN || reflexivity). cbn [Data]. tauto.
    + rewrite Validate_AAAA_accepts by (exact HN || reflexivity). cbn [Data]. tauto.
Qed.

End ValidatorFacts.

(* ================================================================== *)
(** * The zone guard *)
(* ================================================================== *)

Lemma normalizeZoneName_canonical (z : string) :
  (exists p, client_go.normalizeZoneName z = p ++ ".")
  /\ ((exists p, z = p ++ ".") -> client_go.normalizeZoneName z = z)
  /\ (~ (exists p, z = p ++ ".") -> client_go.normalizeZoneName z = z ++ ".").
Proof.
  unfold client_go.normalizeZoneName.
  destruct (strings.HasSuffix z ".") eqn:E; cbn [negb].
  - apply HasSuffix_spec in E. split; [exact E|]. split; [reflexivity|].
    intros N. contradiction.
  - split; [now exists z|]. split; [|reflexivity].
    intros P. apply HasSuffix_spec in P. congruence.
Qed.

(** The guard of client.go.  With a non-empty allow-list, [IsZoneAllowed]
    holds exactly when the zone, brought to its trailing-dot form, equals
    the trailing-dot form of an entry or ends with "." followed by it; with
    an empty allow-list it always holds.  The trailing-dot form of a name
    is the name itself when it ends with a dot, and the name with a dot
    appended otherwise.  So "a.b.example.com" is allowed under
    ["example.com"] and "notexample.com" is not. *)
Theorem IsZoneAllowed_label_suffix :
  (forall c zone,
      client_go.allowedZones c <> [] ->
      (client_go.IsZoneAllowed c zone = true <->
       exists entry,
         In entry (client_go.allowedZones c)
         /\ (client_go.normalizeZoneName zone = client_go.normalizeZoneName entry
             \/ exists p, client_go.normalizeZoneName zone
                          = p ++ "." ++ client_go.normalizeZoneName entry)))
  /\ (forall c zone, client_go.allowedZones c = [] -> client_go.IsZoneAllowed c zone = true)
  /\ (forall z,
         (exists p, client_go.normalizeZoneName z = p ++ ".")
         /\ ((exists p, z = p ++ ".") -> client_go.normalizeZoneName z = z)
         /\ (~ (exists p, z = p ++ ".") -> client_go.normalizeZoneName z = z ++ "."))
  /\ client_go.IsZoneAllowed (client_go.mkClient "" "" ["example.com"]) "a.b.example.com" = true
  /\ client_go.IsZoneAllowed (client_go.mkClient "" "" ["example.com"]) "notexample.com" = false.
Proof.
  split; [|split; [|split; [|split]]].
  - intros c zone HNE. unfold client_go.IsZoneAllowed.
    destruct (client_go.allowedZones c) as [|a l] eqn:EL; [contradiction|].
    cbn [List.length Nat.eqb]. rewrite existsb_exists. split.
    + intros (entry & HIn & H). exists entry. split; [exact HIn|].
      apply orb_true_iff in H. destruct H as [H|H].
      * left. now apply String.eqb_eq.
      * right. now apply HasSuffix_spec.
    + intros (entry & HIn & H). exists entry. split; [exact HIn|].
      apply orb_true_iff. destruct H as [H|H].
      * left. now apply String.eqb_eq.
      * right. now apply HasSuffix_spec.
  - intros c zone E. unfold client_go.IsZoneAllowed. now rewrite E.
  - exact normalizeZoneName_canonical.
  - reflexivity.
  - reflexivity.
Qed.

(** The guard of the second copy ([src/unnamed/part_002]).  With a
    non-empty allow-list it holds exactly when the zone, as it is written,
    equals an entry as it is written or ends with "." followed by it: the
    match is on a label boundary, but no name is brought to its
    trailing-dot form. *)
Lemma part_002_IsZoneAllowed_as_written (c : client_go.Client) (zone : string) :
  (client_go.allowedZones c <> [] ->
   (part_002.IsZoneAllowed c zone = true <->
    exists entry,
      In entry (client_go.allowedZones c)
      /\ (zone = entry \/ exists p, zone = p ++ "." ++ entry)))
  /\ (client_go.allowedZones c = [] -> part_002.IsZoneAllowed c zone = true).
Proof.
  unfold part_002.IsZoneAllowed. split.
  - intros HNE. destruct (client_go.allowedZones c) as [|a l] eqn:EL; [contradiction|].
    cbn [List.length Nat.eqb]. rewrite existsb_exists. split.
    + intros (entry & HIn & H). exists entry. split; [exact HIn|].
      apply orb_true_iff in H. destruct H as [H|H].
      * left. now apply String.eqb_eq.
      * right. now apply HasSuffix_spec.
    + intros (entry & HIn & H). exists entry. split; [exact HIn|].
      apply orb_true_iff. destruct H as [H|H].
      * left. now apply String.eqb_eq.
      * right. now apply HasSuffix_spec.
  - intros E. now rewrite E.
Qed.

(** C5.  The guard of the second copy ([src/unnamed/part_002]) is not the
    test of the claim: it compares the zone and the entries as they are
    written.  The zone "example.com." and the entry "example.com" have the
    same trailing-dot form, and the guard of client.go allows the zone, but
    the second copy refuses it; it also refuses "www.example.com." under
    that entry, and "example.com" under the entry "example.com.".  On the
    two examples of the claim the copies agree. *)
Theorem part_002_IsZoneAllowed_not_canonical :
  client_go.normalizeZoneName "example.com." = client_go.normalizeZoneName "example.com"
  /\ part_002.IsZoneAllowed (client_go.mkClient "" "" ["example.com"]) "example.com." = false
  /\ client_go.IsZoneAllowed (client_go.mkClient "" "" ["example.com"]) "example.com." = true
  /\ part_002.IsZoneAllowed (client_go.mkClient "" "" ["example.com"]) "www.example.com."
     = false
  /\ client_go.IsZoneAllowed (client_go.mkClient "" "" ["example.com"]) "www.example.com."
     = true
  /\ part_002.IsZoneAllowed (client_go.mkClient "" "" ["example.com."]) "example.com" = false
  /\ client_go.IsZoneAllowed (client_go.mkClient "" "" ["example.com."]) "example.com" = true
  /\ part_002.IsZoneAllowed (client_go.mkClient "" "" ["example.com"]) "a.b.example.com"
     = true
  /\ part_002.IsZoneAllowed (client_go.mkClient "" "" ["example.com"]) "notexample.com"
     = false.
Proof. repeat split; reflexivity. Qed.

(** ** Zones below an allowed zone, and the two copies of the guard *)

Lemma HasSuffix_dot_cons (c : ascii) (s : string) :
  s <> "" -> strings.HasSuffix (String c s) "." = strings.HasSuffix s ".".
Proof.
  intros HS. unfold strings.HasSuffix. destruct s as [|d s]; [congruence|].
  cbn [String.length Nat.leb Nat.sub andb].
  rewrite Nat.sub_0_r. reflexivity.
Qed.

Lemma HasSuffix_dot_append (a s : string) :
  s <> "" -> strings.HasSuffix (a ++ s) "." = strings.HasSuffix s ".".
Proof.
  intros HS. induction a as [|c a IH]; [reflexivity|].
  cbn [String.append]. rewrite HasSuffix_dot_cons; [exact IH|].
  destruct a; [exact HS | discriminate].
Qed.

(** The trailing-dot form of a name under a non-empty zone is the name
    under the trailing-dot form of the zone. *)
Lemma normalizeZoneName_below (p zone : string) :
  zone <> "" ->
  client_go.normalizeZoneName (p ++ "." ++ zone)
  = p ++ "." ++ client_go.normalizeZoneName zone.
Proof.
  intros HZ. unfold client_go.normalizeZoneName.
  replace (p ++ "." ++ zone) with ((p ++ ".") ++ zone) by apply append_assoc.
  rewrite HasSuffix_dot_append by exact HZ.
  destruct (strings.HasSuffix zone "."); cbn [negb].
  - apply append_assoc.
  - rewrite !append_assoc. reflexivity.
Qed.

(** X7.  The guard is closed under going down: when a zone (not the empty
    name) is allowed, so is every name that ends with a dot followed by
    that zone, whether or not the names are written with a trailing dot. *)
Theorem IsZoneAllowed_below_allowed (c : client_go.Client) (zone p : string) :
  zone <> "" ->
  client_go.IsZoneAllowed c zone = true ->
  client_go.IsZoneAllowed c (p ++ "." ++ zone) = true.
Proof.
  intros HZ. unfold client_go.IsZoneAllowed.
  destruct (List.length (client_go.allowedZones c) =? 0)%nat; [reflexivity|].
  rewrite !existsb_exists. intros (entry & HIn & H). exists entry. split; [exact HIn|].
  rewrite normalizeZoneName_below by exact HZ.
  apply orb_true_iff. right. apply HasSuffix_spec.
  apply orb_true_iff in H. destruct H as [H|H].
  - apply String.eqb_eq in H. rewrite H. now exists p.
  - apply HasSuffix_spec in H. destruct H as [q ->]. exists (p ++ "." ++ q).
    now rewrite !append_assoc.
Qed.

Lemma normalizeZoneName_idempotent (z : string) :
  client_go.normalizeZoneName (client_go.normalizeZoneName z)
  = client_go.normalizeZoneName z.
Proof.
  unfold client_go.normalizeZoneName at 2.
  destruct (strings.HasSuffix z ".") eqn:E; cbn [negb]; unfold client_go.normalizeZoneName.
  - now rewrite E.
  - now rewrite HasSuffix_append, E.
Qed.

(** X26.  The guard does not tell a name from the same name with a dot at
    its end: a zone is allowed exactly when its trailing-dot form is, and
    writing the entries of the allow-list with or without their trailing
    dot makes no difference. *)
Theorem IsZoneAllowed_ignores_trailing_dot (c : client_go.Client) (zone : string) :
  client_go.IsZoneAllowed c (client_go.normalizeZoneName zone)
  = client_go.IsZoneAllowed c zone
  /\ client_go.IsZoneAllowed
       (client_go.mkClient (client_go.knotcPath c) (client_go.socketPath c)
          (map client_go.normalizeZoneName (client_go.allowedZones c))) zone
     = client_go.IsZoneAllowed c zone.
Proof.
  unfold client_go.IsZoneAllowed. cbn [client_go.allowedZones]. split.
  - now rewrite normalizeZoneName_idempotent.
  - rewrite length_map.
    destruct (List.length (client_go.allowedZones c) =? 0)%nat; [reflexivity|].
    induction (client_go.allowedZones c) as [|a l IH]; [reflexivity|].
    cbn [map existsb]. now rewrite IH, normalizeZoneName_idempotent.
Qed.

(** X8.  The guard of client.go allows whatever the guard of the second
    copy allows, as long as no entry of the allow-list is the empty name;
    and the two guards agree when the zone and all the entries are written
    with their trailing dot. *)
Theorem IsZoneAllowed_copies (c : client_go.Client) (zone : string) :
  (Forall (fun entry => entry <> "") (client_go.allowedZones c) ->
   part_002.IsZoneAllowed c zone = true -> client_go.IsZoneAllowed c zone = true)
  /\ (strings.HasSuffix zone "." = true ->
      Forall (fun entry => strings.HasSuffix entry "." = true) (client_go.allowedZones c) ->
      client_go.IsZoneAllowed c zone = part_002.IsZoneAllowed c zone).
Proof.
  unfold part_002.IsZoneAllowed, client_go.IsZoneAllowed. split.
  - intros HE. destruct (List.length (client_go.allowedZones c) =? 0)%nat; [reflexivity|].
    rewrite !existsb_exists. intros (entry & HIn & H). exists entry. split; [exact HIn|].
    rewrite Forall_forall in HE. specialize (HE _ HIn).
    apply orb_true_iff in H. apply orb_true_iff. destruct H as [H|H].
    + apply String.eqb_eq in H. subst entry. left. apply String.eqb_refl.
    + right. apply HasSuffix_spec in H. destruct H as [q ->].
      rewrite normalizeZoneName_below by exact HE. apply HasSuffix_append.
  - intros HZ HA. destruct (List.length (client_go.allowedZones c) =? 0)%nat; [reflexivity|].
    assert (NZ : client_go.normalizeZoneName zone = zone).
    { unfold client_go.normalizeZoneName. now rewrite HZ. }
    rewrite NZ. rewrite Forall_forall in HA.
    induction (client_go.allowedZones c) as [|a l IH]; [reflexivity|].
    cbn [existsb]. rewrite IH by (intros x Hx; apply HA; now right).
    assert (NA : client_go.normalizeZoneName a = a).
    { unfold client_go.normalizeZoneName. rewrite HA by now left. reflexivity. }
    now rewrite NA.
Qed.

(* ================================================================== *)
(** * Space runes, fields and trimming *)
(* ================================================================== *)

Ltac bprop H :=
  repeat first [ rewrite orb_true_iff in H | rewrite andb_true_iff in H
               | rewrite N.eqb_eq in H | rewrite N.leb_le in H
               | rewrite N.ltb_lt in H ].

Lemma asciiSpace_notCont (c : ascii) : strings.asciiSpace c = true -> notCont c = true.
Proof.
  unfold strings.asciiSpace, notCont. intros H. bprop H.
  apply orb_true_iff. left. apply N.ltb_lt. lia.
Qed.

Lemma space2_lead (a b : N) : strings.space2 a b = true -> (192 <= a)%N.
Proof. unfold strings.space2. intros H. bprop H. lia. Qed.

Lemma space3_lead (a b c : N) : strings.space3 a b c = true -> (192 <= a)%N.
Proof. unfold strings.space3. intros H. bprop H. lia. Qed.

Lemma space2_cont (a : N) (d : ascii) :
  notCont d = true -> strings.space2 a (strings.byte d) = false.
Proof.
  unfold notCont. intros H. apply not_true_is_false. intros F.
  unfold strings.space2 in F. bprop H. bprop F. lia.
Qed.

Lemma space3_cont2 (a c : N) (d : ascii) :
  notCont d = true -> strings.space3 a (strings.byte d) c = false.
Proof.
  unfold notCont. intros H. apply not_true_is_false. intros F.
  unfold strings.space3 in F. bprop H. bprop F. lia.
Qed.

Lemma space3_cont3 (a b : N) (d : ascii) :
  notCont d = true -> strings.space3 a b (strings.byte d) = false.
Proof.
  unfold notCont. intros H. apply not_true_is_false. intros F.
  unfold strings.space3 in F. bprop H. bprop F. lia.
Qed.

Lemma spaceWidth_le_length (s : string) : strings.spaceWidth s <= String.length s.
Proof.
  destruct s as [|a [|b [|c s]]]; cbn; try lia.
  - destruct (strings.asciiSpace a); lia.
  - destruct (strings.asciiSpace a); [lia|]. destruct (strings.space2 _ _); lia.
  - destruct (strings.asciiSpace a); [lia|]. destruct (strings.space2 _ _); [lia|].
    destruct (strings.space3 _ _ _); lia.
Qed.

Lemma spaceWidth_head (d : ascii) (v : string) (k : nat) :
  strings.spaceWidth (String d v) = S k -> notCont d = true.
Proof.
  cbn. destruct (strings.asciiSpace d) eqn:E; [intros _; now apply asciiSpace_notCont|].
  assert (L : (192 <= strings.byte d)%N -> notCont d = true).
  { intros L. unfold notCont. apply orb_true_iff. right. now apply N.leb_le. }
  destruct v as [|b [|c v]]; [discriminate | |].
  - destruct (strings.space2 _ _) eqn:E2; [|discriminate].
    intros _. apply L. eapply space2_lead; eauto.
  - destruct (strings.space2 _ _) eqn:E2.
    + intros _. apply L. eapply space2_lead; eauto.
    + destruct (strings.space3 _ _ _) eqn:E3; [|discriminate].
      intros _. apply L. eapply space3_lead; eauto.
Qed.

Lemma spaceWidth_stable (u v : string) (k : nat) :
  strings.spaceWidth u = S k -> strings.spaceWidth (u ++ v) = S k.
Proof.
  destruct u as [|a [|b [|c u]]]; cbn; try discriminate.
  - destruct (strings.asciiSpace a); [auto | discriminate].
  - destruct (strings.asciiSpace a); [auto|].
    destruct (strings.space2 _ _); [auto | discriminate].
  - auto.
Qed.

Lemma spaceWidth_zero_ext (a : ascii) (t v : string) :
  strings.spaceWidth (String a t) = 0 -> startsRune v ->
  strings.spaceWidth (String a t ++ v) = 0.
Proof.
  destruct v as [|d v]; [now rewrite append_nil_r|].
  unfold startsRune. intros H D.
  destruct t as [|b [|c t]]; cbn in *.
  - destruct (strings.asciiSpace a); [discriminate|].
    rewrite space2_cont by exact D.
    destruct v; [reflexivity|]. now rewrite space3_cont2.
  - destruct (strings.asciiSpace a); [discriminate|].
    destruct (strings.space2 _ _); [discriminate|].
    now rewrite space3_cont3.
  - exact H.
Qed.

Lemma spaceWidth_space (s : string) : strings.spaceWidth (String " "%char s) = 1.
Proof. reflexivity. Qed.

(** ** Fields *)

Lemma noSpaceBefore_snoc (cur r : string) (c : ascii) :
  noSpaceBefore cur (String c r) = true ->
  strings.spaceWidth (String c r) = 0 ->
  noSpaceBefore (cur ++ String c EmptyString) r = true.
Proof.
  intros H Z. induction cur as [|a cur IH]; cbn [noSpaceBefore String.append] in *.
  - rewrite Z. reflexivity.
  - apply andb_true_iff in H. destruct H as [H1 H2].
    apply andb_true_iff. split; [|now apply IH].
    rewrite append_assoc. exact H1.
Qed.

Lemma noSpaceBefore_alone (cur s : string) :
  noSpaceBefore cur s = true -> noSpaceBefore cur "" = true.
Proof.
  induction cur as [|a cur IH]; cbn [noSpaceBefore]; [reflexivity|].
  intros H. apply andb_true_iff in H. destruct H as [H1 H2].
  apply andb_true_iff. split; [|now apply IH].
  apply Nat.eqb_eq. apply Nat.eqb_eq in H1.
  destruct (strings.spaceWidth (String a cur ++ "")) eqn:E; [reflexivity|].
  rewrite append_nil_r in E.
  rewrite (spaceWidth_stable _ s _ E) in H1. discriminate.
Qed.

Lemma flush_token (cur s : string) :
  noSpaceBefore cur s = true -> Forall (fun t => isToken t = true) (strings.flush cur).
Proof.
  intros H. destruct cur as [|a cur]; cbn [strings.flush]; constructor; [|constructor].
  unfold isToken. cbn [String.eqb negb andb]. eapply noSpaceBefore_alone; eauto.
Qed.

(** Every field that [Fields] returns is not empty and holds no space rune. *)
Lemma fieldsFrom_tokens (s : string) :
  forall skip cur,
    noSpaceBefore cur s = true -> (skip <> 0 -> cur = "") ->
    Forall (fun t => isToken t = true) (strings.fieldsFrom skip cur s).
Proof.
  induction s as [|c r IH]; intros skip cur HN HS; cbn [strings.fieldsFrom].
  - eapply flush_token; eauto.
  - destruct skip as [|k].
    + destruct (strings.spaceWidth (String c r)) as [|k] eqn:E.
      * apply IH; [|congruence]. now apply noSpaceBefore_snoc.
      * apply Forall_app. split; [eapply flush_token; eauto|].
        apply IH; [reflexivity | reflexivity].
    + rewrite (HS ltac:(discriminate)). apply IH; [reflexivity | reflexivity].
Qed.

Lemma Fields_tokens (s : string) : Forall (fun t => isToken t = true) (strings.Fields s).
Proof. apply fieldsFrom_tokens; [reflexivity | congruence]. Qed.

Lemma fieldsFrom_token (t v : string) :
  noSpaceBefore t "" = true -> startsRune v ->
  forall cur, strings.fieldsFrom 0 cur (t ++ v) = strings.fieldsFrom 0 (cur ++ t) v.
Proof.
  intros HN HV. induction t as [|a t IH]; intros cur.
  - now rewrite append_nil_r.
  - cbn [noSpaceBefore] in HN. apply andb_true_iff in HN. destruct HN as [H1 H2].
    apply Nat.eqb_eq in H1. rewrite append_nil_r in H1.
    cbn [String.append strings.fieldsFrom].
    change (String a (t ++ v)) with (String a t ++ v).
    rewrite (spaceWidth_zero_ext _ _ _ H1 HV).
    rewrite (IH H2). now rewrite append_assoc.
Qed.

Lemma isToken_inv (t : string) :
  isToken t = true -> t <> "" /\ noSpaceBefore t "" = true.
Proof.
  unfold isToken. intros H. apply andb_true_iff in H. destruct H as [H1 H2].
  split; [|exact H2]. intros ->. discriminate.
Qed.

Lemma flush_nonempty (t : string) : t <> "" -> strings.flush t = [t].
Proof. destruct t; [congruence | reflexivity]. Qed.

(** [Fields] undoes [Join] with a space on fields. *)
Lemma Fields_Join (ts : list string) :
  Forall (fun t => isToken t = true) ts ->
  strings.Fields (strings.Join ts " ") = ts.
Proof.
  unfold strings.Fields. induction ts as [|a rest IH]; intros HF; [reflexivity|].
  inversion HF as [|? ? Ha Hrest]; subst.
  destruct (isToken_inv _ Ha) as [Hne Hns].
  destruct rest as [|b rest].
  - cbn [strings.Join]. rewrite <- (append_nil_r a) at 1.
    rewrite (fieldsFrom_token a "" Hns I). cbn [String.append strings.fieldsFrom].
    now apply flush_nonempty.
  - change (strings.Join (a :: b :: rest) " ")
      with (a ++ String " "%char (strings.Join (b :: rest) " ")).
    rewrite (fieldsFrom_token a _ Hns); [|reflexivity].
    cbn [String.append strings.fieldsFrom].
    rewrite spaceWidth_space, flush_nonempty by exact Hne.
    rewrite IH by exact Hrest. reflexivity.
Qed.

(** ** Trimming *)

Lemma fieldsFrom_dropSpaces (s : string) :
  forall k, strings.fieldsFrom k "" s
            = strings.fieldsFrom 0 "" (strings.dropSpaces strings.spaceWidth k s).
Proof.
  induction s as [|c r IH]; intros k; [now destruct k|].
  destruct k as [|k]; cbn [strings.fieldsFrom strings.dropSpaces].
  - destruct (strings.spaceWidth (String c r)) as [|j] eqn:E.
    + cbn [strings.fieldsFrom]. now rewrite E.
    + cbn [strings.flush app]. apply IH.
  - apply IH.
Qed.

Lemma fieldsFrom_skip_all (r : string) :
  strings.fieldsFrom (String.length r) "" r = [].
Proof. induction r; cbn; auto. Qed.

(** A space rune appended to a string adds no field. *)
Lemma fieldsFrom_app_space (e : string) :
  e <> "" -> strings.spaceWidth e = String.length e ->
  forall p k cur,
    k <= String.length p ->
    strings.fieldsFrom k cur (p ++ e) = strings.fieldsFrom k cur p.
Proof.
  intros Hne He.
  assert (HR : startsRune e).
  { destruct e as [|d e]; [exact I|]. cbn [startsRune].
    eapply spaceWidth_head. rewrite He. reflexivity. }
  induction p as [|a p IH]; intros k cur Hk.
  - assert (k = 0) by (cbn in Hk; lia). subst k.
    destruct e as [|d e]; [congruence|].
    cbn [String.append strings.fieldsFrom]. rewrite He. cbn [String.length].
    rewrite fieldsFrom_skip_all. now rewrite app_nil_r.
  - cbn [String.length] in Hk. destruct k as [|k]; cbn [String.append strings.fieldsFrom].
    + change (String a (p ++ e)) with (String a p ++ e).
      destruct (strings.spaceWidth (String a p)) as [|j] eqn:E.
      * rewrite (spaceWidth_zero_ext _ _ _ E HR). apply IH. lia.
      * rewrite (spaceWidth_stable _ e _ E). f_equal. apply IH.
        pose proof (spaceWidth_le_length (String a p)) as L.
        rewrite E in L. cbn [String.length] in L. lia.
    + apply IH. lia.
Qed.

Lemma lead_not_asciiSpace (a : ascii) :
  (192 <= strings.byte a)%N -> strings.asciiSpace a = false.
Proof.
  intros H. apply not_true_is_false. intros F.
  unfold strings.asciiSpace in F. bprop F. lia.
Qed.

Lemma space3_not_space2 (a b c : N) :
  strings.space3 a b c = true -> strings.space2 a b = false.
Proof.
  intros H. apply not_true_is_false. intros F.
  unfold strings.space3 in H. unfold strings.space2 in F. bprop H. bprop F. lia.
Qed.

(** What [spaceWidthLast] finds at the end of a string is the encoding of
    one space rune. *)
Lemma spaceWidthLast_split (c : ascii) (r : string) (k : nat) :
  strings.spaceWidthLast (String c r) = S k ->
  exists e rs',
    String c r = strings.rev e ++ rs'
    /\ e <> "" /\ strings.spaceWidth e = String.length e
    /\ strings.dropSpaces strings.spaceWidthLast k r
       = strings.dropSpaces strings.spaceWidthLast 0 rs'.
Proof.
  cbn [strings.spaceWidthLast].
  destruct (strings.asciiSpace c) eqn:Ec.
  { intros H. injection H as <-. exists (String c ""), r.
    cbn. rewrite Ec. repeat split; try reflexivity. discriminate. }
  destruct r as [|b r]; [discriminate|].
  destruct (strings.space2 (strings.byte b) (strings.byte c)) eqn:E2.
  { intros H. injection H as <-. exists (String b (String c "")), r.
    cbn. rewrite (lead_not_asciiSpace b) by (eapply space2_lead; eauto).
    rewrite E2. repeat split; try reflexivity. discriminate. }
  destruct r as [|a r]; [discriminate|].
  destruct (strings.space3 (strings.byte a) (strings.byte b) (strings.byte c)) eqn:E3;
    [|discriminate].
  intros H. injection H as <-. exists (String a (String b (String c ""))), r.
  cbn. rewrite (lead_not_asciiSpace a) by (eapply space3_lead; eauto).
  rewrite (space3_not_space2 _ _ _ E3), E3. repeat split; try reflexivity. discriminate.
Qed.

Lemma Fields_dropSpaces_last (n : nat) :
  forall rs, String.length rs <= n ->
    strings.Fields (strings.rev (strings.dropSpaces strings.spaceWidthLast 0 rs))
    = strings.Fields (strings.rev rs).
Proof.
  induction n as [|n IH]; intros rs Hn.
  - destruct rs; [reflexivity | cbn in Hn; lia].
  - destruct rs as [|c r]; [reflexivity|].
    cbn [strings.dropSpaces].
    destruct (strings.spaceWidthLast (String c r)) as [|k] eqn:E; [reflexivity|].
    destruct (spaceWidthLast_split _ _ _ E) as (e & rs' & Hs & Hne & He & Hd).
    rewrite Hd, Hs, rev_append, rev_involutive.
    assert (L : String.length rs' <= n).
    { apply (f_equal String.length) in Hs. rewrite length_append in Hs.
      cbn [String.length] in Hs, Hn.
      assert (String.length (strings.rev e) <> 0).
      { destruct e as [|x e]; [congruence|]. cbn [strings.rev].
        rewrite length_append. cbn. lia. }
      lia. }
    rewrite (IH _ L). unfold strings.Fields.
    symmetry. apply fieldsFrom_app_space; auto. lia.
Qed.

(** [Fields] does not see what [TrimSpace] removes. *)
Lemma Fields_TrimSpace (s : string) :
  strings.Fields (strings.TrimSpace s) = strings.Fields s.
Proof.
  unfold strings.TrimSpace, strings.TrimRightSpace.
  rewrite (Fields_dropSpaces_last _ _ (le_n _)), rev_involutive.
  unfold strings.TrimLeftSpace, strings.Fields. symmetry. apply fieldsFrom_dropSpaces.
Qed.

(* ================================================================== *)
(** * Facts about the [strconv] functions *)
(* ================================================================== *)

Lemma to_uint_nonnil (n : N) : N.to_uint n <> Nil.
Proof. destruct n; [discriminate | apply DecimalPos.Unsigned.to_uint_nonnil]. Qed.

Lemma FormatUint_digits (n : N) :
  strconv.FormatUint n = NilEmpty.string_of_uint (N.to_uint n).
Proof.
  unfold strconv.FormatUint, NilZero.string_of_uint.
  pose proof (to_uint_nonnil n). now destruct (N.to_uint n).
Qed.

(** [ParseUint] reads back what [FormatUint] writes. *)
Lemma ParseUint_FormatUint (n bitSize : N) :
  (n < 2 ^ bitSize)%N -> strconv.ParseUint (strconv.FormatUint n) bitSize = Some n.
Proof.
  intros H. unfold strconv.ParseUint, strconv.FormatUint.
  rewrite NilZero.usu by apply to_uint_nonnil.
  cbv zeta. rewrite DecimalN.Unsigned.of_to.
  apply N.ltb_lt in H. now rewrite H.
Qed.

Lemma ParseUint_range (s : string) (bitSize n : N) :
  strconv.ParseUint s bitSize = Some n -> (n < 2 ^ bitSize)%N.
Proof.
  unfold strconv.ParseUint. destruct (NilZero.uint_of_string s); [|discriminate].
  cbv zeta. destruct (N.of_uint u <? 2 ^ bitSize)%N eqn:E; [|discriminate].
  intros [= <-]. now apply N.ltb_lt.
Qed.


Lemma space2_ascii (a b : N) : (a < 128)%N -> strings.space2 a b = false.
Proof.
  intros H. apply not_true_is_false. intros F. apply space2_lead in F. lia.
Qed.

Lemma space3_ascii (a b c : N) : (a < 128)%N -> strings.space3 a b c = false.
Proof.
  intros H. apply not_true_is_false. intros F. apply space3_lead in F. lia.
Qed.

(** An ASCII byte that is not a space starts no space rune. *)
Lemma spaceWidth_ascii (c : ascii) (t : string) :
  (strings.byte c < 128)%N -> strings.asciiSpace c = false ->
  strings.spaceWidth (String c t) = 0.
Proof.
  intros H E. cbn. rewrite E.
  destruct t as [|b [|d t]]; [reflexivity | |];
    rewrite ?space2_ascii, ?space3_ascii by exact H; reflexivity.
Qed.

Lemma digits_noSpace (d : uint) (s : string) :
  noSpaceBefore (NilEmpty.string_of_uint d) s = true.
Proof.
  induction d; cbn [NilEmpty.string_of_uint noSpaceBefore String.append];
    [reflexivity|..];
    apply andb_true_iff; (split; [|assumption]);
    rewrite spaceWidth_ascii; try reflexivity; cbn; lia.
Qed.

Lemma FormatUint_token (n : N) : isToken (strconv.FormatUint n) = true.
Proof.
  unfold isToken. rewrite FormatUint_digits, digits_noSpace.
  pose proof (to_uint_nonnil n). now destruct (N.to_uint n).
Qed.

(* ================================================================== *)
(** * The record codec *)
(* ================================================================== *)

Lemma Join_cons (a : string) (l : list string) (sep : string) :
  l <> [] -> strings.Join (a :: l) sep = a ++ sep ++ strings.Join l sep.
Proof. destruct l; [congruence | reflexivity]. Qed.

Lemma isToken_IN : isToken "IN" = true.
Proof. reflexivity. Qed.

Section CodecFacts.
Import knot.

Let Tok (t : string) : Prop := isToken t = true.

(** What the parser of types.go returns on the line it accepts, in terms
    of the fields of the line. *)
Lemma types_go_parse_shape (line : string) (r : DNSRecord) :
  types_go.ParseKnotRecord line = Ok r ->
  exists name ttlStr typ d0 rest,
    strings.Fields line = name :: ttlStr :: typ :: d0 :: rest
    /\ Forall Tok (name :: ttlStr :: typ :: d0 :: rest)
    /\ Name r = name /\ Type_ r = typ
    /\ strconv.ParseUint ttlStr 32 = Some (TTL r)
    /\ ((typ = RecordTypeMX /\ exists d1 rest',
            rest = d1 :: rest' /\ Data r = d1
            /\ exists p, strconv.ParseUint d0 16 = Some p /\ Priority r = Some p)
        \/ (typ <> RecordTypeMX /\ Data r = strings.Join (d0 :: rest) " "
            /\ Priority r = None)).
Proof.
  unfold types_go.ParseKnotRecord. cbv zeta.
  pose proof (Fields_tokens line) as HF. fold Tok in HF.
  destruct (strings.Fields line) as [|name [|ttlStr [|typ [|d0 rest]]]];
    try discriminate.
  cbn [List.length Nat.ltb Nat.leb nth skipn].
  destruct (strconv.ParseUint ttlStr 32) as [ttl|] eqn:ET; [|discriminate].
  cbn [Type_ set_TTL Name Data Priority TTL].
  destruct (typ =? RecordTypeMX) eqn:EM.
  - apply String.eqb_eq in EM.
    destruct rest as [|d1 rest']; [discriminate|]. cbn [List.length Nat.ltb Nat.leb].
    destruct (strconv.ParseUint d0 16) as [p|] eqn:EP; [|discriminate].
    intros [= <-]. exists name, ttlStr, typ, d0, (d1 :: rest').
    cbn. repeat split; auto. left. split; [exact EM|].
    exists d1, rest'. repeat split; auto. now exists p.
  - apply String.eqb_neq in EM. intros [= <-].
    exists name, ttlStr, typ, d0, rest. cbn. repeat split; auto.
Qed.

(** The codec of types.go reads back what it writes: formatting a record
    that [ParseKnotRecord] returned and parsing the line gives the record
    again, for every type. *)
Lemma types_go_roundtrip (line : string) (r : DNSRecord) :
  types_go.ParseKnotRecord line = Ok r ->
  types_go.ParseKnotRecord (types_go.ToKnotFormat r) = Ok r.
Proof.
  intros H.
  destruct (types_go_parse_shape _ _ H)
    as (name & ttlStr & typ & d0 & rest & _ & HF & HN & HT & HL & HD).
  apply ParseUint_range in HL.
  inversion HF as [|? ? Tn HF1]; subst. inversion HF1 as [|? ? _ HF2]; subst.
  inversion HF2 as [|? ? Tt HF3]; subst. clear HF HF1 HF2.
  destruct r as [rn rt rl rd rp]. cbn [Name Type_ TTL Data Priority] in *.
  unfold types_go.ParseKnotRecord, types_go.ToKnotFormat.
  cbn [Name Type_ TTL Data Priority]. cbv zeta.
  destruct HD as [(EM & d1 & rest' & -> & ED & p & EP & EPr)
                 |(NM & ED & EPr)]; subst.
  - apply ParseUint_range in EP.
    inversion HF3 as [|? ? _ HF4]; subst. inversion HF4 as [|? ? Td _]; subst.
    change (RecordTypeMX =? RecordTypeMX) with true. cbn [andb negb isNil deref Datatypes.app].
    rewrite Fields_Join.
    2:{ repeat constructor; auto; apply FormatUint_token. }
    cbn [List.length Nat.ltb Nat.leb nth Type_ set_TTL].
    rewrite ParseUint_FormatUint by exact HL.
    change (RecordTypeMX =? RecordTypeMX) with true. cbn [List.length Nat.ltb Nat.leb].
    rewrite ParseUint_FormatUint by exact EP. reflexivity.
  - apply String.eqb_neq in NM. rewrite NM. cbn [andb Datatypes.app].
    change (strings.Join [rn; strconv.FormatUint rl; rt; strings.Join (d0 :: rest) " "] " ")
      with (strings.Join (rn :: strconv.FormatUint rl :: rt :: d0 :: rest) " ").
    rewrite Fields_Join.
    2:{ constructor; [exact Tn|]. constructor; [apply FormatUint_token|].
        constructor; [exact Tt | exact HF3]. }
    cbn [List.length Nat.ltb Nat.leb nth Type_ set_TTL skipn].
    rewrite ParseUint_FormatUint by exact HL. rewrite NM. reflexivity.
Qed.

Lemma dropSpaces_suffix (w : string -> nat) (s : string) :
  forall k, exists p, s = p ++ strings.dropSpaces w k s.
Proof.
  induction s as [|c r IH]; intros k; [now exists ""|].
  cbn [strings.dropSpaces]. destruct k as [|k].
  - destruct (w (String c r)) as [|j]; [now exists ""|].
    destruct (IH j) as [p Hp]. exists (String c p). cbn. now rewrite <- Hp.
  - destruct (IH k) as [p Hp]. exists (String c p). cbn. now rewrite <- Hp.
Qed.

Lemma TrimRightSpace_prefix (s : string) : exists q, s = strings.TrimRightSpace s ++ q.
Proof.
  unfold strings.TrimRightSpace.
  destruct (dropSpaces_suffix strings.spaceWidthLast (strings.rev s) 0) as [p Hp].
  exists (strings.rev p).
  rewrite <- rev_append, <- Hp. symmetry. apply rev_involutive.
Qed.

(** [TrimSpace] leaves the first byte of a string that starts with a byte
    other than a bracket and not with a space rune: the result does not
    start with a bracket. *)
Lemma TrimSpace_no_bracket (c : ascii) (r : string) :
  strings.spaceWidth (String c r) = 0 -> Ascii.eqb c "["%char = false ->
  strings.HasPrefix (strings.TrimSpace (String c r)) "[" = false.
Proof.
  intros HW HC. unfold strings.TrimSpace, strings.TrimLeftSpace.
  cbn [strings.dropSpaces]. rewrite HW.
  destruct (TrimRightSpace_prefix (String c r)) as [q Hq].
  destruct (strings.TrimRightSpace (String c r)) as [|c' t]; [reflexivity|].
  cbn in Hq. injection Hq as <- _. cbn. now rewrite HC.
Qed.

(** What the second copy of the parser returns on a line that is not an MX
    line, in terms of the fields of the line. *)
Lemma part_001_parse_shape (line : string) (r : DNSRecord) :
  part_001.ParseKnotRecord line = Ok r -> Type_ r <> RecordTypeMX ->
  exists ttlStr d0 rest,
    Forall Tok (Name r :: Type_ r :: d0 :: rest)
    /\ strconv.ParseUint ttlStr 32 = Some (TTL r)
    /\ Data r = strings.Join (d0 :: rest) " "
    /\ Priority r = None.
Proof.
  unfold part_001.ParseKnotRecord. cbv zeta.
  pose proof (Fields_tokens (part_001.stripZone line)) as HF. fold Tok in HF.
  destruct (strings.Fields (part_001.stripZone line))
    as [|name [|ttlStr [|p2 [|p3 rest]]]]; try discriminate.
  inversion HF as [|? ? Tn HF1]; subst. inversion HF1 as [|? ? _ HF2]; subst.
  inversion HF2 as [|? ? T2 HF3]; subst. inversion HF3 as [|? ? T3 HF4]; subst.
  assert (NoClass :
    match strconv.ParseUint ttlStr 32 with
    | Some ttl =>
        if p2 =? RecordTypeMX
        then if (List.length (name :: ttlStr :: p2 :: p3 :: rest) <? 3 + 2)%nat
             then Err (ErrorS ("invalid MX record format: " ++ part_001.stripZone line))
             else match strconv.ParseUint p3 16 with
                  | Some priority =>
                      Ok (set_Data (set_Priority (mkDNSRecord name p2 ttl "" None)
                                      (Some priority))
                            (strings.Join (skipn (3 + 1) (name :: ttlStr :: p2 :: p3 :: rest)) " "))
                  | None => Err (ErrorS ("invalid MX priority: " ++ p3))
                  end
        else Ok (mkDNSRecord name p2 ttl (strings.Join (p3 :: rest) " ") None)
    | None => Err (ErrorS ("invalid TTL: " ++ ttlStr))
    end = Ok r ->
    Type_ r <> RecordTypeMX ->
    exists ttlStr d0 rest,
      Forall Tok (Name r :: Type_ r :: d0 :: rest)
      /\ strconv.ParseUint ttlStr 32 = Some (TTL r)
      /\ Data r = strings.Join (d0 :: rest) " "
      /\ Priority r = None).
  { destruct (strconv.ParseUint ttlStr 32) as [ttl|] eqn:ET; [|discriminate].
    destruct (p2 =? RecordTypeMX) eqn:EM.
    - apply String.eqb_eq in EM.
      destruct (_ <? _)%nat; [discriminate|].
      destruct (strconv.ParseUint p3 16); [|discriminate].
      intros [= <-] N. cbn in N. congruence.
    - intros [= <-] _. exists ttlStr, p3, rest. cbn. repeat split; auto. }
  destruct rest as [|p4 rest].
  { exact NoClass. }
  cbn [List.length Nat.ltb Nat.leb nth andb].
  destruct (part_001.isClass p2) eqn:EC; cbv beta iota.
  - clear NoClass.
    destruct (strconv.ParseUint ttlStr 32) as [ttl|] eqn:ET; [|discriminate].
    cbn [Type_ set_TTL]. destruct (p3 =? RecordTypeMX) eqn:EM.
    + apply String.eqb_eq in EM.
      destruct rest as [|p5 rest]; cbn [List.length Nat.ltb Nat.leb Nat.add];
        [discriminate|].
      destruct (strconv.ParseUint _ 16); [|discriminate].
      intros [= <-] N. cbn in N. congruence.
    + cbn [List.length Nat.ltb Nat.leb skipn]. intros [= <-] _.
      exists ttlStr, p4, rest. cbn. inversion HF4; subst. repeat split; auto.
  - exact NoClass.
Qed.

(** The second copy of the codec reads back what it writes, for the
    records of a type other than MX whose name does not begin with a
    bracket: whether or not the line had a class field or a zone prefix,
    the formatted record parses to the same name, TTL, type, data and
    priority.  ([ToKnotFormat] writes no prefix, so a name that begins with
    a bracket would be taken for one on the way back.) *)
Lemma part_001_roundtrip (line : string) (r : DNSRecord) :
  part_001.ParseKnotRecord line = Ok r ->
  Type_ r <> RecordTypeMX ->
  strings.HasPrefix (Name r) "[" = false ->
  part_001.ParseKnotRecord (part_001.ToKnotFormat r) = Ok r.
Proof.
  intros H NM NB.
  destruct (part_001_parse_shape _ _ H NM) as (ttlStr & d0 & rest & HF & HL & HD & HP).
  apply ParseUint_range in HL.
  inversion HF as [|? ? Tn HF1]; subst. inversion HF1 as [|? ? Tt HF2]; subst.
  destruct r as [rn rt rl rd rp]. cbn [Name Type_ TTL Data Priority] in *. subst rd rp.
  apply String.eqb_neq in NM.
  assert (EF : part_001.ToKnotFormat (mkDNSRecord rn rt rl (strings.Join (d0 :: rest) " ") None)
               = strings.Join (rn :: strconv.FormatUint rl :: "IN" :: rt :: d0 :: rest) " ").
  { unfold part_001.ToKnotFormat. cbn [Name Type_ TTL Data Priority]. cbv zeta.
    rewrite NM. reflexivity. }
  assert (ET : Forall Tok (rn :: strconv.FormatUint rl :: "IN" :: rt :: d0 :: rest)).
  { constructor; [exact Tn|]. constructor; [apply FormatUint_token|].
    constructor; [exact isToken_IN|]. constructor; [exact Tt | exact HF2]. }
  assert (ES : part_001.stripZone
                 (strings.Join (rn :: strconv.FormatUint rl :: "IN" :: rt :: d0 :: rest) " ")
               = strings.TrimSpace
                   (strings.Join (rn :: strconv.FormatUint rl :: "IN" :: rt :: d0 :: rest) " ")).
  { unfold part_001.stripZone. cbv zeta.
    destruct (isToken_inv _ Tn) as [Hne Hns].
    destruct rn as [|c n]; [congruence|].
    rewrite Join_cons by discriminate. cbn [String.append].
    rewrite TrimSpace_no_bracket; [reflexivity | |].
    - cbn [noSpaceBefore] in Hns. apply andb_true_iff in Hns. destruct Hns as [H1 _].
      apply Nat.eqb_eq in H1. rewrite append_nil_r in H1.
      change (String c (n ++ " " ++ strings.Join (strconv.FormatUint rl :: "IN" :: rt :: d0 :: rest) " "))
        with (String c n ++ (" " ++ strings.Join (strconv.FormatUint rl :: "IN" :: rt :: d0 :: rest) " ")).
      apply spaceWidth_zero_ext; [exact H1 | reflexivity].
    - cbn in NB. now rewrite andb_true_r in NB. }
  rewrite EF. unfold part_001.ParseKnotRecord. cbv zeta.
  rewrite ES, Fields_TrimSpace, (Fields_Join _ ET).
  cbn [List.length Nat.ltb Nat.leb nth andb].
  change (part_001.isClass "IN") with true. cbv beta iota.
  rewrite ParseUint_FormatUint by exact HL.
  cbn [Type_ set_TTL]. rewrite NM.
  cbn [List.length Nat.ltb Nat.leb skipn]. reflexivity.
Qed.





End CodecFacts.

Section CodecClaims.
Import knot.

(** The copy of the parser that joins the data ([src/unnamed/part_001]):
    a line whose type field is MX is refused when the field after the type
    is missing or does not read as a 16-bit number; a record that is
    returned has the type field as its type, and its data is the join with
    single spaces of all the fields after the priority for MX, and of all
    the fields after the type otherwise.  The fields are those of the line
    without its zone prefix; the type field is the third, or the fourth
    after a class field. *)
Theorem ParseKnotRecord_MX_priority_data (line : string) :
  let parts := strings.Fields (part_001.stripZone line) in
  let dataStart := dataStartOf parts in
  (forall r, part_001.ParseKnotRecord line = Ok r ->
     Type_ r = nth (dataStart - 1) parts ""
     /\ (Type_ r = RecordTypeMX ->
         exists p, strconv.ParseUint (nth dataStart parts "") 16 = Some p
                   /\ Priority r = Some p
                   /\ Data r = strings.Join (skipn (dataStart + 1) parts) " ")
     /\ (Type_ r <> RecordTypeMX ->
         Priority r = None /\ Data r = strings.Join (skipn dataStart parts) " "))
  /\ (nth (dataStart - 1) parts "" = RecordTypeMX ->
      strconv.ParseUint (nth dataStart parts "") 16 = None ->
      exists e, part_001.ParseKnotRecord line = Err e).
Proof.
  unfold part_001.ParseKnotRecord, dataStartOf. cbv zeta.
  generalize (strings.Fields (part_001.stripZone line)) as parts. intros parts.
  destruct (Nat.ltb_spec (List.length parts) 4) as [L4|L4].
  { split; [discriminate|]. intros _ _. eexists. reflexivity. }
  destruct ((5 <=? List.length parts)%nat && part_001.isClass (nth 2 parts "")) eqn:EC;
    cbv beta iota; cbn [Nat.sub].
  - assert (L5 : 5 <= List.length parts).
    { apply andb_true_iff in EC. destruct EC as [E _]. now apply Nat.leb_le in E. }
    destruct (strconv.ParseUint (nth 1 parts "") 32) as [ttl|].
    2:{ split; [discriminate|]. intros _ _. eexists. reflexivity. }
    cbn [Type_ set_TTL].
    destruct (nth 3 parts "" =? RecordTypeMX) eqn:EM.
    + apply String.eqb_eq in EM.
      destruct (Nat.ltb_spec (List.length parts) (4 + 2)) as [L6|L6].
      { split; [discriminate|]. intros _ _. eexists. reflexivity. }
      destruct (strconv.ParseUint (nth 4 parts "") 16) as [p|] eqn:EP.
      * split; [|discriminate]. intros r [= <-]. cbn. split; [reflexivity|].
        split; [|congruence]. intros _. exists p. auto.
      * split; [discriminate|]. intros _ _. eexists. reflexivity.
    + apply String.eqb_neq in EM. split; [|congruence].
      destruct (Nat.ltb_spec 4 (List.length parts)) as [L|L]; [|lia].
      intros r [= <-]. cbn. split; [reflexivity|]. split; [congruence|]. auto.
  - destruct (strconv.ParseUint (nth 1 parts "") 32) as [ttl|].
    2:{ split; [discriminate|]. intros _ _. eexists. reflexivity. }
    cbn [Type_ set_TTL].
    destruct (nth 2 parts "" =? RecordTypeMX) eqn:EM.
    + apply String.eqb_eq in EM.
      destruct (Nat.ltb_spec (List.length parts) (3 + 2)) as [L6|L6].
      { split; [discriminate|]. intros _ _. eexists. reflexivity. }
      destruct (strconv.ParseUint (nth 3 parts "") 16) as [p|] eqn:EP.
      * split; [|discriminate]. intros r [= <-]. cbn. split; [reflexivity|].
        split; [|congruence]. intros _. exists p. auto.
      * split; [discriminate|]. intros _ _. eexists. reflexivity.
    + apply String.eqb_neq in EM. split; [|congruence].
      destruct (Nat.ltb_spec 3 (List.length parts)) as [L|L]; [|lia].
      intros r [= <-]. cbn. split; [reflexivity|]. split; [congruence|]. auto.
Qed.



(** The second copy of [ToKnotFormat] writes the class field IN after the
    TTL and is otherwise the first. *)
Lemma ToKnotFormat_copies (r : DNSRecord) :
  exists rest,
    types_go.ToKnotFormat r = Name r ++ " " ++ strconv.FormatUint (TTL r) ++ " " ++ rest
    /\ part_001.ToKnotFormat r
       = Name r ++ " " ++ strconv.FormatUint (TTL r) ++ " IN " ++ rest.
Proof.
  unfold types_go.ToKnotFormat, part_001.ToKnotFormat. cbv zeta.
  destruct ((Type_ r =? RecordTypeMX) && negb (isNil (Priority r)));
    eexists; split; reflexivity.
Qed.

(** C9, as amended.  The two copies of the codec agree in part.  The second
    copy of [ToKnotFormat] is the first with the class field IN written
    after the TTL.  The two copies of [ParseKnotRecord] return the same
    record or both fail on every line that does not begin with a bracket,
    whose third field is not a class field followed by two more fields,
    and which, if it is an MX line, has at most five fields. *)
Theorem codec_copies_agree_partly :
  (forall r, exists rest,
      types_go.ToKnotFormat r = Name r ++ " " ++ strconv.FormatUint (TTL r) ++ " " ++ rest
      /\ part_001.ToKnotFormat r
         = Name r ++ " " ++ strconv.FormatUint (TTL r) ++ " IN " ++ rest)
  /\ (forall line,
        strings.HasPrefix (strings.TrimSpace line) "[" = false ->
        (5 <=? List.length (strings.Fields line))%nat
        && part_001.isClass (nth 2 (strings.Fields line) "") = false ->
        (nth 2 (strings.Fields line) "" = RecordTypeMX ->
         List.length (strings.Fields line) <= 5) ->
        sameResult (types_go.ParseKnotRecord line) (part_001.ParseKnotRecord line)).
Proof.
  split; [exact ToKnotFormat_copies|].
  intros line HB. unfold types_go.ParseKnotRecord, part_001.ParseKnotRecord. cbv zeta.
  assert (ES : part_001.stripZone line = strings.TrimSpace line).
  { unfold part_001.stripZone. cbv zeta. now rewrite HB. }
  rewrite ES, Fields_TrimSpace.
  generalize (strings.Fields line) as parts. intros parts HC HM.
  rewrite HC. cbv beta iota.
  destruct parts as [|a [|b [|c [|d rest]]]]; try exact I.
  cbn [List.length Nat.ltb Nat.leb nth] in *.
  destruct (strconv.ParseUint b 32) as [ttl|]; [|exact I].
  cbn [Type_ set_TTL]. destruct (c =? RecordTypeMX) eqn:EM.
  - apply String.eqb_eq in EM. specialize (HM EM).
    destruct rest as [|e rest]; [exact I|].
    destruct rest as [|f rest]; [|cbn in HM; lia].
    cbn [List.length Nat.ltb Nat.leb Nat.add skipn strings.Join].
    destruct (strconv.ParseUint d 16); [reflexivity | exact I].
  - cbn [skipn]. reflexivity.
Qed.

(** C9, as stated, fails: the two copies format the same record differently,
    and the first copy refuses a line with a zone prefix that the second
    reads. *)
Lemma codec_copies_differ :
  types_go.ToKnotFormat ex.record_www <> part_001.ToKnotFormat ex.record_www
  /\ ~ sameResult (types_go.ParseKnotRecord ex.line_prefixed)
                  (part_001.ParseKnotRecord ex.line_prefixed).
Proof. split; [vm_compute; discriminate | vm_compute; exact (fun f => f)]. Qed.

End CodecClaims.

(** ** The records of the codec *)

Section CodecRecords.
Import knot.

Lemma Join_not_empty (t : string) (l : list string) :
  t <> "" -> strings.Join (t :: l) " " <> "".
Proof. destruct t; [congruence|]. destruct l; discriminate. Qed.

Lemma joinedFields_inv (d : string) :
  joinedFields d = true ->
  exists d0 rest,
    Forall (fun t => isToken t = true) (d0 :: rest) /\ d = strings.Join (d0 :: rest) " ".
Proof.
  unfold joinedFields. intros H. apply andb_true_iff in H. destruct H as [HE HJ].
  apply String.eqb_eq in HJ. pose proof (Fields_tokens d) as HF.
  destruct (strings.Fields d) as [|d0 rest].
  - cbn in HJ. subst d. discriminate HE.
  - exists d0, rest. auto.
Qed.

Lemma joinedFields_Join (d0 : string) (rest : list string) :
  Forall (fun t => isToken t = true) (d0 :: rest) ->
  joinedFields (strings.Join (d0 :: rest) " ") = true.
Proof.
  intros HF. unfold joinedFields. rewrite (Fields_Join _ HF), String.eqb_refl, andb_true_r.
  apply negb_true_iff, String.eqb_neq, Join_not_empty.
  inversion HF as [|? ? T _]; subst. now destruct (isToken_inv _ T).
Qed.

Lemma isToken_joinedFields (t : string) : isToken t = true -> joinedFields t = true.
Proof. intros T. apply (joinedFields_Join t []). now constructor. Qed.

(** The second copy takes no zone prefix off a line whose first field does
    not begin with a bracket. *)
Lemma stripZone_Join (name : string) (l : list string) :
  isToken name = true -> strings.HasPrefix name "[" = false -> l <> [] ->
  part_001.stripZone (strings.Join (name :: l) " ")
  = strings.TrimSpace (strings.Join (name :: l) " ").
Proof.
  intros Tn NB HL. unfold part_001.stripZone. cbv zeta.
  destruct (isToken_inv _ Tn) as [Hne Hns].
  destruct name as [|c n]; [congruence|].
  rewrite Join_cons by exact HL. cbn [String.append].
  rewrite TrimSpace_no_bracket; [reflexivity | |].
  - cbn [noSpaceBefore] in Hns. apply andb_true_iff in Hns. destruct Hns as [H1 _].
    apply Nat.eqb_eq in H1. rewrite append_nil_r in H1.
    change (String c (n ++ " " ++ strings.Join l " "))
      with (String c n ++ (" " ++ strings.Join l " ")).
    apply spaceWidth_zero_ext; [exact H1 | reflexivity].
  - cbn in NB. now rewrite andb_true_r in NB.
Qed.

(** X1.  The codec of types.go reads back every well-formed record it
    writes: when name and type are fields, the TTL fits 32 bits, and the
    record is either an MX record with a 16-bit priority and one field of
    data, or a record of another type without priority whose data is a
    join of fields, then parsing its formatted line returns the record. *)
Theorem types_go_round_trip (r : DNSRecord) :
  types_go_wellFormed r = true ->
  types_go.ParseKnotRecord (types_go.ToKnotFormat r) = Ok r.
Proof.
  destruct r as [rn rt rl rd rp]. unfold types_go_wellFormed.
  cbn [Name Type_ TTL Data Priority]. intros H.
  apply andb_true_iff in H. destruct H as [H HK].
  apply andb_true_iff in H. destruct H as [H HL]. apply N.ltb_lt in HL.
  apply andb_true_iff in H. destruct H as [Tn Tt].
  unfold types_go.ParseKnotRecord, types_go.ToKnotFormat.
  cbn [Name Type_ TTL Data Priority]. cbv zeta.
  destruct (rt =? RecordTypeMX) eqn:EM.
  - destruct rp as [p|]; [|discriminate].
    apply andb_true_iff in HK. destruct HK as [HP Td]. apply N.ltb_lt in HP.
    cbn [andb negb isNil deref Datatypes.app].
    rewrite Fields_Join.
    2:{ repeat constructor; auto; apply FormatUint_token. }
    cbn [List.length Nat.ltb Nat.leb nth Type_ set_TTL].
    rewrite ParseUint_FormatUint by exact HL.
    rewrite EM. cbn [List.length Nat.ltb Nat.leb].
    rewrite ParseUint_FormatUint by exact HP. reflexivity.
  - apply andb_true_iff in HK. destruct HK as [HP HD].
    destruct rp; [discriminate|].
    destruct (joinedFields_inv _ HD) as (d0 & rest & HF & ->).
    cbn [andb Datatypes.app].
    change (strings.Join [rn; strconv.FormatUint rl; rt; strings.Join (d0 :: rest) " "] " ")
      with (strings.Join (rn :: strconv.FormatUint rl :: rt :: d0 :: rest) " ").
    rewrite Fields_Join.
    2:{ constructor; [exact Tn|]. constructor; [apply FormatUint_token|].
        constructor; [exact Tt | exact HF]. }
    cbn [List.length Nat.ltb Nat.leb nth Type_ set_TTL skipn].
    rewrite ParseUint_FormatUint by exact HL. rewrite EM. reflexivity.
Qed.

(** X2.  The second copy of the codec reads back every well-formed record
    it writes, MX records with several fields of data included, provided
    the name does not begin with a bracket (the parser would take it for a
    zone prefix). *)
Theorem part_001_round_trip (r : DNSRecord) :
  part_001_wellFormed r = true ->
  strings.HasPrefix (Name r) "[" = false ->
  part_001.ParseKnotRecord (part_001.ToKnotFormat r) = Ok r.
Proof.
  destruct r as [rn rt rl rd rp]. unfold part_001_wellFormed.
  cbn [Name Type_ TTL Data Priority]. intros H NB.
  apply andb_true_iff in H. destruct H as [H HK].
  apply andb_true_iff in H. destruct H as [H HD].
  apply andb_true_iff in H. destruct H as [H HL]. apply N.ltb_lt in HL.
  apply andb_true_iff in H. destruct H as [Tn Tt].
  destruct (joinedFields_inv _ HD) as (d0 & rest & HF & ->). clear HD.
  destruct (rt =? RecordTypeMX) eqn:EM.
  - destruct rp as [p|]; [|discriminate]. apply N.ltb_lt in HK.
    assert (EF : part_001.ToKnotFormat
                   (mkDNSRecord rn rt rl (strings.Join (d0 :: rest) " ") (Some p))
                 = strings.Join (rn :: strconv.FormatUint rl :: "IN" :: rt
                                    :: strconv.FormatUint p :: d0 :: rest) " ").
    { unfold part_001.ToKnotFormat. cbn [Name Type_ TTL Data Priority]. cbv zeta.
      rewrite EM. reflexivity. }
    assert (ET : Forall (fun t => isToken t = true)
                   (rn :: strconv.FormatUint rl :: "IN" :: rt
                       :: strconv.FormatUint p :: d0 :: rest)).
    { constructor; [exact Tn|]. constructor; [apply FormatUint_token|].
      constructor; [exact isToken_IN|]. constructor; [exact Tt|].
      constructor; [apply FormatUint_token | exact HF]. }
    rewrite EF. unfold part_001.ParseKnotRecord. cbv zeta.
    rewrite stripZone_Join by (auto; discriminate).
    rewrite Fields_TrimSpace, (Fields_Join _ ET).
    cbn [List.length Nat.ltb Nat.leb nth andb].
    change (part_001.isClass "IN") with true. cbv beta iota.
    rewrite ParseUint_FormatUint by exact HL.
    cbn [Type_ set_TTL]. rewrite EM.
    cbn [List.length Nat.ltb Nat.leb Nat.add nth skipn].
    rewrite ParseUint_FormatUint by exact HK. reflexivity.
  - destruct rp; [discriminate|].
    assert (EF : part_001.ToKnotFormat
                   (mkDNSRecord rn rt rl (strings.Join (d0 :: rest) " ") None)
                 = strings.Join (rn :: strconv.FormatUint rl :: "IN" :: rt :: d0 :: rest) " ").
    { unfold part_001.ToKnotFormat. cbn [Name Type_ TTL Data Priority]. cbv zeta.
      rewrite EM. reflexivity. }
    assert (ET : Forall (fun t => isToken t = true)
                   (rn :: strconv.FormatUint rl :: "IN" :: rt :: d0 :: rest)).
    { constructor; [exact Tn|]. constructor; [apply FormatUint_token|].
      constructor; [exact isToken_IN|]. constructor; [exact Tt | exact HF]. }
    rewrite EF. unfold part_001.ParseKnotRecord. cbv zeta.
    rewrite stripZone_Join by (auto; discriminate).
    rewrite Fields_TrimSpace, (Fields_Join _ ET).
    cbn [List.length Nat.ltb Nat.leb nth andb].
    change (part_001.isClass "IN") with true. cbv beta iota.
    rewrite ParseUint_FormatUint by exact HL.
    cbn [Type_ set_TTL]. rewrite EM.
    cbn [List.length Nat.ltb Nat.leb skipn]. reflexivity.
Qed.

(** X3.  Every record that [ParseKnotRecord] returns is well formed, in
    both copies: its name and type are fields of the line (not empty,
    without white space), its TTL fits 32 bits, it has a priority exactly
    when its type is MX, the priority fits 16 bits, and its data is not
    empty and is a join of fields by single spaces (one field for an MX
    record in types.go). *)
Theorem ParseKnotRecord_returns_well_formed (line : string) (r : DNSRecord) :
  (types_go.ParseKnotRecord line = Ok r -> types_go_wellFormed r = true)
  /\ (part_001.ParseKnotRecord line = Ok r -> part_001_wellFormed r = true).
Proof.
  split.
  - intros H.
    destruct (types_go_parse_shape _ _ H)
      as (name & ttlStr & typ & d0 & rest & _ & HF & HN & HT & HL & HD).
    apply ParseUint_range in HL.
    inversion HF as [|? ? Tn HF1]; subst. inversion HF1 as [|? ? _ HF2]; subst.
    inversion HF2 as [|? ? Tt HF3]; subst. clear HF HF1 HF2.
    unfold types_go_wellFormed. rewrite Tn, Tt. apply N.ltb_lt in HL. rewrite HL.
    cbn [andb].
    destruct HD as [(EM & d1 & rest' & -> & ED & p & EP & EPr)|(NM & ED & EPr)].
    + rewrite EM, EPr, ED, String.eqb_refl.
      apply ParseUint_range, N.ltb_lt in EP. rewrite EP. cbn [andb].
      inversion HF3 as [|? ? _ HF4]; subst. now inversion HF4.
    + apply String.eqb_neq in NM. rewrite NM, EPr, ED. cbn [isNil andb].
      now apply joinedFields_Join.
  - unfold part_001.ParseKnotRecord. cbv zeta.
    pose proof (Fields_tokens (part_001.stripZone line)) as HF.
    generalize dependent (strings.Fields (part_001.stripZone line)). intros parts HF.
    destruct (Nat.ltb_spec (List.length parts) 4) as [L4|L4]; [discriminate|].
    assert (Tat : forall i, i < List.length parts -> isToken (nth i parts "") = true).
    { intros i Hi. rewrite Forall_forall in HF. apply HF. now apply nth_In. }
    assert (Jat : forall k, k < List.length parts ->
                  joinedFields (strings.Join (skipn k parts) " ") = true).
    { intros k Hk. destruct (skipn k parts) as [|d0 rest] eqn:ES.
      - apply (f_equal (@List.length _)) in ES. rewrite length_skipn in ES. cbn in ES. lia.
      - apply joinedFields_Join. rewrite <- ES. apply Forall_forall.
        intros x Hx. rewrite Forall_forall in HF. apply HF.
        rewrite <- (firstn_skipn k parts). apply in_or_app. now right. }
    destruct ((5 <=? List.length parts)%nat && part_001.isClass (nth 2 parts "")) eqn:EC;
      cbv beta iota.
    + assert (L5 : 5 <= List.length parts).
      { apply andb_true_iff in EC. destruct EC as [E _]. now apply Nat.leb_le in E. }
      destruct (strconv.ParseUint (nth 1 parts "") 32) as [ttl|] eqn:ET; [|discriminate].
      apply ParseUint_range, N.ltb_lt in ET.
      cbn [Type_ set_TTL].
      destruct (nth 3 parts "" =? RecordTypeMX) eqn:EM.
      * destruct (Nat.ltb_spec (List.length parts) (4 + 2)) as [L6|L6]; [discriminate|].
        destruct (strconv.ParseUint (nth 4 parts "") 16) as [p|] eqn:EP; [|discriminate].
        apply ParseUint_range, N.ltb_lt in EP.
        pose proof (Jat 5 ltac:(lia)) as J. change (4 + 1) with 5.
        generalize dependent (skipn 5 parts). intros tl J [= <-].
        unfold part_001_wellFormed.
        cbn [Name Type_ TTL Data Priority set_Data set_Priority set_TTL].
        rewrite !Tat, ET, EM, EP, J by lia. reflexivity.
      * destruct (Nat.ltb_spec 4 (List.length parts)) as [L|L]; [|lia].
        pose proof (Jat 4 ltac:(lia)) as J.
        generalize dependent (skipn 4 parts). intros tl J [= <-].
        unfold part_001_wellFormed.
        cbn [Name Type_ TTL Data Priority set_Data set_Priority set_TTL].
        rewrite !Tat, ET, EM, J by lia. reflexivity.
    + destruct (strconv.ParseUint (nth 1 parts "") 32) as [ttl|] eqn:ET; [|discriminate].
      apply ParseUint_range, N.ltb_lt in ET.
      cbn [Type_ set_TTL].
      destruct (nth 2 parts "" =? RecordTypeMX) eqn:EM.
      * destruct (Nat.ltb_spec (List.length parts) (3 + 2)) as [L6|L6]; [discriminate|].
        destruct (strconv.ParseUint (nth 3 parts "") 16) as [p|] eqn:EP; [|discriminate].
        apply ParseUint_range, N.ltb_lt in EP.
        pose proof (Jat 4 ltac:(lia)) as J. change (3 + 1) with 4.
        generalize dependent (skipn 4 parts). intros tl J [= <-].
        unfold part_001_wellFormed.
        cbn [Name Type_ TTL Data Priority set_Data set_Priority set_TTL].
        rewrite !Tat, ET, EM, EP, J by lia. reflexivity.
      * destruct (Nat.ltb_spec 3 (List.length parts)) as [L|L]; [|lia].
        pose proof (Jat 3 ltac:(lia)) as J.
        generalize dependent (skipn 3 parts). intros tl J [= <-].
        unfold part_001_wellFormed.
        cbn [Name Type_ TTL Data Priority set_Data set_Priority set_TTL].
        rewrite !Tat, ET, EM, J by lia. reflexivity.
Qed.

End CodecRecords.

(* ================================================================== *)
(** * Runs of a transaction *)
(* ================================================================== *)

Lemma setArgs_subcommand (z : string) (r : knot.DNSRecord) :
  nth 0 (client_go.setArgs z r) "" = "zone-set".
Proof.
  unfold client_go.setArgs. cbv zeta.
  now destruct ((knot.Type_ r =? knot.RecordTypeMX) && negb (knot.isNil (knot.Priority r))).
Qed.

(** A step that fails is followed by zone-abort and nothing else, and the
    error of the run is the step's, whatever zone-abort returned; the steps
    before it succeeded. *)
Lemma StepsRun_failed_step (z cm : string) (steps : list Step)
  (calls : list client_go.Call) (res : option error) :
  StepsRun z cm steps calls res ->
  forall pre call rest e,
    calls = (pre ++ call :: rest)%list ->
    client_go.call_result call = Err e ->
    subcommand call <> "zone-commit" -> subcommand call <> "zone-abort" ->
    exists st ar,
      In st steps /\ client_go.call_args call = step_args st
      /\ rest = [client_go.mkCall ["zone-abort"; z] ar]
      /\ res = Some (ErrorW (step_wrap st) e "").
Proof.
  induction 1 as [o|e0|st more e0 ar|st more o calls res HR IH];
    intros pre call rest e HC HE NC NA.
  - destruct pre as [|p pre]; cbn in HC.
    + injection HC as <- _. discriminate HE.
    + injection HC as _ HC. now destruct pre.
  - destruct pre as [|p pre]; cbn in HC.
    + injection HC as <- _. now contradiction NC.
    + injection HC as _ HC. now destruct pre.
  - destruct pre as [|p pre]; cbn in HC.
    + injection HC as <- <-. cbn in HE. injection HE as <-.
      exists st, ar. cbn. auto.
    + injection HC as _ HC. destruct pre as [|q pre]; cbn in HC.
      * injection HC as <- _. now contradiction NA.
      * injection HC as _ HC. now destruct pre.
  - destruct pre as [|p pre]; cbn in HC.
    + injection HC as <- _. discriminate HE.
    + injection HC as _ HC.
      destruct (IH _ _ _ _ HC HE NC NA) as (st' & ar & HI & HA & HR' & HS).
      exists st', ar. cbn. auto.
Qed.

Lemma TxRun_failed_step (z bm cm : string) (steps : list Step)
  (calls : list client_go.Call) (res : option error) :
  TxRun z bm cm steps calls res ->
  forall pre call rest e,
    calls = (pre ++ call :: rest)%list ->
    client_go.call_result call = Err e ->
    subcommand call <> "zone-begin" ->
    subcommand call <> "zone-commit" -> subcommand call <> "zone-abort" ->
    (exists o, In (client_go.mkCall ["zone-begin"; z] (Ok o)) pre)
    /\ exists st ar,
         In st steps /\ client_go.call_args call = step_args st
         /\ rest = [client_go.mkCall ["zone-abort"; z] ar]
         /\ res = Some (ErrorW (step_wrap st) e "").
Proof.
  intros [e0|o calls' res' HR] pre call rest e HC HE NB NC NA.
  - destruct pre as [|p pre]; cbn in HC.
    + injection HC as <- _. now contradiction NB.
    + injection HC as _ HC. now destruct pre.
  - destruct pre as [|p pre]; cbn in HC.
    + injection HC as <- _. discriminate HE.
    + injection HC as <- HC. split; [exists o; now left|].
      eapply StepsRun_failed_step; eauto.
Qed.

(** A zone-commit that fails is the last call of the run: no zone-abort
    follows it. *)
Lemma StepsRun_failed_commit (z cm : string) (steps : list Step)
  (calls : list client_go.Call) (res : option error) :
  StepsRun z cm steps calls res ->
  (forall st, In st steps -> nth 0 (step_args st) "" <> "zone-commit") ->
  forall pre call rest e,
    calls = (pre ++ call :: rest)%list ->
    subcommand call = "zone-commit" ->
    client_go.call_result call = Err e ->
    rest = [] /\ res = Some (ErrorW cm e "").
Proof.
  induction 1 as [o|e0|st more e0 ar|st more o calls res HR IH];
    intros HS pre call rest e HC HN HE.
  - destruct pre as [|p pre]; cbn in HC.
    + injection HC as <- _. discriminate HE.
    + injection HC as _ HC. now destruct pre.
  - destruct pre as [|p pre]; cbn in HC.
    + injection HC as <- <-. cbn in HE. injection HE as <-. auto.
    + injection HC as _ HC. now destruct pre.
  - destruct pre as [|p pre]; cbn in HC.
    + injection HC as <- _. cbn in HN. exfalso. eapply HS; [now left | exact HN].
    + injection HC as _ HC. destruct pre as [|q pre]; cbn in HC.
      * injection HC as <- _. discriminate HN.
      * injection HC as _ HC. now destruct pre.
  - destruct pre as [|p pre]; cbn in HC.
    + injection HC as <- _. discriminate HE.
    + injection HC as _ HC. eapply IH; eauto. intros st' Hst. apply HS. now right.
Qed.

(** Every call of a run is zone-begin, zone-commit, zone-abort or the call
    of a step. *)
Lemma StepsRun_calls (z cm : string) (steps : list Step)
  (calls : list client_go.Call) (res : option error) :
  StepsRun z cm steps calls res ->
  forall call, In call calls ->
    client_go.call_args call = ["zone-commit"; z]
    \/ client_go.call_args call = ["zone-abort"; z]
    \/ exists st, In st steps /\ client_go.call_args call = step_args st.
Proof.
  induction 1 as [o|e0|st more e0 ar|st more o calls res HR IH]; intros call HI.
  - destruct HI as [<-|[]]. auto.
  - destruct HI as [<-|[]]. auto.
  - destruct HI as [<-|[<-|[]]]; [|auto].
    right. right. exists st. split; [now left | reflexivity].
  - destruct HI as [<-|HI].
    + right. right. exists st. split; [now left | reflexivity].
    + destruct (IH _ HI) as [H|[H|(st' & H1 & H2)]]; auto.
      right. right. exists st'. split; [now right | exact H2].
Qed.

Lemma TxRun_calls (z bm cm : string) (steps : list Step)
  (calls : list client_go.Call) (res : option error) :
  TxRun z bm cm steps calls res ->
  forall call, In call calls ->
    client_go.call_args call = ["zone-begin"; z]
    \/ client_go.call_args call = ["zone-commit"; z]
    \/ client_go.call_args call = ["zone-abort"; z]
    \/ exists st, In st steps /\ client_go.call_args call = step_args st.
Proof.
  intros [e0|o calls' res' HR] call HI.
  - destruct HI as [<-|[]]. auto.
  - destruct HI as [<-|HI]; [auto|].
    right. eapply StepsRun_calls; eauto.
Qed.

Lemma TxRun_failed_commit (z bm cm : string) (steps : list Step)
  (calls : list client_go.Call) (res : option error) :
  TxRun z bm cm steps calls res ->
  (forall st, In st steps -> nth 0 (step_args st) "" <> "zone-commit") ->
  forall pre call rest e,
    calls = (pre ++ call :: rest)%list ->
    subcommand call = "zone-commit" ->
    client_go.call_result call = Err e ->
    rest = [] /\ res = Some (ErrorW cm e "").
Proof.
  intros [e0|o calls' res' HR] HS pre call rest e HC HN HE.
  - destruct pre as [|p pre]; cbn in HC.
    + injection HC as <- _. discriminate HN.
    + injection HC as _ HC. now destruct pre.
  - destruct pre as [|p pre]; cbn in HC.
    + injection HC as <- _. discriminate HN.
    + injection HC as _ HC. eapply StepsRun_failed_commit; eauto.
Qed.


(* ================================================================== *)
(** * The record store *)
(* ================================================================== *)

Section StoreFacts.
Import knot.
Context {parser : net.Parser} {codec : Codec}.
Variable Knotc : Type.
Variable run : Knotc -> string -> list string -> (string * option error) * Knotc.

#[local] Abbreviation World := (client_go.World Knotc).
#[local] Abbreviation trace := (client_go.trace Knotc).
#[local] Abbreviation executeKnotc := (client_go.executeKnotc Knotc run).
#[local] Abbreviation GetRecord := (client_go.GetRecord Knotc run).
#[local] Abbreviation CreateRecord := (client_go.CreateRecord Knotc run).
#[local] Abbreviation UpdateRecord := (client_go.UpdateRecord Knotc run).
#[local] Abbreviation DeleteRecord := (client_go.DeleteRecord Knotc run).
#[local] Abbreviation mkCall := client_go.mkCall.
#[local] Abbreviation normalizeZoneName := client_go.normalizeZoneName.

(** A call of [executeKnotc] adds itself and its result to the trace. *)
Lemma executeKnotc_spec (c : client_go.Client) (args : list string) (w : World) :
  exists res w',
    executeKnotc c args w = (res, w') /\ trace w' = (trace w ++ [mkCall args res])%list.
Proof.
  unfold client_go.executeKnotc.
  destruct (run _ _ _) as [[output err] plane']. eexists. eexists. split; reflexivity.
Qed.

(** [GetRecord] on an allowed zone makes one call, zone-read. *)
Lemma GetRecord_spec (c : client_go.Client) (zone name : string) (recordType : RecordType)
  (w : World) :
  client_go.IsZoneAllowed c zone = true ->
  exists g rd w1,
    GetRecord c zone name recordType w = (g, w1)
    /\ trace w1 = (trace w ++ [mkCall ["zone-read"; normalizeZoneName zone] rd])%list.
Proof.
  intros HA. unfold client_go.GetRecord, client_go.GetRecords.
  rewrite HA. cbn [negb]. unfold client_go.bind.
  destruct (executeKnotc_spec c ["zone-read"; normalizeZoneName zone] w)
    as (res & w1 & E & T).
  rewrite E. destruct res as [output|err]; unfold client_go.ret.
  - destruct (find _ _); eexists; eexists; eexists; split; try reflexivity; exact T.
  - eexists; eexists; eexists; split; try reflexivity; exact T.
Qed.

Ltac exec_step c args w res w' T :=
  let E := fresh "E" in
  destruct (executeKnotc_spec c args w) as (res & w' & E & T);
  rewrite E; clear E; cbv beta iota; destruct res.

Ltac tx_done :=
  eexists; eexists; eexists; split; [reflexivity|]; split;
  [repeat match goal with T : trace _ = _ |- _ => rewrite T; clear T end;
   rewrite <- ?app_assoc; reflexivity|].

(** [CreateRecord] after a probe that found no record of the same values:
    one run of the transaction with the zone-set step. *)
Lemma CreateRecord_mutates (c : client_go.Client) (zone : string) (record rec' : DNSRecord)
  (w w1 : World) (probe : result DNSRecord) :
  client_go.IsZoneAllowed c zone = true ->
  Validate record = (rec', None) ->
  GetRecord c zone (Name rec') (Type_ rec') w = (probe, w1) ->
  probeSame probe rec' = false ->
  exists res w' calls,
    CreateRecord c zone record w = ((rec', res), w')
    /\ trace w' = (trace w1 ++ calls)%list
    /\ TxRun (normalizeZoneName zone) (beginMsg zone) (commitMsg zone)
             (createSteps zone rec') calls res.
Proof.
  intros HA HV HG HP. unfold client_go.CreateRecord.
  rewrite HA, HV. cbn [negb]. unfold client_go.bind at 1. rewrite HG.
  change (match probe with
          | Ok existingRecord =>
              (TTL existingRecord =? TTL rec')%N
              && (Data existingRecord =? Data rec')
              && client_go.samePriority (Priority existingRecord) (Priority rec')
          | Err _ => false
          end) with (probeSame probe rec').
  rewrite HP. unfold client_go.bind, client_go.ret.
  exec_step c ["zone-begin"; normalizeZoneName zone] w1 b w2 T2.
  2:{ tx_done. constructor. }
  exec_step c (client_go.setArgs (normalizeZoneName zone) rec') w2 s w3 T3.
  2:{ exec_step c ["zone-abort"; normalizeZoneName zone] w3 ab w4 T4;
        tx_done; constructor; apply (RunStepErr _ _ (mkStep _ _)). }
  exec_step c ["zone-commit"; normalizeZoneName zone] w3 m w4 T4;
    tx_done; constructor; apply (RunStepOk _ _ (mkStep _ _)); constructor.
Qed.

(** [CreateRecord] after a probe that found a record of the same values:
    success, and no call after the probe. *)
Lemma CreateRecord_same (c : client_go.Client) (zone : string) (record rec' : DNSRecord)
  (w w1 : World) (probe : result DNSRecord) :
  client_go.IsZoneAllowed c zone = true ->
  Validate record = (rec', None) ->
  GetRecord c zone (Name rec') (Type_ rec') w = (probe, w1) ->
  probeSame probe rec' = true ->
  CreateRecord c zone record w = ((rec', None), w1).
Proof.
  intros HA HV HG HP. unfold client_go.CreateRecord.
  rewrite HA, HV. cbn [negb]. unfold client_go.bind at 1. rewrite HG.
  change (match probe with
          | Ok existingRecord =>
              (TTL existingRecord =? TTL rec')%N
              && (Data existingRecord =? Data rec')
              && client_go.samePriority (Priority existingRecord) (Priority rec')
          | Err _ => false
          end) with (probeSame probe rec').
  now rewrite HP.
Qed.

(** [UpdateRecord] after a fetch that found the record and a merge that
    validates: one run of the transaction with the zone-unset step, whose
    match is the formatted line of the fetched record, and the zone-set
    step of the validated merge. *)
Lemma UpdateRecord_mutates (c : client_go.Client) (zone name : string)
  (recordType : RecordType) (updates : UpdateRecordRequest)
  (w w1 : World) (existing rec' : DNSRecord) :
  client_go.IsZoneAllowed c zone = true ->
  GetRecord c zone name recordType w = (Ok existing, w1) ->
  Validate (client_go.applyUpdates existing updates) = (rec', None) ->
  exists res w' calls,
    UpdateRecord c zone name recordType updates w = (res, w')
    /\ trace w' = (trace w1 ++ calls)%list
    /\ TxRun (normalizeZoneName zone) (beginMsg zone) (commitMsg zone)
             (updateSteps zone (ToKnotFormat existing) rec') calls res.
Proof.
  intros HA HG HV. unfold client_go.UpdateRecord.
  rewrite HA. cbn [negb]. unfold client_go.bind at 1. rewrite HG. cbv zeta.
  rewrite HV. unfold client_go.bind, client_go.ret.
  exec_step c ["zone-begin"; normalizeZoneName zone] w1 b w2 T2.
  2:{ tx_done. constructor. }
  exec_step c ["zone-unset"; normalizeZoneName zone; ToKnotFormat existing] w2 u w3 T3.
  2:{ exec_step c ["zone-abort"; normalizeZoneName zone] w3 ab w4 T4;
        tx_done; constructor; apply (RunStepErr _ _ (mkStep _ _)). }
  exec_step c (client_go.setArgs (normalizeZoneName zone) rec') w3 st w4 T4.
  2:{ exec_step c ["zone-abort"; normalizeZoneName zone] w4 ab w5 T5;
        tx_done; constructor; apply (RunStepOk _ _ (mkStep _ _));
        apply (RunStepErr _ _ (mkStep _ _)). }
  exec_step c ["zone-commit"; normalizeZoneName zone] w4 m w5 T5;
    tx_done; constructor; apply (RunStepOk _ _ (mkStep _ _));
    apply (RunStepOk _ _ (mkStep _ _)); constructor.
Qed.

(** [DeleteRecord] after a check that found the record: one run of the
    transaction with the zone-unset step by name and type, on the zone as
    it was given. *)
Lemma DeleteRecord_mutates (c : client_go.Client) (zone name : string)
  (recordType : RecordType) (w w1 : World) (existing : DNSRecord) :
  client_go.IsZoneAllowed c zone = true ->
  GetRecord c zone name recordType w = (Ok existing, w1) ->
  exists res w' calls,
    DeleteRecord c zone name recordType w = (res, w')
    /\ trace w' = (trace w1 ++ calls)%list
    /\ TxRun zone (beginMsg zone) (commitMsg zone)
             (deleteSteps zone name recordType) calls res.
Proof.
  intros HA HG. unfold client_go.DeleteRecord.
  rewrite HA. cbn [negb]. unfold client_go.bind at 1. rewrite HG.
  unfold client_go.bind, client_go.ret. cbv zeta.
  exec_step c ["zone-begin"; zone] w1 b w2 T2.
  2:{ tx_done. constructor. }
  exec_step c ["zone-unset"; zone; name ++ " " ++ recordType] w2 u w3 T3.
  2:{ exec_step c ["zone-abort"; zone] w3 ab w4 T4;
        tx_done; constructor; apply (RunStepErr _ _ (mkStep _ _)). }
  exec_step c ["zone-commit"; zone] w3 m w4 T4;
    tx_done; constructor; apply (RunStepOk _ _ (mkStep _ _)); constructor.
Qed.

(** All the calls of [CreateRecord]: none, or the probe alone, or the probe
    and one run of the transaction. *)
Lemma CreateRecord_calls (c : client_go.Client) (zone : string) (record : DNSRecord)
  (w : World) :
  exists calls,
    trace (snd (CreateRecord c zone record w)) = (trace w ++ calls)%list
    /\ (calls = []
        \/ exists rd tx,
             calls = mkCall ["zone-read"; normalizeZoneName zone] rd :: tx
             /\ (tx = []
                 \/ TxRun (normalizeZoneName zone) (beginMsg zone) (commitMsg zone)
                          (createSteps zone (fst (Validate record))) tx
                          (snd (fst (CreateRecord c zone record w))))).
Proof.
  destruct (client_go.IsZoneAllowed c zone) eqn:HA.
  2:{ exists []. unfold client_go.CreateRecord. rewrite HA. cbn.
      rewrite app_nil_r. auto. }
  destruct (Validate record) as [rec' [e|]] eqn:HV.
  { exists []. unfold client_go.CreateRecord. rewrite HA, HV. cbn.
    rewrite app_nil_r. auto. }
  destruct (GetRecord_spec c zone (Name rec') (Type_ rec') w HA) as (g & rd & w1 & HG & T1).
  destruct (probeSame g rec') eqn:HP.
  - rewrite (CreateRecord_same _ _ _ _ _ _ _ HA HV HG HP). cbn [snd fst].
    exists [mkCall ["zone-read"; normalizeZoneName zone] rd]. split; [exact T1|].
    right. exists rd, []. auto.
  - destruct (CreateRecord_mutates _ _ _ _ _ _ _ HA HV HG HP) as (res & w' & calls & E & T & R).
    rewrite E. cbn [snd fst].
    exists (mkCall ["zone-read"; normalizeZoneName zone] rd :: calls). split.
    + rewrite T, T1, <- app_assoc. reflexivity.
    + right. exists rd, calls. auto.
Qed.

(** All the calls of [UpdateRecord]. *)
Lemma UpdateRecord_calls (c : client_go.Client) (zone name : string)
  (recordType : RecordType) (updates : UpdateRecordRequest) (w : World) :
  exists calls,
    trace (snd (UpdateRecord c zone name recordType updates w)) = (trace w ++ calls)%list
    /\ (calls = []
        \/ exists rd tx,
             calls = mkCall ["zone-read"; normalizeZoneName zone] rd :: tx
             /\ (tx = []
                 \/ exists existing rec',
                      fst (GetRecord c zone name recordType w) = Ok existing
                      /\ Validate (client_go.applyUpdates existing updates) = (rec', None)
                      /\ TxRun (normalizeZoneName zone) (beginMsg zone) (commitMsg zone)
                               (updateSteps zone (ToKnotFormat existing) rec') tx
                               (fst (UpdateRecord c zone name recordType updates w)))).
Proof.
  destruct (client_go.IsZoneAllowed c zone) eqn:HA.
  2:{ exists []. unfold client_go.UpdateRecord. rewrite HA. cbn.
      rewrite app_nil_r. auto. }
  destruct (GetRecord_spec c zone name recordType w HA) as (g & rd & w1 & HG & T1).
  destruct g as [existing|err].
  2:{ exists [mkCall ["zone-read"; normalizeZoneName zone] rd].
      unfold client_go.UpdateRecord. rewrite HA. cbn [negb].
      unfold client_go.bind at 1. rewrite HG. cbn. split; [exact T1|].
      right. exists rd, []. auto. }
  destruct (Validate (client_go.applyUpdates existing updates)) as [rec' [e|]] eqn:HV.
  { exists [mkCall ["zone-read"; normalizeZoneName zone] rd].
    unfold client_go.UpdateRecord. rewrite HA. cbn [negb].
    unfold client_go.bind at 1. rewrite HG. cbv zeta. rewrite HV. cbn.
    split; [exact T1|]. right. exists rd, []. auto. }
  destruct (UpdateRecord_mutates _ _ _ _ updates _ _ _ _ HA HG HV)
    as (res & w' & calls & E & T & R).
  rewrite E. cbn [snd fst].
  exists (mkCall ["zone-read"; normalizeZoneName zone] rd :: calls). split.
  - rewrite T, T1, <- app_assoc. reflexivity.
  - right. exists rd, calls. split; [reflexivity|]. right.
    exists existing, rec'. rewrite HG. auto.
Qed.



Lemma CreateRecord_ok_inv (c : client_go.Client) (zone : string) (record rec' : DNSRecord)
  (w w1 : World) (res : option error) :
  CreateRecord c zone record w = ((rec', res), w1) ->
  res = None ->
  client_go.IsZoneAllowed c zone = true /\ Validate record = (rec', None).
Proof.
  intros H ->.
  destruct (client_go.IsZoneAllowed c zone) eqn:HA.
  2:{ unfold client_go.CreateRecord in H. rewrite HA in H. discriminate H. }
  split; [reflexivity|].
  destruct (Validate record) as [recV [e|]] eqn:HV.
  { unfold client_go.CreateRecord in H. rewrite HA, HV in H. discriminate H. }
  destruct (GetRecord_spec c zone (Name recV) (Type_ recV) w HA) as (g & rd & w0 & HG & _).
  destruct (probeSame g recV) eqn:HP.
  - rewrite (CreateRecord_same _ _ _ _ _ _ _ HA HV HG HP) in H. congruence.
  - destruct (CreateRecord_mutates _ _ _ _ _ _ _ HA HV HG HP) as (res & w' & calls & E & _).
    rewrite E in H. congruence.
Qed.





(** ** The operations outside their transaction *)

#[local] Abbreviation GetRecords := (client_go.GetRecords Knotc run).
#[local] Abbreviation GetZones := (client_go.GetZones Knotc run).
#[local] Abbreviation ReloadZone := (client_go.ReloadZone Knotc run).

(** X9.  Every zone-scoped operation asks the guard first: on a zone that
    is not allowed it returns the error "zone not allowed: <zone>" and
    makes no call of the control plane. *)
Theorem denied_zone_makes_no_call (c : client_go.Client) (zone : string) (w : World) :
  client_go.IsZoneAllowed c zone = false ->
  let denied := ErrorS ("zone not allowed: " ++ zone) in
  GetRecords c zone w = (Err denied, w)
  /\ (forall name recordType, GetRecord c zone name recordType w = (Err denied, w))
  /\ (forall record, CreateRecord c zone record w = ((record, Some denied), w))
  /\ (forall name recordType updates,
        UpdateRecord c zone name recordType updates w = (Some denied, w))
  /\ (forall name recordType, DeleteRecord c zone name recordType w = (Some denied, w))
  /\ ReloadZone c zone w = (Some denied, w).
Proof.
  intros HA. cbv zeta.
  unfold client_go.GetRecords, client_go.GetRecord, client_go.CreateRecord,
    client_go.UpdateRecord, client_go.DeleteRecord, client_go.ReloadZone.
  rewrite HA. cbn [negb]. unfold client_go.ret. repeat split.
Qed.

(** The records of [parseLines] are the parses of the lines that are
    neither blank nor comments. *)
Lemma parseLines_In (lines : list string) (r : DNSRecord) :
  In r (client_go.parseLines lines)
  <-> exists text,
        In text lines /\ strings.TrimSpace text <> ""
        /\ strings.HasPrefix (strings.TrimSpace text) ";" = false
        /\ ParseKnotRecord (strings.TrimSpace text) = Ok r.
Proof.
  induction lines as [|text rest IH]; cbn [client_go.parseLines].
  - split; [intros [] | intros (t & [] & _)].
  - cbv zeta. destruct (strings.TrimSpace text =? "") eqn:EB; cbn [orb].
    { rewrite IH. apply String.eqb_eq in EB. split.
      - intros (t & HI & H). exists t. split; [now right | exact H].
      - intros (t & [<-|HI] & HN & H); [contradiction | now exists t]. }
    apply String.eqb_neq in EB.
    destruct (strings.HasPrefix (strings.TrimSpace text) ";") eqn:EC.
    { rewrite IH. split.
      - intros (t & HI & H). exists t. split; [now right | exact H].
      - intros (t & [<-|HI] & HN & HC & H); [congruence | now exists t]. }
    destruct (ParseKnotRecord (strings.TrimSpace text)) as [rec|e] eqn:EP.
    + cbn [In]. rewrite IH. split.
      * intros [<-|(t & HI & H)]; [now exists text; auto | ].
        exists t. split; [now right | exact H].
      * intros (t & [<-|HI] & HN & HC & H); [left; congruence | right; now exists t].
    + rewrite IH. split.
      * intros (t & HI & H). exists t. split; [now right | exact H].
      * intros (t & [<-|HI] & HN & HC & H); [congruence | now exists t].
Qed.

(** X10.  [GetRecords] on an allowed zone makes one call, zone-read on the
    trailing-dot form of the zone, and fails only when that call fails: a
    line that does not parse is left out and never fails the listing.  The
    records returned are exactly the parses of the lines of the output
    that, trimmed, are neither empty nor comments and that parse. *)
Theorem GetRecords_fails_only_with_the_read (c : client_go.Client) (zone : string)
  (w : World) :
  client_go.IsZoneAllowed c zone = true ->
  exists rd w',
    executeKnotc c ["zone-read"; normalizeZoneName zone] w = (rd, w')
    /\ snd (GetRecords c zone w) = w'
    /\ trace w' = (trace w ++ [mkCall ["zone-read"; normalizeZoneName zone] rd])%list
    /\ match rd with
       | Err e =>
           fst (GetRecords c zone w)
           = Err (ErrorW ("failed to read zone " ++ zone ++ ": ") e "")
       | Ok output =>
           exists records,
             fst (GetRecords c zone w) = Ok records
             /\ forall r,
                  In r records
                  <-> exists text,
                        In text (client_go.scanLines "" output)
                        /\ strings.TrimSpace text <> ""
                        /\ strings.HasPrefix (strings.TrimSpace text) ";" = false
                        /\ ParseKnotRecord (strings.TrimSpace text) = Ok r
       end.
Proof.
  intros HA. unfold client_go.GetRecords. rewrite HA. cbn [negb].
  unfold client_go.bind, client_go.ret.
  destruct (executeKnotc_spec c ["zone-read"; normalizeZoneName zone] w)
    as (rd & w' & E & T).
  exists rd, w'. rewrite E. split; [reflexivity|].
  destruct rd as [output|e]; cbn [fst snd]; split; try reflexivity; split; try exact T.
  - eexists. split; [reflexivity|]. intros r. apply parseLines_In.
  - reflexivity.
Qed.

Lemma find_first {A : Type} (f : A -> bool) (l : list A) (x : A) :
  find f l = Some x ->
  exists pre post, l = (pre ++ x :: post)%list /\ f x = true
                   /\ forall y, In y pre -> f y = false.
Proof.
  induction l as [|a l IH]; [discriminate|]. cbn [find].
  destruct (f a) eqn:E.
  - intros [= <-]. exists [], l. repeat split; auto. intros y [].
  - intros H. destruct (IH H) as (pre & post & -> & Hx & Hp).
    exists (a :: pre), post. repeat split; auto.
    intros y [<-|Hy]; auto.
Qed.

(** X11.  [GetRecord] makes the call of [GetRecords] and no other.  The
    record it returns is the first of the listing whose name and type are
    the ones asked for, compared as they are written; when the listing
    holds none it returns "record not found"; an error of the listing is
    returned as it is. *)
Theorem GetRecord_returns_first_match (c : client_go.Client) (zone name : string)
  (recordType : RecordType) (w : World) :
  snd (GetRecord c zone name recordType w) = snd (GetRecords c zone w)
  /\ (forall r,
        fst (GetRecord c zone name recordType w) = Ok r ->
        Name r = name /\ Type_ r = recordType
        /\ exists pre post,
             fst (GetRecords c zone w) = Ok (pre ++ r :: post)%list
             /\ forall x, In x pre -> ~ (Name x = name /\ Type_ x = recordType))
  /\ (forall records,
        fst (GetRecords c zone w) = Ok records ->
        (forall x, In x records -> ~ (Name x = name /\ Type_ x = recordType)) ->
        fst (GetRecord c zone name recordType w)
        = Err (ErrorS ("record not found: " ++ name ++ " " ++ recordType
                       ++ " in zone " ++ zone)))
  /\ (forall e,
        fst (GetRecords c zone w) = Err e ->
        fst (GetRecord c zone name recordType w) = Err e).
Proof.
  assert (M : forall x : DNSRecord,
             (Name x =? name) && (Type_ x =? recordType) = true
             <-> Name x = name /\ Type_ x = recordType).
  { intros x. now rewrite andb_true_iff, !String.eqb_eq. }
  unfold client_go.GetRecord.
  destruct (client_go.IsZoneAllowed c zone) eqn:HA; cbn [negb].
  2:{ unfold client_go.GetRecords. rewrite HA. cbn.
      repeat split; try discriminate. intros e [= <-]. reflexivity. }
  unfold client_go.bind.
  destruct (GetRecords c zone w) as [[records|e] w1] eqn:EG; cbn [fst snd].
  - destruct (find _ records) as [rec|] eqn:EF; unfold client_go.ret; cbn [fst snd].
    + split; [reflexivity|]. split; [|split; [|discriminate]].
      * intros r [= <-]. destruct (find_first _ _ _ EF) as (pre & post & -> & Hx & Hp).
        apply M in Hx. destruct Hx as [HN HT]. split; [exact HN|]. split; [exact HT|].
        exists pre, post. split; [reflexivity|].
        intros x Hx HX. apply M in HX. rewrite (Hp _ Hx) in HX. discriminate HX.
      * intros records' [= <-] HNone. exfalso.
        destruct (find_some _ _ EF) as [HI HM]. apply M in HM. exact (HNone _ HI HM).
    + split; [reflexivity|]. split; [discriminate|]. split; [reflexivity | discriminate].
  - unfold client_go.ret. cbn [fst snd].
    split; [reflexivity|]. split; [discriminate|]. split; [discriminate|].
    intros e' [= <-]. reflexivity.
Qed.

(** X12.  A record that does not validate never reaches the control plane:
    [CreateRecord] then makes no call at all, and [UpdateRecord], whose
    merged record does not validate, has made its zone-read only.  Both
    return the validation error, wrapped. *)
Theorem invalid_record_opens_no_transaction (c : client_go.Client) (zone : string) :
  client_go.IsZoneAllowed c zone = true ->
  (forall record r' e (w : World),
      Validate record = (r', Some e) ->
      CreateRecord c zone record w = ((r', Some (ErrorW "invalid record: " e "")), w))
  /\ (forall name recordType updates existing r' e (w w1 : World),
        GetRecord c zone name recordType w = (Ok existing, w1) ->
        Validate (client_go.applyUpdates existing updates) = (r', Some e) ->
        UpdateRecord c zone name recordType updates w
        = (Some (ErrorW "invalid updated record: " e ""), w1)).
Proof.
  intros HA. split.
  - intros record r' e w HV. unfold client_go.CreateRecord.
    rewrite HA, HV. reflexivity.
  - intros name recordType updates existing r' e w w1 HG HV.
    unfold client_go.UpdateRecord. rewrite HA. cbn [negb].
    unfold client_go.bind at 1. rewrite HG. cbv zeta. rewrite HV. reflexivity.
Qed.

(** X13.  When the fetch of [UpdateRecord] or of [DeleteRecord] returns an
    error, the operation stops there, with the zone-read as its only call,
    and returns that error behind the text "record not found: ".  The
    fetch fails when the record is missing and also when the zone-read
    itself fails: a failure of the control plane during the fetch is
    reported under "record not found" too. *)
Theorem failed_fetch_opens_no_transaction (c : client_go.Client) (zone name : string)
  (recordType : RecordType) (w w1 : World) (e : error) :
  client_go.IsZoneAllowed c zone = true ->
  GetRecord c zone name recordType w = (Err e, w1) ->
  (forall updates,
      UpdateRecord c zone name recordType updates w
      = (Some (ErrorW "record not found: " e ""), w1))
  /\ DeleteRecord c zone name recordType w = (Some (ErrorW "record not found: " e ""), w1)
  /\ (forall cause w',
        executeKnotc c ["zone-read"; normalizeZoneName zone] w = (Err cause, w') ->
        e = ErrorW ("failed to read zone " ++ zone ++ ": ") cause "" /\ w1 = w').
Proof.
  intros HA HG. split; [|split].
  - intros updates. unfold client_go.UpdateRecord. rewrite HA. cbn [negb].
    unfold client_go.bind at 1. rewrite HG. reflexivity.
  - unfold client_go.DeleteRecord. rewrite HA. cbn [negb].
    unfold client_go.bind at 1. rewrite HG. reflexivity.
  - intros cause w' HE. unfold client_go.GetRecord, client_go.GetRecords in HG.
    rewrite HA in HG. cbn [negb] in HG. unfold client_go.bind in HG.
    rewrite HE in HG. unfold client_go.ret in HG. injection HG as <- <-. auto.
Qed.

(** ** The transactions, step by step *)

(** All the calls of [DeleteRecord]. *)
Lemma DeleteRecord_calls (c : client_go.Client) (zone name : string)
  (recordType : RecordType) (w : World) :
  exists calls,
    trace (snd (DeleteRecord c zone name recordType w)) = (trace w ++ calls)%list
    /\ (calls = []
        \/ exists rd tx,
             calls = mkCall ["zone-read"; normalizeZoneName zone] rd :: tx
             /\ (tx = []
                 \/ TxRun zone (beginMsg zone) (commitMsg zone)
                          (deleteSteps zone name recordType) tx
                          (fst (DeleteRecord c zone name recordType w)))).
Proof.
  destruct (client_go.IsZoneAllowed c zone) eqn:HA.
  2:{ exists []. unfold client_go.DeleteRecord. rewrite HA. cbn.
      rewrite app_nil_r. auto. }
  destruct (GetRecord_spec c zone name recordType w HA) as (g & rd & w1 & HG & T1).
  destruct g as [existing|err].
  2:{ exists [mkCall ["zone-read"; normalizeZoneName zone] rd].
      unfold client_go.DeleteRecord. rewrite HA. cbn [negb].
      unfold client_go.bind at 1. rewrite HG. cbn. split; [exact T1|].
      right. exists rd, []. auto. }
  destruct (DeleteRecord_mutates _ _ _ _ _ _ _ HA HG) as (res & w' & calls & E & T & R).
  rewrite E. cbn [snd fst].
  exists (mkCall ["zone-read"; normalizeZoneName zone] rd :: calls). split.
  - rewrite T, T1, <- app_assoc. reflexivity.
  - right. exists rd, calls. auto.
Qed.

(** In a run of the discipline, a failing zone-begin is the only call. *)
Lemma TxRun_failed_begin (z bm cm : string) (steps : list Step)
  (calls : list client_go.Call) (res : option error) :
  TxRun z bm cm steps calls res ->
  (forall st, In st steps -> nth 0 (step_args st) "" <> "zone-begin") ->
  forall pre call rest e,
    calls = (pre ++ call :: rest)%list ->
    subcommand call = "zone-begin" ->
    client_go.call_result call = Err e ->
    pre = [] /\ rest = [] /\ res = Some (ErrorW bm e "").
Proof.
  intros H HS pre call rest e HC HB HE.
  inversion H as [e0|o calls1 res1 H1]; subst.
  - destruct pre as [|p pre]; cbn in H0.
    + injection H0 as <- <-. cbn in HE. injection HE as <-. auto.
    + injection H0 as _ H0. now destruct pre.
  - destruct pre as [|p pre]; cbn in H0.
    + injection H0 as <- _. discriminate HE.
    + injection H0 as _ H0. exfalso.
      assert (HI : In call calls1) by (rewrite H0; apply in_or_app; right; now left).
      destruct (StepsRun_calls _ _ _ _ _ H1 _ HI) as [HA|[HA|(st & HIn & HA)]];
        unfold subcommand in HB; rewrite HA in HB; try discriminate HB.
      exact (HS _ HIn HB).
Qed.

Lemma createSteps_subcommands (zone : string) (record : DNSRecord) :
  forall st, In st (createSteps zone record) ->
    nth 0 (step_args st) "" <> "zone-begin" /\ nth 0 (step_args st) "" <> "zone-commit".
Proof.
  intros st [<-|[]]. cbn [step_args]. rewrite setArgs_subcommand. split; discriminate.
Qed.

Lemma updateSteps_subcommands (zone original : string) (record : DNSRecord) :
  forall st, In st (updateSteps zone original record) ->
    nth 0 (step_args st) "" <> "zone-begin" /\ nth 0 (step_args st) "" <> "zone-commit".
Proof.
  intros st [<-|[<-|[]]]; cbn [step_args]; rewrite ?setArgs_subcommand; split; discriminate.
Qed.

Lemma deleteSteps_subcommands (zone name : string) (recordType : RecordType) :
  forall st, In st (deleteSteps zone name recordType) ->
    nth 0 (step_args st) "" <> "zone-begin" /\ nth 0 (step_args st) "" <> "zone-commit".
Proof. intros st [<-|[]]. cbn. split; discriminate. Qed.

(** X14.  In [UpdateRecord] and in [DeleteRecord], whenever the zone-unset
    call fails, zone-begin had succeeded before it, the one call that
    follows is zone-abort, whose result is dropped, and the operation
    returns the error of the zone-unset call in the wrapping of that step:
    [UpdateRecord] issues no zone-set after it, and neither issues a
    zone-commit. *)
Theorem unset_failure_aborts_and_surfaces :
  (forall c zone name recordType updates (w : World) pre call rest e,
      trace (snd (UpdateRecord c zone name recordType updates w))
      = (trace w ++ pre ++ call :: rest)%list ->
      subcommand call = "zone-unset" ->
      client_go.call_result call = Err e ->
      (exists o, In (mkCall ["zone-begin"; normalizeZoneName zone] (Ok o)) pre)
      /\ (exists ar, rest = [mkCall ["zone-abort"; normalizeZoneName zone] ar])
      /\ fst (UpdateRecord c zone name recordType updates w)
         = Some (ErrorW ("failed to remove old record from zone " ++ zone ++ ": ") e ""))
  /\ (forall c zone name recordType (w : World) pre call rest e,
         trace (snd (DeleteRecord c zone name recordType w))
         = (trace w ++ pre ++ call :: rest)%list ->
         subcommand call = "zone-unset" ->
         client_go.call_result call = Err e ->
         (exists o, In (mkCall ["zone-begin"; zone] (Ok o)) pre)
         /\ (exists ar, rest = [mkCall ["zone-abort"; zone] ar])
         /\ fst (DeleteRecord c zone name recordType w)
            = Some (ErrorW ("failed to remove record from zone " ++ zone ++ ": ") e "")).
Proof.
  split.
  - intros c zone name recordType updates w pre call rest e HT HS HE.
    destruct (UpdateRecord_calls c zone name recordType updates w) as (calls & T & HC).
    rewrite T in HT. apply app_inv_head in HT. subst calls.
    destruct HC as [HC|(rd & tx & HC & HX)]; [now destruct pre|].
    destruct pre as [|p pre]; cbn in HC.
    { injection HC as -> _. discriminate HS. }
    injection HC as -> HC. destruct HX as [->|(existing & rec' & _ & _ & HX)];
      [now destruct pre|].
    destruct (TxRun_failed_step _ _ _ _ _ _ HX _ _ _ _ (eq_sym HC) HE)
      as ((o & HO) & st & ar & HI & HA & HR & HRes);
      try (rewrite HS; discriminate).
    split; [exists o; now right|]. split; [now exists ar|].
    destruct HI as [<-|[<-|[]]]; [exact HRes|].
    unfold subcommand in HS. rewrite HA in HS. cbn [step_args] in HS.
    rewrite setArgs_subcommand in HS. discriminate HS.
  - intros c zone name recordType w pre call rest e HT HS HE.
    destruct (DeleteRecord_calls c zone name recordType w) as (calls & T & HC).
    rewrite T in HT. apply app_inv_head in HT. subst calls.
    destruct HC as [HC|(rd & tx & HC & HX)]; [now destruct pre|].
    destruct pre as [|p pre]; cbn in HC.
    { injection HC as -> _. discriminate HS. }
    injection HC as -> HC. destruct HX as [->|HX]; [now destruct pre|].
    destruct (TxRun_failed_step _ _ _ _ _ _ HX _ _ _ _ (eq_sym HC) HE)
      as ((o & HO) & st & ar & HI & HA & HR & HRes);
      try (rewrite HS; discriminate).
    split; [exists o; now right|]. split; [now exists ar|].
    destruct HI as [<-|[]]. exact HRes.
Qed.

(** What a failed zone-begin or zone-commit means in a run that follows one
    zone-read. *)
Lemma read_then_tx_ends (z bm cm : string) (steps : list Step)
  (rd : result string) (zr : string) (tx : list client_go.Call) (res : option error) :
  tx = [] \/ TxRun z bm cm steps tx res ->
  (forall st, In st steps ->
     nth 0 (step_args st) "" <> "zone-begin" /\ nth 0 (step_args st) "" <> "zone-commit") ->
  forall pre call rest e,
    mkCall ["zone-read"; zr] rd :: tx = (pre ++ call :: rest)%list ->
    client_go.call_result call = Err e ->
    (subcommand call = "zone-begin" -> rest = [] /\ res = Some (ErrorW bm e ""))
    /\ (subcommand call = "zone-commit" -> rest = [] /\ res = Some (ErrorW cm e "")).
Proof.
  intros HX HS pre call rest e HC HE.
  destruct pre as [|p pre]; cbn in HC.
  { injection HC as <- _. split; discriminate. }
  injection HC as _ HC. destruct HX as [->|HX]; [now destruct pre|].
  split; intros HB.
  - destruct (TxRun_failed_begin _ _ _ _ _ _ HX (fun st H => proj1 (HS st H))
                _ _ _ _ HC HB HE) as (_ & HR & HRes). auto.
  - exact (TxRun_failed_commit _ _ _ _ _ _ HX (fun st H => proj2 (HS st H))
             _ _ _ _ HC HB HE).
Qed.

(** X15.  In the three mutating operations, and on every control plane, a
    zone-begin or a zone-commit that fails is the last call of the
    operation: nothing is issued after it, no zone-abort either, and the
    operation returns the error of that call behind "failed to begin
    transaction for zone <zone>: " or "failed to commit transaction for
    zone <zone>: ". *)
Theorem begin_or_commit_failure_is_last_call :
  (forall c zone record (w : World) pre call rest e,
      trace (snd (CreateRecord c zone record w)) = (trace w ++ pre ++ call :: rest)%list ->
      client_go.call_result call = Err e ->
      (subcommand call = "zone-begin" ->
       rest = [] /\ snd (fst (CreateRecord c zone record w))
                    = Some (ErrorW (beginMsg zone) e ""))
      /\ (subcommand call = "zone-commit" ->
          rest = [] /\ snd (fst (CreateRecord c zone record w))
                       = Some (ErrorW (commitMsg zone) e "")))
  /\ (forall c zone name recordType updates (w : World) pre call rest e,
         trace (snd (UpdateRecord c zone name recordType updates w))
         = (trace w ++ pre ++ call :: rest)%list ->
         client_go.call_result call = Err e ->
         (subcommand call = "zone-begin" ->
          rest = [] /\ fst (UpdateRecord c zone name recordType updates w)
                       = Some (ErrorW (beginMsg zone) e ""))
         /\ (subcommand call = "zone-commit" ->
             rest = [] /\ fst (UpdateRecord c zone name recordType updates w)
                          = Some (ErrorW (commitMsg zone) e "")))
  /\ (forall c zone name recordType (w : World) pre call rest e,
         trace (snd (DeleteRecord c zone name recordType w))
         = (trace w ++ pre ++ call :: rest)%list ->
         client_go.call_result call = Err e ->
         (subcommand call = "zone-begin" ->
          rest = [] /\ fst (DeleteRecord c zone name recordType w)
                       = Some (ErrorW (beginMsg zone) e ""))
         /\ (subcommand call = "zone-commit" ->
             rest = [] /\ fst (DeleteRecord c zone name recordType w)
                          = Some (ErrorW (commitMsg zone) e ""))).
Proof.
  split; [|split].
  - intros c zone record w pre call rest e HT HE.
    destruct (CreateRecord_calls c zone record w) as (calls & T & HC).
    rewrite T in HT. apply app_inv_head in HT. subst calls.
    destruct HC as [HC|(rd & tx & HC & HX)]; [now destruct pre|].
    exact (read_then_tx_ends _ _ _ _ _ _ _ _ HX (createSteps_subcommands _ _)
             _ _ _ _ (eq_sym HC) HE).
  - intros c zone name recordType updates w pre call rest e HT HE.
    destruct (UpdateRecord_calls c zone name recordType updates w) as (calls & T & HC).
    rewrite T in HT. apply app_inv_head in HT. subst calls.
    destruct HC as [HC|(rd & tx & HC & HX)]; [now destruct pre|].
    destruct HX as [HX|(existing & rec' & _ & _ & HX)].
    + exact (read_then_tx_ends "" (beginMsg zone) (commitMsg zone) [] _ _ _ _
               (or_introl HX) (fun st H => match H with end)
               _ _ _ _ (eq_sym HC) HE).
    + exact (read_then_tx_ends _ _ _ _ _ _ _ _ (or_intror HX) (updateSteps_subcommands _ _ _)
               _ _ _ _ (eq_sym HC) HE).
  - intros c zone name recordType w pre call rest e HT HE.
    destruct (DeleteRecord_calls c zone name recordType w) as (calls & T & HC).
    rewrite T in HT. apply app_inv_head in HT. subst calls.
    destruct HC as [HC|(rd & tx & HC & HX)]; [now destruct pre|].
    exact (read_then_tx_ends _ _ _ _ _ _ _ _ HX (deleteSteps_subcommands _ _ _)
             _ _ _ _ (eq_sym HC) HE).
Qed.

(** A fetch that found a record made a zone-read that succeeded. *)
Lemma GetRecord_found_read (c : client_go.Client) (zone name : string)
  (recordType : RecordType) (w w1 : World) (existing : DNSRecord) :
  GetRecord c zone name recordType w = (Ok existing, w1) ->
  exists out,
    trace w1 = (trace w ++ [mkCall ["zone-read"; normalizeZoneName zone] (Ok out)])%list.
Proof.
  unfold client_go.GetRecord, client_go.GetRecords.
  destruct (client_go.IsZoneAllowed c zone); cbn [negb]; [|discriminate].
  unfold client_go.bind, client_go.ret.
  destruct (executeKnotc_spec c ["zone-read"; normalizeZoneName zone] w)
    as (rd & w' & E & T).
  rewrite E. destruct rd as [out|err]; [|discriminate].
  destruct (find _ _); [|discriminate]. intros [= _ <-]. now exists out.
Qed.

Lemma create_tx_ok_calls (zone : string) (record : DNSRecord) (calls : list client_go.Call) :
  TxRun (normalizeZoneName zone) (beginMsg zone) (commitMsg zone)
        (createSteps zone record) calls None ->
  exists o1 o2 o3,
    calls = [mkCall ["zone-begin"; normalizeZoneName zone] (Ok o1);
             mkCall (client_go.setArgs (normalizeZoneName zone) record) (Ok o2);
             mkCall ["zone-commit"; normalizeZoneName zone] (Ok o3)].
Proof.
  intros H. inversion H as [|o1 calls1 res1 H1]; subst.
  inversion H1 as [| | |st more o2 calls2 res2 H2]; subst.
  inversion H2 as [o3| | |]; subst. now exists o1, o2, o3.
Qed.

Lemma update_tx_ok_calls (zone original : string) (record : DNSRecord)
  (calls : list client_go.Call) :
  TxRun (normalizeZoneName zone) (beginMsg zone) (commitMsg zone)
        (updateSteps zone original record) calls None ->
  exists o1 o2 o3 o4,
    calls = [mkCall ["zone-begin"; normalizeZoneName zone] (Ok o1);
             mkCall ["zone-unset"; normalizeZoneName zone; original] (Ok o2);
             mkCall (client_go.setArgs (normalizeZoneName zone) record) (Ok o3);
             mkCall ["zone-commit"; normalizeZoneName zone] (Ok o4)].
Proof.
  intros H. inversion H as [|o1 calls1 res1 H1]; subst.
  inversion H1 as [| | |st more o2 calls2 res2 H2]; subst.
  inversion H2 as [| | |st' more' o3 calls3 res3 H3]; subst.
  inversion H3 as [o4| | |]; subst. now exists o1, o2, o3, o4.
Qed.

Lemma delete_tx_ok_calls (zone name : string) (recordType : RecordType)
  (calls : list client_go.Call) :
  TxRun zone (beginMsg zone) (commitMsg zone) (deleteSteps zone name recordType) calls None ->
  exists o1 o2 o3,
    calls = [mkCall ["zone-begin"; zone] (Ok o1);
             mkCall ["zone-unset"; zone; name ++ " " ++ recordType] (Ok o2);
             mkCall ["zone-commit"; zone] (Ok o3)].
Proof.
  intros H. inversion H as [|o1 calls1 res1 H1]; subst.
  inversion H1 as [| | |st more o2 calls2 res2 H2]; subst.
  inversion H2 as [o3| | |]; subst. now exists o1, o2, o3.
Qed.

(** X16.  An operation that returns no error has committed what it did.
    [UpdateRecord] then made exactly the calls zone-read, zone-begin,
    zone-unset, zone-set and zone-commit, in this order, and each of them
    succeeded; [DeleteRecord] made zone-read, zone-begin, zone-unset and
    zone-commit, each with success; [CreateRecord] made either the
    zone-read alone (the record was there) or the zone-read followed by
    zone-begin, zone-set and zone-commit, these three with success. *)
Theorem success_means_committed :
  (forall c zone record (w : World),
      snd (fst (CreateRecord c zone record w)) = None ->
      exists rd,
        trace (snd (CreateRecord c zone record w))
        = (trace w ++ [mkCall ["zone-read"; normalizeZoneName zone] rd])%list
        \/ exists o1 o2 o3,
             trace (snd (CreateRecord c zone record w))
             = (trace w
                ++ [mkCall ["zone-read"; normalizeZoneName zone] rd;
                    mkCall ["zone-begin"; normalizeZoneName zone] (Ok o1);
                    mkCall (client_go.setArgs (normalizeZoneName zone)
                              (fst (Validate record))) (Ok o2);
                    mkCall ["zone-commit"; normalizeZoneName zone] (Ok o3)])%list)
  /\ (forall c zone name recordType updates (w : World),
         fst (UpdateRecord c zone name recordType updates w) = None ->
         exists existing rec' out o1 o2 o3 o4,
           fst (GetRecord c zone name recordType w) = Ok existing
           /\ Validate (client_go.applyUpdates existing updates) = (rec', None)
           /\ trace (snd (UpdateRecord c zone name recordType updates w))
              = (trace w
                 ++ [mkCall ["zone-read"; normalizeZoneName zone] (Ok out);
                     mkCall ["zone-begin"; normalizeZoneName zone] (Ok o1);
                     mkCall ["zone-unset"; normalizeZoneName zone; ToKnotFormat existing]
                            (Ok o2);
                     mkCall (client_go.setArgs (normalizeZoneName zone) rec') (Ok o3);
                     mkCall ["zone-commit"; normalizeZoneName zone] (Ok o4)])%list)
  /\ (forall c zone name recordType (w : World),
         fst (DeleteRecord c zone name recordType w) = None ->
         exists out o1 o2 o3,
           trace (snd (DeleteRecord c zone name recordType w))
           = (trace w
              ++ [mkCall ["zone-read"; normalizeZoneName zone] (Ok out);
                  mkCall ["zone-begin"; zone] (Ok o1);
                  mkCall ["zone-unset"; zone; (name ++ " " ++ recordType)%string] (Ok o2);
                  mkCall ["zone-commit"; zone] (Ok o3)])%list).
Proof.
  split; [|split].
  - intros c zone record w H.
    destruct (CreateRecord c zone record w) as [[rec' res] w1] eqn:E. cbn [fst snd] in *.
    subst res. destruct (CreateRecord_ok_inv _ _ _ _ _ _ _ E eq_refl) as [HA HV].
    rewrite HV. cbn [fst].
    destruct (GetRecord_spec c zone (Name rec') (Type_ rec') w HA) as (g & rd & w0 & HG & T0).
    exists rd. destruct (probeSame g rec') eqn:HP.
    + left. rewrite (CreateRecord_same _ _ _ _ _ _ _ HA HV HG HP) in E.
      injection E as <-. exact T0.
    + right. destruct (CreateRecord_mutates _ _ _ _ _ _ _ HA HV HG HP)
        as (res & w' & calls & E' & T' & R).
      rewrite E' in E. injection E as -> <-.
      destruct (create_tx_ok_calls _ _ _ R) as (o1 & o2 & o3 & ->).
      exists o1, o2, o3. rewrite T', T0, <- app_assoc. reflexivity.
  - intros c zone name recordType updates w H.
    destruct (client_go.IsZoneAllowed c zone) eqn:HA.
    2:{ unfold client_go.UpdateRecord in H. rewrite HA in H. discriminate H. }
    destruct (GetRecord c zone name recordType w) as [[existing|err] w1] eqn:HG.
    2:{ unfold client_go.UpdateRecord in H. rewrite HA in H. cbn [negb] in H.
        unfold client_go.bind at 1 in H. rewrite HG in H. discriminate H. }
    destruct (Validate (client_go.applyUpdates existing updates)) as [rec' [e|]] eqn:HV.
    { unfold client_go.UpdateRecord in H. rewrite HA in H. cbn [negb] in H.
      unfold client_go.bind at 1 in H. rewrite HG in H. cbv zeta in H.
      rewrite HV in H. discriminate H. }
    destruct (UpdateRecord_mutates _ _ _ _ updates _ _ _ _ HA HG HV)
      as (res & w' & calls & E & T & R).
    rewrite E in H |- *. cbn [fst snd] in *. subst res.
    destruct (GetRecord_found_read _ _ _ _ _ _ _ HG) as (out & T1).
    destruct (update_tx_ok_calls _ _ _ _ R) as (o1 & o2 & o3 & o4 & ->).
    exists existing, rec', out, o1, o2, o3, o4. split; [reflexivity|]. split; [exact HV|].
    rewrite T, T1, <- app_assoc. reflexivity.
  - intros c zone name recordType w H.
    destruct (client_go.IsZoneAllowed c zone) eqn:HA.
    2:{ unfold client_go.DeleteRecord in H. rewrite HA in H. discriminate H. }
    destruct (GetRecord c zone name recordType w) as [[existing|err] w1] eqn:HG.
    2:{ unfold client_go.DeleteRecord in H. rewrite HA in H. cbn [negb] in H.
        unfold client_go.bind at 1 in H. rewrite HG in H. discriminate H. }
    destruct (DeleteRecord_mutates _ _ _ _ _ _ _ HA HG) as (res & w' & calls & E & T & R).
    rewrite E in H |- *. cbn [fst snd] in *. subst res.
    destruct (GetRecord_found_read _ _ _ _ _ _ _ HG) as (out & T1).
    destruct (delete_tx_ok_calls _ _ _ _ R) as (o1 & o2 & o3 & ->).
    exists out, o1, o2, o3. rewrite T, T1, <- app_assoc. reflexivity.
Qed.

Lemma setArgs_zone (z : string) (r : DNSRecord) : nth 1 (client_go.setArgs z r) "" = z.
Proof.
  unfold client_go.setArgs. cbv zeta.
  now destruct ((Type_ r =? RecordTypeMX) && negb (isNil (Priority r))).
Qed.

(** X17.  The zone that the calls name.  Every call of [CreateRecord] and
    of [UpdateRecord] names the zone in its trailing-dot form.
    [DeleteRecord] does so in its zone-read only: its zone-begin,
    zone-unset, zone-commit and zone-abort name the zone as the caller
    wrote it, and the match of its zone-unset is the name and the type
    with one space between them. *)
Theorem zone_argument_of_calls :
  (forall c zone record (w : World) calls,
      trace (snd (CreateRecord c zone record w)) = (trace w ++ calls)%list ->
      forall call, In call calls ->
        nth 1 (client_go.call_args call) "" = normalizeZoneName zone)
  /\ (forall c zone name recordType updates (w : World) calls,
         trace (snd (UpdateRecord c zone name recordType updates w)) = (trace w ++ calls)%list ->
         forall call, In call calls ->
           nth 1 (client_go.call_args call) "" = normalizeZoneName zone)
  /\ (forall c zone name recordType (w : World) calls,
         trace (snd (DeleteRecord c zone name recordType w)) = (trace w ++ calls)%list ->
         forall call, In call calls ->
           client_go.call_args call = ["zone-read"; normalizeZoneName zone]
           \/ client_go.call_args call = ["zone-begin"; zone]
           \/ client_go.call_args call = ["zone-unset"; zone; name ++ " " ++ recordType]
           \/ client_go.call_args call = ["zone-commit"; zone]
           \/ client_go.call_args call = ["zone-abort"; zone]).
Proof.
  split; [|split].
  - intros c zone record w calls HT call HI.
    destruct (CreateRecord_calls c zone record w) as (calls' & T & HC).
    rewrite T in HT. apply app_inv_head in HT. subst calls'.
    destruct HC as [->|(rd & tx & -> & HX)]; [destruct HI|].
    destruct HI as [<-|HI]; [reflexivity|].
    destruct HX as [->|HX]; [destruct HI|].
    destruct (TxRun_calls _ _ _ _ _ _ HX _ HI) as [H|[H|[H|(st & [<-|[]] & H)]]];
      rewrite H; try reflexivity. apply setArgs_zone.
  - intros c zone name recordType updates w calls HT call HI.
    destruct (UpdateRecord_calls c zone name recordType updates w) as (calls' & T & HC).
    rewrite T in HT. apply app_inv_head in HT. subst calls'.
    destruct HC as [->|(rd & tx & -> & HX)]; [destruct HI|].
    destruct HI as [<-|HI]; [reflexivity|].
    destruct HX as [->|(existing & rec' & _ & _ & HX)]; [destruct HI|].
    destruct (TxRun_calls _ _ _ _ _ _ HX _ HI) as [H|[H|[H|(st & [<-|[<-|[]]] & H)]]];
      rewrite H; try reflexivity. apply setArgs_zone.
  - intros c zone name recordType w calls HT call HI.
    destruct (DeleteRecord_calls c zone name recordType w) as (calls' & T & HC).
    rewrite T in HT. apply app_inv_head in HT. subst calls'.
    destruct HC as [->|(rd & tx & -> & HX)]; [destruct HI|].
    destruct HI as [<-|HI]; [now left|].
    destruct HX as [->|HX]; [destruct HI|].
    destruct (TxRun_calls _ _ _ _ _ _ HX _ HI) as [H|[H|[H|(st & [<-|[]] & H)]]];
      rewrite H; auto 6.
Qed.

Lemma samePriority_eq (a b : option N) : client_go.samePriority a b = true <-> a = b.
Proof.
  destruct a as [x|], b as [y|]; cbn; try (split; congruence).
  rewrite N.eqb_eq. split; congruence.
Qed.

(** X25.  [CreateRecord] goes on after its probe unless the probe found a
    record of the same TTL, data and priority.  When the probe found a
    record that differs, and also when the probe failed, be it because
    there is no such record or because the zone-read itself failed, the
    next call is zone-begin.  The calls after it are zone-set, zone-commit
    and zone-abort only: [CreateRecord] never issues a zone-unset, so a
    record of other values is not removed before the new one is set. *)
Theorem CreateRecord_goes_on_after_probe (c : client_go.Client) (zone : string)
  (record rec' : DNSRecord) (w w1 : World) (probe : result DNSRecord) :
  client_go.IsZoneAllowed c zone = true ->
  Validate record = (rec', None) ->
  GetRecord c zone (Name rec') (Type_ rec') w = (probe, w1) ->
  match probe with
  | Err _ => True
  | Ok existing =>
      TTL existing <> TTL rec' \/ Data existing <> Data rec'
      \/ Priority existing <> Priority rec'
  end ->
  exists res w' b rest,
    CreateRecord c zone record w = ((rec', res), w')
    /\ trace w' = (trace w1 ++ mkCall ["zone-begin"; normalizeZoneName zone] b :: rest)%list
    /\ forall call, In call rest ->
         In (subcommand call) ["zone-set"; "zone-commit"; "zone-abort"].
Proof.
  intros HA HV HG HD.
  assert (HP : probeSame probe rec' = false).
  { destruct probe as [existing|e]; [|reflexivity]. cbn [probeSame].
    destruct (TTL existing =? TTL rec')%N eqn:E1; [|reflexivity].
    destruct (Data existing =? Data rec') eqn:E2; [|reflexivity].
    destruct (client_go.samePriority (Priority existing) (Priority rec')) eqn:E3;
      [|reflexivity].
    apply N.eqb_eq in E1. apply String.eqb_eq in E2. apply samePriority_eq in E3.
    destruct HD as [H|[H|H]]; contradiction. }
  destruct (CreateRecord_mutates _ _ _ _ _ _ _ HA HV HG HP) as (res & w' & calls & E & T & R).
  inversion R as [e|o calls1 res1 R1]; subst.
  - exists (Some (ErrorW (beginMsg zone) e "")), w', (Err e), [].
    split; [exact E|]. split; [exact T|]. intros call [].
  - exists res, w', (Ok o), calls1. split; [exact E|]. split; [exact T|].
    intros call HI.
    destruct (StepsRun_calls _ _ _ _ _ R1 _ HI) as [H|[H|(st & [<-|[]] & H)]];
      unfold subcommand; rewrite H; cbn [step_args nth In]; rewrite ?setArgs_subcommand; auto.
Qed.

Lemma zoneLines_allowed (c : client_go.Client) (lines : list string) :
  Forall (fun z => client_go.IsZoneAllowed c z = true) (client_go.zoneLines c lines).
Proof.
  induction lines as [|text rest IH]; [constructor|].
  cbn [client_go.zoneLines]. cbv zeta.
  destruct (strings.HasPrefix _ "zone["); [|exact IH].
  destruct (_ && _); [|exact IH].
  destruct (client_go.IsZoneAllowed c _) eqn:E; [|exact IH].
  constructor; [exact E | exact IH].
Qed.

(** X23.  [GetZones] makes one call, conf-read zone, and fails only when
    that call fails.  Every zone it lists is one that the guard allows: a
    zone of the configuration that is outside the allow-list is never
    shown. *)
Theorem GetZones_lists_allowed_zones (c : client_go.Client) (w : World) :
  exists rd w',
    executeKnotc c ["conf-read"; "zone"] w = (rd, w')
    /\ snd (GetZones c w) = w'
    /\ trace w' = (trace w ++ [mkCall ["conf-read"; "zone"] rd])%list
    /\ match rd with
       | Err e => fst (GetZones c w) = Err (ErrorW "failed to get zones: " e "")
       | Ok output =>
           exists zones,
             fst (GetZones c w) = Ok zones
             /\ Forall (fun z => client_go.IsZoneAllowed c z = true) zones
       end.
Proof.
  unfold client_go.GetZones, client_go.bind, client_go.ret.
  destruct (executeKnotc_spec c ["conf-read"; "zone"] w) as (rd & w' & E & T).
  exists rd, w'. rewrite E. split; [reflexivity|].
  destruct rd as [output|e]; cbn [fst snd]; split; try reflexivity; split; try exact T.
  - eexists. split; [reflexivity|]. apply zoneLines_allowed.
  - reflexivity.
Qed.







End StoreFacts.

(* ================================================================== *)
(** * The match of an update *)
(* ================================================================== *)


Section UpdateFacts.
Import knot.
Context {parser : net.Parser} {codec : Codec}.
Variable Knotc : Type.
Variable run : Knotc -> string -> list string -> (string * option error) * Knotc.

#[local] Abbreviation World := (client_go.World Knotc).
#[local] Abbreviation trace := (client_go.trace Knotc).
#[local] Abbreviation mkCall := client_go.mkCall.
#[local] Abbreviation normalizeZoneName := client_go.normalizeZoneName.


End UpdateFacts.


(* ================================================================== *)
(** * The handlers *)
(* ================================================================== *)

(** Whether a text holds a phrase does not depend on where the count of
    the positions starts. *)
Lemma indexFrom_found (s sub : string) :
  forall i j, (0 <= i)%Z -> (0 <= j)%Z ->
    (0 <=? strings.indexFrom i s sub)%Z = (0 <=? strings.indexFrom j s sub)%Z.
Proof.
  induction s as [|c s IH]; intros i j Hi Hj; cbn [strings.indexFrom].
  - destruct (strings.HasPrefix "" sub); [|reflexivity].
    transitivity true; [|symmetry]; apply Z.leb_le; lia.
  - destruct (strings.HasPrefix (String c s) sub).
    + transitivity true; [|symmetry]; apply Z.leb_le; lia.
    + apply IH; lia.
Qed.

(** A text that begins with a byte other than the first of the phrase
    holds the phrase when the rest of the text does. *)
Lemma Contains_skip (c d : ascii) (s sub : string) :
  Ascii.eqb c d = false ->
  strings.Contains (String c s) (String d sub) = strings.Contains s (String d sub).
Proof.
  intros H. unfold strings.Contains, strings.Index. cbn [strings.indexFrom strings.HasPrefix].
  rewrite H. cbn [andb]. apply indexFrom_found; lia.
Qed.

Lemma not_found_mentions (e : error) :
  api.mentions (ErrorW "record not found: " e "") "record not found" = true
  /\ api.mentions (ErrorW "record not found: " e "") "zone not allowed"
     = api.mentions e "zone not allowed".
Proof.
  unfold api.mentions. cbn [Error]. rewrite append_nil_r. split; [reflexivity|].
  cbn [String.append]. rewrite !Contains_skip by reflexivity. reflexivity.
Qed.

Lemma valid_type_not_empty (t : string) :
  knot.IsValidRecordType t = true -> (t =? "") = false.
Proof. destruct t; [discriminate | reflexivity]. Qed.

Section HandlerFacts.
Import knot.
Context {parser : net.Parser} {codec : Codec}.
Variable Knotc : Type.
Variable run : Knotc -> string -> list string -> (string * option error) * Knotc.

#[local] Abbreviation World := (client_go.World Knotc).

(** X20.  The handlers answer a zone that is not allowed with the status
    403 and the text "Access to zone not allowed", and the control plane
    is not called.  This holds for the six handlers that take a zone, once
    the request has passed the checks that come before the client is
    called: the parameters are not empty, the type is a supported one, the
    body binds, and, for a create request, the record validates. *)
Theorem denied_zone_is_answered_forbidden (h : client_go.Client) (zone : string)
  (w : World) :
  zone <> "" ->
  client_go.IsZoneAllowed h zone = false ->
  let forbidden :=
    api.mkResponse api.StatusForbidden (api.ErrorBody "Access to zone not allowed") in
  api.GetRecords Knotc run h zone w = (forbidden, w)
  /\ (forall name type_,
        name <> "" -> IsValidRecordType (strings.ToUpper type_) = true ->
        api.GetRecord Knotc run h zone name type_ w = (forbidden, w))
  /\ (forall req,
        ValidateRequest req = None ->
        api.CreateRecord Knotc run h zone (Some req) w = (forbidden, w))
  /\ (forall name type_ req,
        name <> "" -> IsValidRecordType (strings.ToUpper type_) = true ->
        api.UpdateRecord Knotc run h zone name type_ (Some req) w = (forbidden, w))
  /\ (forall name type_,
        name <> "" -> IsValidRecordType (strings.ToUpper type_) = true ->
        api.DeleteRecord Knotc run h zone name type_ w = (forbidden, w))
  /\ api.ReloadZone Knotc run h zone w = (forbidden, w).
Proof.
  intros HZ HA. cbv zeta. apply String.eqb_neq in HZ.
  assert (HM : api.mentions (ErrorS ("zone not allowed: " ++ zone)) "zone not allowed" = true)
    by reflexivity.
  repeat split.
  - unfold api.GetRecords, client_go.GetRecords. rewrite HZ, HA. cbn [negb].
    unfold client_go.bind, client_go.ret. now rewrite HM.
  - intros name type_ HN HT. apply String.eqb_neq in HN.
    unfold api.GetRecord, client_go.GetRecord. cbv zeta.
    rewrite HZ, HN, (valid_type_not_empty _ HT), HT, HA. cbn [negb orb].
    unfold client_go.bind, client_go.ret. now rewrite HM.
  - intros req HV. unfold api.CreateRecord, client_go.CreateRecord.
    rewrite HZ, HV, HA. cbn [negb]. unfold client_go.bind, client_go.ret. now rewrite HM.
  - intros name type_ req HN HT. apply String.eqb_neq in HN.
    unfold api.UpdateRecord, client_go.UpdateRecord. cbv zeta.
    rewrite HZ, HN, (valid_type_not_empty _ HT), HT, HA. cbn [negb orb].
    unfold client_go.bind, client_go.ret. now rewrite HM.
  - intros name type_ HN HT. apply String.eqb_neq in HN.
    unfold api.DeleteRecord, client_go.DeleteRecord. cbv zeta.
    rewrite HZ, HN, (valid_type_not_empty _ HT), HT, HA. cbn [negb orb].
    unfold client_go.bind, client_go.ret. now rewrite HM.
  - unfold api.ReloadZone, client_go.ReloadZone. rewrite HZ, HA. cbn [negb].
    unfold client_go.bind, client_go.ret. now rewrite HM.
Qed.

(** X21.  The handler of a create request.  A body that does not bind is
    answered 400.  A request whose record does not validate is answered
    400 with the text of the validation error, before the guard is asked
    and without a call of the control plane.  When the client returns no
    error the answer is 201, and its body is the record as [Validate] left
    it, with the default TTL and the completed data, not as it was sent. *)
Theorem CreateRecord_handler_answers (h : client_go.Client) (zone : string)
  (req : CreateRecordRequest) (w : World) :
  zone <> "" ->
  api.CreateRecord Knotc run h zone None w
  = (api.mkResponse api.StatusBadRequest (api.ErrorBody "Invalid request body"), w)
  /\ (forall e,
        ValidateRequest req = Some e ->
        api.CreateRecord Knotc run h zone (Some req) w
        = (api.mkResponse api.StatusBadRequest (api.ErrorBody (Error e)), w))
  /\ (forall r' w',
        client_go.CreateRecord Knotc run h zone (ToRecord req) w = ((r', None), w') ->
        api.CreateRecord Knotc run h zone (Some req) w
        = (api.mkResponse api.StatusCreated (api.RecordBody r'), w')
        /\ Validate (ToRecord req) = (r', None)).
Proof.
  intros HZ. apply String.eqb_neq in HZ. unfold api.CreateRecord. rewrite HZ.
  split; [reflexivity|]. split.
  - intros e HV. now rewrite HV.
  - intros r' w' HC.
    destruct (CreateRecord_ok_inv Knotc run _ _ _ _ _ _ _ HC eq_refl) as [_ HV].
    split; [|exact HV].
    assert (HR : ValidateRequest req = None).
    { unfold ValidateRequest. cbv zeta. fold (ToRecord req). now rewrite HV. }
    rewrite HR. cbv zeta. unfold client_go.bind. rewrite HC. reflexivity.
Qed.

(** X22.  The handlers of an update and of a delete request answer a fetch
    that failed with 404 "Record not found", unless the text of the error
    holds "zone not allowed", which they answer with 403: never with 500.
    The fetch fails when the record is missing and also when the zone-read
    fails, so a control plane that cannot be reached is answered with 404
    as well. *)
Theorem failed_fetch_is_answered_not_found (h : client_go.Client)
  (zone name type_ : string) (w w1 : World) (e : error) :
  zone <> "" -> name <> "" ->
  IsValidRecordType (strings.ToUpper type_) = true ->
  client_go.IsZoneAllowed h zone = true ->
  client_go.GetRecord Knotc run h zone name (strings.ToUpper type_) w = (Err e, w1) ->
  let answer :=
    if api.mentions e "zone not allowed"
    then api.mkResponse api.StatusForbidden (api.ErrorBody "Access to zone not allowed")
    else api.mkResponse api.StatusNotFound (api.ErrorBody "Record not found") in
  (forall req, api.UpdateRecord Knotc run h zone name type_ (Some req) w = (answer, w1))
  /\ api.DeleteRecord Knotc run h zone name type_ w = (answer, w1).
Proof.
  intros HZ HN HT HA HG. cbv zeta.
  apply String.eqb_neq in HZ. apply String.eqb_neq in HN.
  destruct (not_found_mentions e) as [M1 M2].
  split.
  - intros req. unfold api.UpdateRecord, client_go.UpdateRecord. cbv zeta.
    rewrite HZ, HN, (valid_type_not_empty _ HT), HT, HA. cbn [negb orb].
    unfold client_go.bind at 1 2. rewrite HG. unfold client_go.ret, api.JSON.
    rewrite M1, M2. now destruct (api.mentions e "zone not allowed").
  - unfold api.DeleteRecord, client_go.DeleteRecord. cbv zeta.
    rewrite HZ, HN, (valid_type_not_empty _ HT), HT, HA. cbn [negb orb].
    unfold client_go.bind at 1 2. rewrite HG. unfold client_go.ret, api.JSON.
    rewrite M1, M2. now destruct (api.mentions e "zone not allowed").
Qed.

(** X28.  The handler of an update request, once the client has returned
    no error, fetches the record again and answers 200 whatever the fetch
    gives: the fetched record, or the text "Record updated successfully"
    when the fetch fails. *)
Theorem UpdateRecord_handler_answers_ok (h : client_go.Client)
  (zone name type_ : string) (req : UpdateRecordRequest) (w w1 : World) :
  zone <> "" -> name <> "" ->
  IsValidRecordType (strings.ToUpper type_) = true ->
  client_go.UpdateRecord Knotc run h zone name (strings.ToUpper type_) req w = (None, w1) ->
  api.UpdateRecord Knotc run h zone name type_ (Some req) w
  = (api.mkResponse api.StatusOK
       match fst (client_go.GetRecord Knotc run h zone name (strings.ToUpper type_) w1) with
       | Ok updatedRecord => api.RecordBody updatedRecord
       | Err _ => api.MessageBody "Record updated successfully"
       end,
     snd (client_go.GetRecord Knotc run h zone name (strings.ToUpper type_) w1)).
Proof.
  intros HZ HN HT HU. apply String.eqb_neq in HZ. apply String.eqb_neq in HN.
  unfold api.UpdateRecord. cbv zeta.
  rewrite HZ, HN, (valid_type_not_empty _ HT), HT. cbn [negb orb].
  unfold client_go.bind at 1. rewrite HU. unfold client_go.bind.
  destruct (client_go.GetRecord Knotc run h zone name (strings.ToUpper type_) w1)
    as [[r|e] w2]; reflexivity.
Qed.

End HandlerFacts.

(* ================================================================== *)
(** * The authentication middleware *)
(* ================================================================== *)

Lemma TrimPrefix_append (p s : string) : middleware.TrimPrefix (p ++ s) p = s.
Proof.
  unfold middleware.TrimPrefix.
  assert (H : strings.HasPrefix (p ++ s) p = true) by (apply HasPrefix_spec; now exists s).
  rewrite H. apply drop_append.
Qed.

(** X24.  With authentication enabled and keys configured, the middleware
    lets a request through exactly when it presents a configured key that
    is not empty: in the header X-API-Key, or, when that header is absent
    or empty, as "Bearer <key>" in the header Authorization.  A key in
    X-API-Key that is not configured is not made good by a bearer token,
    and an empty string among the configured keys admits nobody.  With
    authentication disabled every request passes; enabled without keys,
    none does. *)
Theorem AuthMiddleware_admits_configured_keys (apiKeys : list string)
  (xAPIKey authorization : string) :
  (apiKeys <> [] ->
   (middleware.AuthMiddleware apiKeys true xAPIKey authorization = middleware.Next
    <-> (xAPIKey <> "" /\ In xAPIKey apiKeys)
        \/ (xAPIKey = ""
            /\ exists key, key <> "" /\ In key apiKeys /\ authorization = "Bearer " ++ key)))
  /\ middleware.AuthMiddleware apiKeys false xAPIKey authorization = middleware.Next
  /\ middleware.AuthMiddleware [] true xAPIKey authorization <> middleware.Next.
Proof.
  split; [|split; [reflexivity | discriminate]].
  intros HK. unfold middleware.AuthMiddleware. cbn [negb].
  destruct apiKeys as [|k0 ks]; [congruence|]. cbn [List.length Nat.eqb]. cbv zeta.
  assert (EX : forall a l, existsb (fun validKey => a =? validKey) l = true <-> In a l).
  { intros a l. rewrite existsb_exists. split.
    - intros (x & HI & E). apply String.eqb_eq in E. now subst.
    - intros HI. exists a. split; [exact HI | apply String.eqb_refl]. }
  destruct (String.eqb_spec xAPIKey "") as [->|HX].
  - destruct (strings.HasPrefix authorization "Bearer ") eqn:HP.
    + apply HasPrefix_spec in HP. destruct HP as [key ->].
      rewrite TrimPrefix_append.
      destruct (String.eqb_spec key "") as [->|HKey].
      * split; [discriminate|]. intros [[X _]|(_ & k & Hk & _ & E)]; [congruence|].
        apply append_inv_head in E. congruence.
      * destruct (existsb _ (k0 :: ks)) eqn:EE.
        -- split; [|reflexivity]. intros _. right. split; [reflexivity|].
           exists key. apply EX in EE. auto.
        -- split; [discriminate|]. intros [[X _]|(_ & k & Hk & HI & E)]; [congruence|].
           apply append_inv_head in E. subst k. apply EX in HI. congruence.
    + cbn [String.eqb]. split; [discriminate|].
      intros [[X _]|(_ & k & _ & _ & E)]; [congruence|].
      assert (strings.HasPrefix authorization "Bearer " = true)
        by (apply HasPrefix_spec; now exists k).
      congruence.
  - apply String.eqb_neq in HX. rewrite HX.
    destruct (existsb _ (k0 :: ks)) eqn:EE.
    + split; [|reflexivity]. intros _. left. apply String.eqb_neq in HX.
      apply EX in EE. auto.
    + split; [discriminate|]. intros [[_ HI]|[X _]].
      * apply EX in HI. congruence.
      * apply String.eqb_neq in HX. contradiction.
Qed.

(* ================================================================== *)
(** * The owner name of zone-set *)
(* ================================================================== *)

Lemma rev_inj (a b : string) : strings.rev a = strings.rev b -> a = b.
Proof. intros H. rewrite <- (rev_involutive a), <- (rev_involutive b). now rewrite H. Qed.

Lemma append_inv_tail (a b c : string) : a ++ c = b ++ c -> a = b.
Proof.
  intros H. apply (f_equal strings.rev) in H. rewrite !rev_append in H.
  apply append_inv_head in H. now apply rev_inj.
Qed.

Lemma HasSuffix_false (s suffix : string) :
  strings.HasSuffix s suffix = false <-> ~ exists p, s = p ++ suffix.
Proof.
  rewrite <- HasSuffix_spec. destruct (strings.HasSuffix s suffix); split; intros H;
    congruence || (exfalso; now apply H).
Qed.

Lemma TrimSuffix_none (s suffix : string) :
  strings.HasSuffix s suffix = false -> strings.TrimSuffix s suffix = s.
Proof. intros H. unfold strings.TrimSuffix. now rewrite H. Qed.

(** X18.  The owner name that [CreateRecord] and [UpdateRecord] hand to
    zone-set.  A record name that ends with the zone is cut before the
    zone, and one dot at the end of what is left is taken off too; a
    record name that does not end with the zone is handed over as it is.
    The cut does not ask for a dot before the zone: under "example.com."
    the name "www.example.com." becomes "www", the name "example.com."
    itself becomes the empty name, and "notexample.com.", a name of
    another domain, becomes "not". *)
Theorem relativeName_cuts_zone_suffix :
  (forall p zone,
      client_go.relativeName (p ++ zone) zone = strings.TrimSuffix p ".")
  /\ (forall name zone,
        strings.HasSuffix name zone = false -> client_go.relativeName name zone = name)
  /\ client_go.relativeName "www.example.com." "example.com." = "www"
  /\ client_go.relativeName "example.com." "example.com." = ""
  /\ client_go.relativeName "notexample.com." "example.com." = "not".
Proof.
  split; [|split; [|repeat split]].
  - intros p zone. unfold client_go.relativeName.
    destruct (strings.HasSuffix p ".") eqn:EP.
    + apply HasSuffix_spec in EP. destruct EP as [q ->].
      replace ((q ++ ".") ++ zone) with (q ++ "." ++ zone) by (symmetry; apply append_assoc).
      rewrite (HasSuffix_append q ("." ++ zone)), (TrimSuffix_append q ("." ++ zone)).
      now rewrite (TrimSuffix_append q ".").
    + assert (E : strings.HasSuffix (p ++ zone) ("." ++ zone) = false).
      { apply HasSuffix_false. intros [q H]. apply HasSuffix_false in EP. apply EP.
        exists q. apply (append_inv_tail _ _ zone). now rewrite append_assoc. }
      rewrite E, HasSuffix_append, TrimSuffix_append. reflexivity.
  - intros name zone H. unfold client_go.relativeName. rewrite H.
    assert (E : strings.HasSuffix name ("." ++ zone) = false).
    { apply HasSuffix_false. intros [q ->]. apply HasSuffix_false in H. apply H.
      exists (q ++ "."). now rewrite append_assoc. }
    now rewrite E.
Qed.

(* ================================================================== *)
(** * The list of zones *)
(* ================================================================== *)

Lemma indexFrom_absent (s sub : string) (i j : Z) :
  strings.indexFrom i s sub = (-1)%Z -> (0 <= i)%Z -> strings.indexFrom j s sub = (-1)%Z.
Proof.
  revert i j. induction s as [|c s IH]; intros i j; cbn [strings.indexFrom].
  - destruct (strings.HasPrefix "" sub); [lia | reflexivity].
  - destruct (strings.HasPrefix (String c s) sub); [lia|].
    intros H Hi. apply (IH (i + 1)%Z); [exact H | lia].
Qed.

(** The first closing bracket after a text that holds none. *)
Lemma indexFrom_bracket (z rest : string) (i : Z) :
  (0 <= i)%Z -> strings.Index z "]" = (-1)%Z ->
  strings.indexFrom i (z ++ "]" ++ rest) "]" = (i + Z.of_nat (String.length z))%Z.
Proof.
  unfold strings.Index. revert i. induction z as [|c z IH]; intros i Hi H.
  - cbn. lia.
  - assert (HP : forall s, strings.HasPrefix (String c s) "]" = Ascii.eqb c "]"%char).
    { intros s. cbn. apply andb_true_r. }
    cbn [strings.indexFrom String.append] in *. rewrite HP in H |- *.
    destruct (Ascii.eqb c "]"%char); [lia|].
    rewrite IH; [cbn [String.length]; lia | lia |].
    apply (indexFrom_absent _ _ (0 + 1)); [exact H | lia].
Qed.

(** X19.  What [GetZones] reads from a line.  A line that, trimmed, is
    "zone[" followed by a name without a closing bracket, a closing
    bracket and any text, gives that name, which is listed when the guard
    allows it; the text after the bracket is ignored.  A line that,
    trimmed, does not begin with "zone[", or that holds no closing
    bracket, gives nothing. *)
Theorem GetZones_reads_bracketed_name (c : client_go.Client) (text : string)
  (more : list string) :
  (forall z rest,
      strings.TrimSpace text = "zone[" ++ z ++ "]" ++ rest ->
      strings.Index z "]" = (-1)%Z ->
      client_go.zoneLines c (text :: more)
      = if client_go.IsZoneAllowed c z then z :: client_go.zoneLines c more
        else client_go.zoneLines c more)
  /\ (strings.HasPrefix (strings.TrimSpace text) "zone[" = false ->
      client_go.zoneLines c (text :: more) = client_go.zoneLines c more)
  /\ (strings.Index (strings.TrimSpace text) "]" = (-1)%Z ->
      client_go.zoneLines c (text :: more) = client_go.zoneLines c more).
Proof.
  split; [|split].
  - intros z rest HT HZ. cbn [client_go.zoneLines]. cbv zeta. rewrite HT.
    change (strings.HasPrefix ("zone[" ++ z ++ "]" ++ rest) "zone[") with true.
    change (strings.Index ("zone[" ++ z ++ "]" ++ rest) "[") with 4%Z.
    assert (EI : strings.Index ("zone[" ++ z ++ "]" ++ rest) "]"
                 = (5 + Z.of_nat (String.length z))%Z).
    { change (strings.Index ("zone[" ++ z ++ "]" ++ rest) "]")
        with (strings.indexFrom 5 (z ++ "]" ++ rest) "]").
      apply indexFrom_bracket; [lia | exact HZ]. }
    rewrite EI. cbv beta iota.
    replace (5 + Z.of_nat (String.length z) =? -1)%Z with false by (symmetry; lia).
    replace (4 <? 5 + Z.of_nat (String.length z))%Z with true by (symmetry; lia).
    cbn [negb andb Z.eqb].
    assert (ES : client_go.slice ("zone[" ++ z ++ "]" ++ rest) (4 + 1)
                   (5 + Z.of_nat (String.length z)) = z).
    { unfold client_go.slice.
      replace (5 + Z.of_nat (String.length z) - (4 + 1))%Z
        with (Z.of_nat (String.length z)) by lia.
      rewrite Nat2Z.id. change (Z.to_nat (4 + 1)) with 5.
      change (strings.drop 5 ("zone[" ++ z ++ "]" ++ rest)) with (z ++ "]" ++ rest).
      apply take_append. }
    rewrite ES. reflexivity.
  - intros H. cbn [client_go.zoneLines]. cbv zeta. now rewrite H.
  - intros H. cbn [client_go.zoneLines]. cbv zeta. rewrite H.
    destruct (strings.HasPrefix (strings.TrimSpace text) "zone["); [|reflexivity].
    change (-1 =? -1)%Z with true. cbn [negb]. now rewrite andb_false_r.
Qed.

(* ================================================================== *)
(** * The zone prefix of a line *)
(* ================================================================== *)

Lemma TrimSpace_leading_space (l : string) :
  strings.TrimSpace (String " "%char l) = strings.TrimSpace l.
Proof.
  unfold strings.TrimSpace, strings.TrimLeftSpace. cbn [strings.dropSpaces].
  now rewrite spaceWidth_space.
Qed.

(** The second copy takes the zone prefix off a trimmed line. *)
Lemma stripZone_prefixed (z l : string) :
  strings.Index z "]" = (-1)%Z ->
  strings.TrimSpace ("[" ++ z ++ "] " ++ l) = "[" ++ z ++ "] " ++ l ->
  part_001.stripZone ("[" ++ z ++ "] " ++ l) = strings.TrimSpace l.
Proof.
  intros HZ HT. unfold part_001.stripZone. cbv zeta. rewrite HT.
  assert (EI : strings.Index ("[" ++ z ++ "] " ++ l) "]"
               = (1 + Z.of_nat (String.length z))%Z).
  { change (strings.Index ("[" ++ z ++ "] " ++ l) "]")
      with (strings.indexFrom 1 (z ++ "]" ++ String " "%char l) "]").
    apply indexFrom_bracket; [lia | exact HZ]. }
  change (strings.HasPrefix ("[" ++ z ++ "] " ++ l) "[") with true.
  unfold strings.Contains. rewrite EI.
  replace (0 <=? 1 + Z.of_nat (String.length z))%Z with true by (symmetry; apply Z.leb_le; lia).
  cbn [andb].
  replace (1 + Z.of_nat (String.length z) =? -1)%Z with false by (symmetry; lia).
  assert (EL : String.length ("[" ++ z ++ "] " ++ l)
               = S (String.length z + S (S (String.length l)))).
  { cbn [String.append String.length]. now rewrite length_append. }
  rewrite EL.
  replace (1 + Z.of_nat (String.length z)
           <? Z.of_nat (S (String.length z + S (S (String.length l)))) - 1)%Z
    with true by (symmetry; apply Z.ltb_lt; lia).
  cbn [negb andb].
  replace (Z.to_nat (1 + Z.of_nat (String.length z) + 1))
    with (String.length ("[" ++ z ++ "]")).
  2:{ cbn [String.append String.length]. rewrite length_append. cbn [String.length]. lia. }
  replace ("[" ++ z ++ "] " ++ l) with (("[" ++ z ++ "]") ++ String " "%char l).
  2:{ cbn [String.append]. f_equal. now rewrite append_assoc. }
  rewrite drop_append. apply TrimSpace_leading_space.
Qed.

(** X27.  The second copy of the parser drops the zone prefix.  A trimmed
    line that is "[" followed by a zone without a closing bracket, "] "
    and a text parses exactly as that text does alone, error included,
    when the text does not itself begin with a bracket. *)
Theorem part_001_zone_prefix_is_dropped (z l : string) :
  strings.Index z "]" = (-1)%Z ->
  strings.TrimSpace ("[" ++ z ++ "] " ++ l) = "[" ++ z ++ "] " ++ l ->
  strings.HasPrefix (strings.TrimSpace l) "[" = false ->
  part_001.ParseKnotRecord ("[" ++ z ++ "] " ++ l) = part_001.ParseKnotRecord l.
Proof.
  intros HZ HT HB. unfold part_001.ParseKnotRecord.
  rewrite (stripZone_prefixed _ _ HZ HT).
  assert (ES : part_001.stripZone l = strings.TrimSpace l).
  { unfold part_001.stripZone. cbv zeta. now rewrite HB. }
  now rewrite ES.
Qed.

(* ================================================================== *)
(** * The definitions at work *)
(* ================================================================== *)

Example Fields_ex :
  strings.Fields "  www.example.com.   300 IN  A 192.168.1.100 "
  = ["www.example.com."; "300"; "IN"; "A"; "192.168.1.100"].
Proof. reflexivity. Qed.

Example Parse_types_ex :
  types_go.ParseKnotRecord "www.example.com. 300 A 192.168.1.100"
  = Ok (knot.mkDNSRecord "www.example.com." "A" 300 "192.168.1.100" None).
Proof. reflexivity. Qed.

Example Parse_part_ex :
  part_001.ParseKnotRecord "[example.com.] www.example.com. 300 IN MX 10 mail.example.com."
  = Ok (knot.mkDNSRecord "www.example.com." "MX" 300 "mail.example.com." (Some 10%N)).
Proof. reflexivity. Qed.

Example Validate_ex :
  knot.Validate (parser := ipv4.parser) (knot.mkDNSRecord "www" "A" 0 "192.168.1.100" None)
  = (knot.mkDNSRecord "www" "A" 300 "192.168.1.100" None, None).
Proof. reflexivity. Qed.



(** The end-to-end example of the specification: the first call makes the
    begin, set, commit sequence; the same call again makes the probe only;
    a call with another address makes the sequence again. *)
Example CreateRecord_end_to_end :
  let '(r1, v1) := ex.CreateRecord [] "example.com" ex.record_vm ex.w0 in
  let '(r2, v2) := ex.CreateRecord [] "example.com" ex.record_vm v1 in
  let '(r3, v3) := ex.CreateRecord [] "example.com" ex.record_vm_200 v2 in
  (snd r1, snd r2, snd r3) = (None, None, None)
  /\ subcommands (client_go.trace _ v3)
     = ["zone-read"; "zone-begin"; "zone-set"; "zone-commit";
        "zone-read";
        "zone-read"; "zone-begin"; "zone-set"; "zone-commit"].
Proof. vm_compute. split; reflexivity. Qed.

(** C1.  The parser of types.go knows neither the zone prefix nor the class
    field: it refuses a line with the prefix, for the field it takes as
    the TTL is the name, and in a line with a class field it takes the
    class for the type.  The second copy reads the same line, and reads
    back what it formats from it. *)
Theorem types_go_ParseKnotRecord_prefixed_line :
  types_go.ParseKnotRecord ex.line_prefixed = Err (ErrorS "invalid TTL: www.example.com.")
  /\ types_go.ParseKnotRecord "www.example.com. 300 IN A 192.168.1.100"
     = Ok (knot.mkDNSRecord "www.example.com." "IN" 300 "A 192.168.1.100" None)
  /\ part_001.ParseKnotRecord ex.line_prefixed = Ok ex.record_www
  /\ part_001.ParseKnotRecord (part_001.ToKnotFormat ex.record_www) = Ok ex.record_www.
Proof. repeat split; reflexivity. Qed.

(** In the second copy, a record name in brackets does not survive the way
    back: [ToKnotFormat] writes no zone prefix, and the parser takes the
    name for one. *)
Lemma part_001_bracket_name :
  part_001.ParseKnotRecord ex.line_bracket_name
  = Ok (knot.mkDNSRecord "[www]" "A" 300 "192.168.1.100" None)
  /\ part_001.ParseKnotRecord
       (part_001.ToKnotFormat (knot.mkDNSRecord "[www]" "A" 300 "192.168.1.100" None))
     = Err (ErrorS "invalid TTL: IN").
Proof. split; reflexivity. Qed.

(** C7.  The parser of types.go does not join the data of an MX line: it
    keeps the one field after the priority and drops the rest.  The line
    below has two fields after the priority 10; the record that types.go
    returns has the first of them as its data, not their join, which is
    what the second copy returns.  The other half of the claim holds in
    types.go too: the same line without the priority is refused, for the
    field after the type does not read as a number. *)
Theorem types_go_ParseKnotRecord_MX_one_field :
  strings.Fields ex.line_mx_two
  = ["example.com."; "300"; "MX"; "10"; "mail.example.com."; "backup.example.com."]
  /\ types_go.ParseKnotRecord ex.line_mx_two
     = Ok (knot.mkDNSRecord "example.com." "MX" 300 "mail.example.com." (Some 10%N))
  /\ strings.Join (skipn 4 (strings.Fields ex.line_mx_two)) " "
     = "mail.example.com. backup.example.com."
  /\ part_001.ParseKnotRecord ex.line_mx_two
     = Ok (knot.mkDNSRecord "example.com." "MX" 300
             "mail.example.com. backup.example.com." (Some 10%N))
  /\ types_go.ParseKnotRecord ex.line_mx_no_priority
     = Err (ErrorS "invalid MX priority: mail.example.com.")
  /\ part_001.ParseKnotRecord ex.line_mx_no_priority
     = Err (ErrorS "invalid MX priority: mail.example.com.").
Proof. repeat split; reflexivity. Qed.

(** C2.  A zone-commit that fails is the last call of each of the three
    operations: no zone-abort is issued after it, and the operation returns
    the error of the commit.  On the small control plane with a failing
    zone-commit: *)
Theorem commit_failure_is_not_aborted :
  (subcommands (client_go.trace _ (snd (ex.CreateRecord ["zone-commit"] "example.com"
                                          ex.record_vm ex.w0)))
   = ["zone-read"; "zone-begin"; "zone-set"; "zone-commit"]
   /\ snd (fst (ex.CreateRecord ["zone-commit"] "example.com" ex.record_vm ex.w0))
      = Some (ErrorW (commitMsg "example.com") (ex.knotc_error "zone-commit") ""))
  /\ (subcommands (client_go.trace _ (snd (ex.UpdateRecord ["zone-commit"] "example.com"
                                             "www" "A" ex.update_data ex.w_ttl0)))
      = ["zone-read"; "zone-begin"; "zone-unset"; "zone-set"; "zone-commit"]
      /\ fst (ex.UpdateRecord ["zone-commit"] "example.com" "www" "A" ex.update_data ex.w_ttl0)
         = Some (ErrorW (commitMsg "example.com") (ex.knotc_error "zone-commit") ""))
  /\ (subcommands (client_go.trace _ (snd (ex.DeleteRecord ["zone-commit"] "example.com"
                                             "www" "A" ex.w_ttl0)))
      = ["zone-read"; "zone-begin"; "zone-unset"; "zone-commit"]
      /\ fst (ex.DeleteRecord ["zone-commit"] "example.com" "www" "A" ex.w_ttl0)
         = Some (ErrorW (commitMsg "example.com") (ex.knotc_error "zone-commit") "")).
Proof. repeat split; vm_compute; reflexivity. Qed.



(** What the control plane does with a zone-set is not in the code.  On
    the small control plane, whose zone-set replaces the lines of the same
    owner and type, the zone-set of an update replaces the other record of
    that name and type; on the one whose zone-set adds, the other record
    stays. *)
Example UpdateRecord_two_planes :
  client_go.plane _ (snd (ex.UpdateRecord [] "example.com" "www" "A" ex.update_data
                            ex.w_siblings))
  = [["www"; "300"; "A"; "5.6.7.8"]]
  /\ client_go.plane _ (snd (ex.UpdateRecord_adding "example.com" "www" "A" ex.update_data
                               ex.w_siblings))
     = [["www"; "300"; "A"; "9.9.9.9"]; ["www"; "300"; "A"; "5.6.7.8"]]
  /\ map client_go.call_args
         (client_go.trace _ (snd (ex.UpdateRecord_adding "example.com" "www" "A"
                                    ex.update_data ex.w_siblings)))
     = [["zone-read"; "example.com."];
        ["zone-begin"; "example.com."];
        ["zone-unset"; "example.com."; "www 300 A 1.2.3.4"];
        ["zone-set"; "example.com."; "www"; "300"; "A"; "5.6.7.8"];
        ["zone-commit"; "example.com."]].
Proof. repeat split; vm_compute; reflexivity. Qed.

(** ** The theorems at an input *)

Lemma IsZoneAllowed_label_suffix_witness :
  client_go.IsZoneAllowed (client_go.mkClient "" "" ["example.com"]) "www.example.com" = true.
Proof.
  apply (proj1 IsZoneAllowed_label_suffix
           (client_go.mkClient "" "" ["example.com"]) "www.example.com").
  - discriminate.
  - exists "example.com". split; [now left|]. right. exists "www". reflexivity.
Defined.

Lemma Validate_idempotent_witness :
  knot.Validate (parser := ipv4.parser) ex.record_cname_valid = (ex.record_cname_valid, None)
  /\ (knot.TTL ex.record_cname = 0%N -> knot.TTL ex.record_cname_valid = 300%N)
  /\ (In (knot.Type_ ex.record_cname)
         [knot.RecordTypePTR; knot.RecordTypeCNAME; knot.RecordTypeNS; knot.RecordTypeMX] ->
      strings.HasSuffix (knot.Data ex.record_cname) "." = false ->
      knot.Data ex.record_cname_valid = knot.Data ex.record_cname ++ ".").
Proof.
  apply (Validate_idempotent (parser := ipv4.parser) ex.record_cname ex.record_cname_valid).
  reflexivity.
Defined.

Lemma Validate_other_case_type_witness :
  knot.Validate (parser := ipv4.parser) ex.record_lower_mx
  = (knot.mkDNSRecord "mail" "mx" 300 "" None, None).
Proof.
  apply (Validate_other_case_type (parser := ipv4.parser) ex.record_lower_mx).
  - discriminate.
  - reflexivity.
  - cbn. intros [H|[H|[H|[H|[H|[H|[H|[]]]]]]]]; discriminate H.
Defined.

Lemma ParseKnotRecord_MX_priority_data_witness :
  (exists p, strconv.ParseUint "10" 16 = Some p
             /\ knot.Priority ex.record_mx_two = Some p
             /\ knot.Data ex.record_mx_two = "mail.example.com. backup.example.com.")
  /\ exists e, part_001.ParseKnotRecord ex.line_mx_no_priority = Err e.
Proof.
  split.
  - apply (proj1 (proj2 (proj1 (ParseKnotRecord_MX_priority_data ex.line_mx_two)
                           ex.record_mx_two eq_refl))).
    reflexivity.
  - apply (proj2 (ParseKnotRecord_MX_priority_data ex.line_mx_no_priority)); reflexivity.
Defined.

Lemma codec_copies_agree_partly_witness :
  sameResult (types_go.ParseKnotRecord "www.example.com. 300 A 192.168.1.100")
             (part_001.ParseKnotRecord "www.example.com. 300 A 192.168.1.100").
Proof.
  apply (proj2 codec_copies_agree_partly "www.example.com. 300 A 192.168.1.100").
  - reflexivity.
  - reflexivity.
  - discriminate.
Defined.




(** ** The further theorems at an input *)

Lemma types_go_round_trip_witness :
  types_go.ParseKnotRecord (types_go.ToKnotFormat ex.record_www) = Ok ex.record_www.
Proof. apply (types_go_round_trip ex.record_www). vm_compute. reflexivity. Defined.

Lemma part_001_round_trip_witness :
  part_001.ParseKnotRecord (part_001.ToKnotFormat ex.record_mx_two) = Ok ex.record_mx_two.
Proof.
  apply (part_001_round_trip ex.record_mx_two); vm_compute; reflexivity.
Defined.

Lemma ParseKnotRecord_returns_well_formed_witness :
  part_001_wellFormed ex.record_mx_two = true.
Proof.
  apply (proj2 (ParseKnotRecord_returns_well_formed ex.line_mx_two ex.record_mx_two)).
  vm_compute. reflexivity.
Defined.

Lemma Validate_normal_form_witness :
  strings.HasSuffix (knot.Data ex.record_cname_valid) "." = true.
Proof.
  refine (proj1 (proj2 (proj2 (proj2 (proj2 (proj2
    (Validate_normal_form (parser := ipv4.parser) ex.record_cname ex.record_cname_valid
       _)))))) _).
  - vm_compute. reflexivity.
  - right. left. reflexivity.
Defined.

Lemma Validate_refusal_keeps_record_witness :
  knot.TTL ex.record_no_address = 0%N
  /\ ex.record_no_address_300 = knot.set_TTL ex.record_no_address 300.
Proof.
  destruct (Validate_refusal_keeps_record (parser := ipv4.parser)
              ex.record_no_address ex.record_no_address_300 ex.error_no_address)
    as [[H _]|(H1 & H2 & _)].
  - vm_compute. reflexivity.
  - discriminate H.
  - split; assumption.
Defined.

Lemma A_and_AAAA_data_disjoint_witness :
  (snd (knot.Validate (parser := ipv4.parser)
          (knot.mkDNSRecord "www" "A" 300 "192.168.1.100" None)) = None
   <-> knot.to4 (@net.ParseIP ipv4.parser "192.168.1.100") <> None)
  /\ (snd (knot.Validate (parser := ipv4.parser)
             (knot.mkDNSRecord "www" "AAAA" 300 "192.168.1.100" None)) = None
      <-> knot.to4 (@net.ParseIP ipv4.parser "192.168.1.100") = None).
Proof.
  apply (proj2 (A_and_AAAA_data_disjoint (parser := ipv4.parser)
                  "www" "192.168.1.100" 300 None)).
  - discriminate.
  - vm_compute. discriminate.
Defined.

Lemma IsZoneAllowed_below_allowed_witness :
  client_go.IsZoneAllowed sim.client ("www" ++ "." ++ "example.com") = true.
Proof.
  apply (IsZoneAllowed_below_allowed sim.client "example.com" "www").
  - discriminate.
  - reflexivity.
Defined.

Lemma IsZoneAllowed_copies_witness :
  client_go.IsZoneAllowed sim.client "www.example.com" = true.
Proof.
  apply (proj1 (IsZoneAllowed_copies sim.client "www.example.com")).
  - repeat constructor; discriminate.
  - reflexivity.
Defined.

Lemma denied_zone_makes_no_call_witness :
  ex.DeleteRecord [] "other.org" "www" "A" ex.w0
  = (Some (ErrorS "zone not allowed: other.org"), ex.w0).
Proof.
  apply (proj1 (proj2 (proj2 (proj2 (proj2
    (@denied_zone_makes_no_call ipv4.parser types_go.codec sim.Zone (sim.run [])
       sim.client "other.org" ex.w0 eq_refl)))))).
Defined.

Lemma GetRecords_fails_only_with_the_read_witness :
  exists records, fst (ex.GetRecords [] "example.com" ex.w1) = Ok records.
Proof.
  destruct (@GetRecords_fails_only_with_the_read types_go.codec sim.Zone (sim.run [])
              sim.client "example.com" ex.w1 eq_refl)
    as (rd & w' & E & _ & _ & H).
  vm_compute in E. injection E as <- _.
  destruct H as (records & HR & _). exists records. exact HR.
Defined.

Lemma GetRecord_returns_first_match_witness :
  knot.Name ex.record_vm = "test-vm" /\ knot.Type_ ex.record_vm = "A"
  /\ exists pre post,
       fst (ex.GetRecords [] "example.com" ex.w1) = Ok (pre ++ ex.record_vm :: post)%list
       /\ forall x, In x pre -> ~ (knot.Name x = "test-vm" /\ knot.Type_ x = "A").
Proof.
  apply (proj1 (proj2 (@GetRecord_returns_first_match types_go.codec sim.Zone (sim.run [])
                         sim.client "example.com" "test-vm" "A" ex.w1)) ex.record_vm).
  vm_compute. reflexivity.
Defined.

Lemma invalid_record_opens_no_transaction_witness :
  ex.CreateRecord [] "example.com" ex.record_no_address ex.w0
  = ((ex.record_no_address_300, Some (ErrorW "invalid record: " ex.error_no_address "")),
     ex.w0).
Proof.
  apply (proj1 (@invalid_record_opens_no_transaction ipv4.parser types_go.codec sim.Zone
                  (sim.run []) sim.client "example.com" eq_refl)).
  vm_compute. reflexivity.
Defined.

Lemma failed_fetch_opens_no_transaction_witness :
  ex.DeleteRecord [] "example.com" "www" "A" ex.w0
  = (Some (ErrorW "record not found: " ex.error_not_found ""), ex.w0_read).
Proof.
  refine (proj1 (proj2 (@failed_fetch_opens_no_transaction ipv4.parser types_go.codec
                          sim.Zone (sim.run []) sim.client "example.com" "www" "A"
                          ex.w0 ex.w0_read ex.error_not_found eq_refl _))).
  vm_compute. reflexivity.
Defined.

Lemma unset_failure_aborts_and_surfaces_witness :
  fst (ex.DeleteRecord ["zone-unset"; "zone-abort"] "example.com" "www" "A" ex.w_ttl0)
  = Some (ErrorW ("failed to remove record from zone " ++ "example.com" ++ ": ")
                 (ex.knotc_error "zone-unset") "").
Proof.
  refine (proj2 (proj2
    (proj2 (@unset_failure_aborts_and_surfaces ipv4.parser types_go.codec sim.Zone
              (sim.run ["zone-unset"; "zone-abort"]))
       sim.client "example.com" "www" "A" ex.w_ttl0
       [client_go.mkCall ["zone-read"; "example.com."] (Ok "www 0 A 1.2.3.4");
        client_go.mkCall ["zone-begin"; "example.com"] (Ok "OK")]
       (client_go.mkCall ["zone-unset"; "example.com"; "www A"]
          (Err (ex.knotc_error "zone-unset")))
       [client_go.mkCall ["zone-abort"; "example.com"] (Err (ex.knotc_error "zone-abort"))]
       (ex.knotc_error "zone-unset") _ _ _))); vm_compute; reflexivity.
Defined.

Lemma begin_or_commit_failure_is_last_call_witness :
  snd (fst (ex.CreateRecord ["zone-commit"] "example.com" ex.record_vm ex.w0))
  = Some (ErrorW (commitMsg "example.com") (ex.knotc_error "zone-commit") "").
Proof.
  refine (proj2 (proj2
    (proj1 (@begin_or_commit_failure_is_last_call ipv4.parser types_go.codec sim.Zone
              (sim.run ["zone-commit"]))
       sim.client "example.com" ex.record_vm ex.w0
       [client_go.mkCall ["zone-read"; "example.com."] (Ok "");
        client_go.mkCall ["zone-begin"; "example.com."] (Ok "OK");
        client_go.mkCall
          ["zone-set"; "example.com."; "test-vm"; "300"; "A"; "192.168.1.100"] (Ok "OK")]
       (client_go.mkCall ["zone-commit"; "example.com."]
          (Err (ex.knotc_error "zone-commit")))
       [] (ex.knotc_error "zone-commit") _ _) _)); vm_compute; reflexivity.
Defined.

Lemma success_means_committed_witness :
  exists out o1 o2 o3,
    client_go.trace _ (snd (ex.DeleteRecord [] "example.com" "www" "A" ex.w_ttl0))
    = (client_go.trace _ ex.w_ttl0
       ++ [client_go.mkCall ["zone-read"; client_go.normalizeZoneName "example.com"] (Ok out);
           client_go.mkCall ["zone-begin"; "example.com"] (Ok o1);
           client_go.mkCall ["zone-unset"; "example.com"; ("www" ++ " " ++ "A")%string]
                            (Ok o2);
           client_go.mkCall ["zone-commit"; "example.com"] (Ok o3)])%list.
Proof.
  apply (proj2 (proj2 (@success_means_committed ipv4.parser types_go.codec sim.Zone
                         (sim.run [])))
           sim.client "example.com" "www" "A" ex.w_ttl0).
  vm_compute. reflexivity.
Defined.

Lemma zone_argument_of_calls_witness :
  let call := nth 1 ex.delete_calls (client_go.mkCall [] (Ok "")) in
  client_go.call_args call = ["zone-read"; client_go.normalizeZoneName "example.com"]
  \/ client_go.call_args call = ["zone-begin"; "example.com"]
  \/ client_go.call_args call = ["zone-unset"; "example.com"; "www" ++ " " ++ "A"]
  \/ client_go.call_args call = ["zone-commit"; "example.com"]
  \/ client_go.call_args call = ["zone-abort"; "example.com"].
Proof.
  refine (proj2 (proj2 (@zone_argument_of_calls ipv4.parser types_go.codec sim.Zone
                          (sim.run [])))
            sim.client "example.com" "www" "A" ex.w_ttl0 ex.delete_calls _
            (nth 1 ex.delete_calls (client_go.mkCall [] (Ok ""))) _).
  - vm_compute. reflexivity.
  - right. left. reflexivity.
Defined.

Lemma relativeName_cuts_zone_suffix_witness :
  client_go.relativeName "www" "example.com." = "www".
Proof.
  apply (proj1 (proj2 relativeName_cuts_zone_suffix) "www" "example.com.").
  reflexivity.
Defined.

Lemma GetZones_reads_bracketed_name_witness :
  client_go.zoneLines sim.client ["  zone[example.com] master "]
  = if client_go.IsZoneAllowed sim.client "example.com"
    then "example.com" :: client_go.zoneLines sim.client []
    else client_go.zoneLines sim.client [].
Proof.
  apply (proj1 (GetZones_reads_bracketed_name sim.client "  zone[example.com] master " [])
           "example.com" " master").
  - vm_compute. reflexivity.
  - reflexivity.
Defined.

Lemma denied_zone_is_answered_forbidden_witness :
  ex.handle_DeleteRecord [] "other.org" "www" "a" ex.w0
  = (api.mkResponse api.StatusForbidden (api.ErrorBody "Access to zone not allowed"), ex.w0).
Proof.
  refine (proj1 (proj2 (proj2 (proj2 (proj2
    (@denied_zone_is_answered_forbidden ipv4.parser types_go.codec sim.Zone (sim.run [])
       sim.client "other.org" ex.w0 _ eq_refl))))) "www" "a" _ _).
  - discriminate.
  - discriminate.
  - reflexivity.
Defined.

Lemma CreateRecord_handler_answers_witness :
  ex.handle_CreateRecord [] "example.com" (Some ex.request_vm) ex.w0
  = (api.mkResponse api.StatusCreated (api.RecordBody ex.record_vm), ex.w1)
  /\ knot.Validate (parser := ipv4.parser) (knot.ToRecord ex.request_vm)
     = (ex.record_vm, None).
Proof.
  refine (proj2 (proj2 (@CreateRecord_handler_answers ipv4.parser types_go.codec sim.Zone
                          (sim.run []) sim.client "example.com" ex.request_vm ex.w0 _))
            ex.record_vm ex.w1 _).
  - discriminate.
  - vm_compute. reflexivity.
Defined.

Lemma failed_fetch_is_answered_not_found_witness :
  ex.handle_DeleteRecord [] "example.com" "www" "a" ex.w0
  = (api.mkResponse api.StatusNotFound (api.ErrorBody "Record not found"), ex.w0_read).
Proof.
  refine (proj2 (@failed_fetch_is_answered_not_found ipv4.parser types_go.codec sim.Zone
                   (sim.run []) sim.client "example.com" "www" "a" ex.w0 ex.w0_read
                   ex.error_not_found _ _ eq_refl eq_refl _)).
  - discriminate.
  - discriminate.
  - vm_compute. reflexivity.
Defined.

Lemma AuthMiddleware_admits_configured_keys_witness :
  middleware.AuthMiddleware ["secret"] true "" "Bearer secret" = middleware.Next.
Proof.
  apply (proj2 (proj1 (AuthMiddleware_admits_configured_keys ["secret"] "" "Bearer secret")
                  ltac:(discriminate))).
  right. split; [reflexivity|]. exists "secret".
  split; [discriminate|]. split; [now left | reflexivity].
Defined.

Lemma CreateRecord_goes_on_after_probe_witness :
  exists res w' b rest,
    ex.CreateRecord [] "example.com" ex.record_vm ex.w0 = ((ex.record_vm, res), w')
    /\ client_go.trace _ w'
       = (client_go.trace _ ex.w0_probe
          ++ client_go.mkCall ["zone-begin"; client_go.normalizeZoneName "example.com"] b
             :: rest)%list
    /\ forall call, In call rest ->
         In (subcommand call) ["zone-set"; "zone-commit"; "zone-abort"].
Proof.
  apply (@CreateRecord_goes_on_after_probe ipv4.parser types_go.codec sim.Zone (sim.run [])
           sim.client "example.com" ex.record_vm ex.record_vm ex.w0 ex.w0_probe
           (Err ex.error_vm_not_found)).
  - reflexivity.
  - vm_compute. reflexivity.
  - vm_compute. reflexivity.
  - exact I.
Defined.

Lemma part_001_zone_prefix_is_dropped_witness :
  part_001.ParseKnotRecord ("[" ++ "example.com." ++ "] "
                                ++ "www.example.com. 300 IN A 192.168.1.100")
  = part_001.ParseKnotRecord "www.example.com. 300 IN A 192.168.1.100".
Proof.
  apply (part_001_zone_prefix_is_dropped "example.com."
           "www.example.com. 300 IN A 192.168.1.100"); vm_compute; reflexivity.
Defined.

Lemma UpdateRecord_handler_answers_ok_witness :
  ex.handle_UpdateRecord [] "example.com" "www" "a" (Some ex.update_data) ex.w_ttl0
  = (api.mkResponse api.StatusOK
       match fst (ex.GetRecord [] "example.com" "www" (strings.ToUpper "a") ex.w_updated) with
       | Ok updatedRecord => api.RecordBody updatedRecord
       | Err _ => api.MessageBody "Record updated successfully"
       end,
     snd (ex.GetRecord [] "example.com" "www" (strings.ToUpper "a") ex.w_updated)).
Proof.
  refine (@UpdateRecord_handler_answers_ok ipv4.parser types_go.codec sim.Zone (sim.run [])
            sim.client "example.com" "www" "a" ex.update_data ex.w_ttl0 ex.w_updated
            _ _ eq_refl _).
  - discriminate.
  - discriminate.
  - vm_compute. reflexivity.
Defined.
